(** * Geospatial change detection: spectral indices, change statistics,
      classification wrapper and validation

    A shallow embedding of the analytical core of the repository:

    - [src/change_detection.py]   (strict-masking indices, index differencing,
                                   area statistics),
    - [src/feature_extraction.py] (epsilon-stabilised indices),
    - [src/temporal_analysis.py]  (class-transition matrix, change map,
                                   summary statistics),
    - [src/classification.py]     (wrapper around an ensemble estimator),
    - [src/simple_classification.py] (the same pipeline as a script),
    - [src/validation.py]         (masking of background pixels and metrics),
    - [src/visualization.py]      (change map),
    - [src/preprocessing.py]      (normalisation).

    Reading and writing of rasters and plotting are left out: every function
    is modelled from the arrays it reads to the arrays it computes.

    Cells of continuous grids are IEEE-754 binary64 values (numpy's [float64]),
    modelled by Rocq's primitive floats, so that [nan], signed zeros, infinities
    and rounding behave as they do in the program.  Label grids hold integers.
    A Python call that may raise is a function into [result]. *)

From Stdlib Require Import String QArith ZArith List Bool Lia Floats Permutation Sorted.
Close Scope Q_scope.
Import ListNotations.

Set Warnings "-inexact-float".

(** ** Python results and exceptions *)

Module Py.

(** The exception classes that matter here.  The first three are raised by
    numpy and scikit-learn.  The last five are the error taxonomy of the
    specification; they are listed so that statements about them can be
    written down: no definition below ever builds one of them, because no
    line of the sources raises (or defines) them. *)
Inductive exn : Type :=
| IndexError
| ValueError
| NotFittedError
| MissingBandError
| ShapeMismatchError
| InsufficientClassesError
| NotTrainedError
| EmptyLabelSetError.

Inductive result (A : Type) : Type :=
| Ok (a : A)
| Raise (e : exn).

Arguments Ok {A} a.
Arguments Raise {A} e.

Definition bind {A B : Type} (r : result A) (k : A -> result B) : result B :=
  match r with
  | Ok a => k a
  | Raise e => Raise e
  end.

Definition is_ok {A : Type} (r : result A) : bool :=
  match r with Ok _ => true | Raise _ => false end.

(** [for x in xs: acc = body acc x], stopping at the first exception. *)
Fixpoint for_each {A S : Type} (xs : list A) (body : S -> A -> result S)
         (acc : S) : result S :=
  match xs with
  | [] => Ok acc
  | x :: xs' => bind (body acc x) (for_each xs' body)
  end.

(** [seq[i]] on a sequence (non-negative index). *)
Definition getitem {A : Type} (xs : list A) (i : nat) : result A :=
  match nth_error xs i with
  | Some a => Ok a
  | None => Raise IndexError
  end.

End Py.

Import Py.

Declare Scope py_scope.
Delimit Scope py_scope with py.
Notation "x <- e ;; k" := (bind e (fun x => k))
  (at level 61, e at next level, right associativity) : py_scope.
Open Scope py_scope.

(** ** Two-dimensional numpy arrays *)

Module Np.

(** A 2-D [ndarray]: its shape and its cells in row-major order. *)
Record ndarray (A : Type) : Type := mk_ndarray
  { nrows : nat; ncols : nat; flat : list A }.

Arguments mk_ndarray {A} nrows ncols flat.
Arguments nrows {A} _.
Arguments ncols {A} _.
Arguments flat {A} _.

Definition shape {A : Type} (a : ndarray A) : nat * nat := (nrows a, ncols a).

Definition well_formed {A : Type} (a : ndarray A) : Prop :=
  length (flat a) = nrows a * ncols a.

(** Unary ufunc, and binary ufunc against a scalar. *)
Definition map {A B : Type} (f : A -> B) (a : ndarray A) : ndarray B :=
  mk_ndarray (nrows a) (ncols a) (List.map f (flat a)).

(** Broadcasting of one dimension: equal extents, or one of them is 1. *)
Definition broadcast_dim (m n : nat) : option nat :=
  if Nat.eqb m n then Some m
  else if Nat.eqb m 1 then Some n
  else if Nat.eqb n 1 then Some m
  else None.

(** The cells of [a] once stretched to shape [(h, w)]: a single column is
    repeated [w] times along each row, a single row is repeated [h] times. *)
Definition stretch_cols {A : Type} (w : nat) (a : ndarray A) : list A :=
  if Nat.eqb (ncols a) w then flat a
  else flat_map (fun x => repeat x w) (flat a).

Definition stretch {A : Type} (h w : nat) (a : ndarray A) : list A :=
  if Nat.eqb (nrows a) h then stretch_cols w a
  else concat (repeat (stretch_cols w a) h).

Definition zip_with {A B C : Type} (f : A -> B -> C)
           (xs : list A) (ys : list B) : list C :=
  List.map (fun p => f (fst p) (snd p)) (combine xs ys).

(** Binary ufunc on two arrays.  Shapes that cannot be broadcast together
    make numpy raise [ValueError: operands could not be broadcast together]. *)
Definition binop {A B C : Type} (f : A -> B -> C)
           (a : ndarray A) (b : ndarray B) : result (ndarray C) :=
  match broadcast_dim (nrows a) (nrows b), broadcast_dim (ncols a) (ncols b) with
  | Some h, Some w =>
      Ok (mk_ndarray h w (zip_with f (stretch h w a) (stretch h w b)))
  | _, _ => Raise ValueError
  end.

(** Cell-wise expressions of three and four operands, broadcast one operand
    after the other. *)
Definition ternop {A B C D : Type} (f : A -> B -> C -> D)
           (a : ndarray A) (b : ndarray B) (c : ndarray C) : result (ndarray D) :=
  ab <- binop pair a b ;;
  binop (fun xy z => f (fst xy) (snd xy) z) ab c.

Definition quadop {A B C D E : Type} (f : A -> B -> C -> D -> E)
           (a : ndarray A) (b : ndarray B) (c : ndarray C) (d : ndarray D)
  : result (ndarray E) :=
  abc <- ternop (fun x y z => (x, y, z)) a b c ;;
  binop (fun xyz w => f (fst (fst xyz)) (snd (fst xyz)) (snd xyz) w) abc d.

(** [np.stack(layers)]: layers of different shapes are refused. *)
Definition stack {A : Type} (layers : list (ndarray A)) : result (list (ndarray A)) :=
  match layers with
  | [] => Raise ValueError
  | first :: _ =>
      if forallb (fun l => Nat.eqb (nrows l) (nrows first)
                            && Nat.eqb (ncols l) (ncols first)) layers
      then Ok layers
      else Raise ValueError
  end.

(** The common shape of two broadcast operands, when there is one. *)
Definition broadcast_shape (s t : nat * nat) : option (nat * nat) :=
  match broadcast_dim (fst s) (fst t), broadcast_dim (snd s) (snd t) with
  | Some h, Some w => Some (h, w)
  | _, _ => None
  end.

(** Two shapes that differ in a dimension where neither extent is 1: the
    shapes numpy cannot broadcast together. *)
Definition incompatible (s t : nat * nat) : Prop :=
  (fst s <> fst t /\ fst s <> 1 /\ fst t <> 1) \/
  (snd s <> snd t /\ snd s <> 1 /\ snd t <> 1).

(** Number of positions [k] at which [p (xs[k]) (ys[k])] holds. *)
Definition positions_where {A B : Type} (p : A -> B -> bool)
           (xs : list A) (ys : list B) : Z :=
  Z.of_nat (length (filter (fun xy => p (fst xy) (snd xy)) (combine xs ys))).

(** Number of cells of [a] at which [p] holds. *)
Definition cells_where {A : Type} (p : A -> bool) (a : ndarray A) : Z :=
  Z.of_nat (length (filter p (flat a))).

(** [a[mask_of a] = v] with the mask computed cell by cell from [a] itself. *)
Definition putmask {A : Type} (p : A -> bool) (v : A) (a : ndarray A) : ndarray A :=
  map (fun x => if p x then v else x) a.

(** [np.sum] of a boolean array: the number of [True] cells (an integer). *)
Definition sum_bool (a : ndarray bool) : Z :=
  fold_left (fun acc (b : bool) => if b then (acc + 1)%Z else acc) (flat a) 0%Z.

(** [np.nansum] of a boolean array: the dtype has no [nan], nothing is
    replaced, and the sum is the one of [np.sum]. *)
Definition nansum_bool (a : ndarray bool) : Z := sum_bool a.

(** [a.flatten()] / [a.reshape(-1)]. *)
Definition flatten {A : Type} (a : ndarray A) : list A := flat a.

(** [a[mask]] for 1-D [a] and a 1-D boolean [mask]: numpy raises
    [IndexError: boolean index did not match indexed array] unless the two
    have the same length; otherwise the cells under [True] are kept. *)
Fixpoint compress {A : Type} (mask : list bool) (xs : list A) : list A :=
  match mask, xs with
  | m :: mask', x :: xs' => if m then x :: compress mask' xs' else compress mask' xs'
  | _, _ => []
  end.

Definition getitem_mask {A : Type} (xs : list A) (mask : list bool) : result (list A) :=
  if Nat.eqb (length mask) (length xs) then Ok (compress mask xs)
  else Raise IndexError.

(** Conversion of an integer to [float64] (round to nearest, ties to even). *)
Definition float_of_Z (z : Z) : float :=
  SF2Prim (binary_normalize prec emax z 0%Z false).

(** [a[mask] = v] for a 2-D boolean [mask]: numpy raises [IndexError:
    boolean index did not match indexed array] unless the mask has the shape
    of [a]; otherwise the cells under [True] are overwritten. *)
Definition setitem_mask {A : Type} (a : ndarray A) (mask : ndarray bool) (v : A)
  : result (ndarray A) :=
  if Nat.eqb (nrows mask) (nrows a) && Nat.eqb (ncols mask) (ncols a)
  then Ok (mk_ndarray (nrows a) (ncols a)
                      (zip_with (fun x (m : bool) => if m then v else x)
                                (flat a) (flat mask)))
  else Raise IndexError.

(** [np.zeros_like(a)] on an integer array. *)
Definition zeros_like (a : ndarray Z) : ndarray Z := map (fun _ => 0%Z) a.

End Np.

Import Np.

(** The cell-wise arithmetic of float arrays. *)
Definition fadd : ndarray float -> ndarray float -> result (ndarray float) :=
  binop PrimFloat.add.
Definition fsub : ndarray float -> ndarray float -> result (ndarray float) :=
  binop PrimFloat.sub.
Definition fdiv : ndarray float -> ndarray float -> result (ndarray float) :=
  binop PrimFloat.div.

(** A multi-band image: [image[k]] is band [k]; within one image all bands
    have the same shape. *)
Definition image : Type := list (ndarray float).

(** ** [src/change_detection.py]: strict masking *)

Module ChangeDetection.

Open Scope float_scope.

(** [denominator[denominator == 0] = np.nan] *)
Definition mask_zero (denominator : ndarray float) : ndarray float :=
  putmask (fun d => d =? 0) nan denominator.

(** The cells are taken as [float64] already, so [astype(float)] is the
    identity. *)
Definition calculate_ndvi (img : image) : result (ndarray float) :=
  nir <- getitem img 3 ;;
  red <- getitem img 2 ;;
  denominator <- fadd nir red ;;
  let denominator := mask_zero denominator in
  difference <- fsub nir red ;;
  fdiv difference denominator.

Definition calculate_ndwi (img : image) : result (ndarray float) :=
  green <- getitem img 1 ;;
  nir <- getitem img 3 ;;
  denominator <- fadd green nir ;;
  let denominator := mask_zero denominator in
  difference <- fsub green nir ;;
  fdiv difference denominator.

Definition calculate_ndbi (img : image) : result (ndarray float) :=
  swir <- getitem img 0 ;;
  nir <- getitem img 3 ;;
  denominator <- fadd swir nir ;;
  let denominator := mask_zero denominator in
  difference <- fsub swir nir ;;
  fdiv difference denominator.

(** One entry of the dictionary returned by [detect_changes]:
    [(index_2018, index_2023, index_change)]. *)
Record index_change : Type := mk_index_change
  { before : ndarray float; after : ndarray float; change : ndarray float }.

(** The dictionary with keys ['ndvi'], ['ndwi'], ['ndbi']. *)
Record changes : Type := mk_changes
  { ndvi : index_change; ndwi : index_change; ndbi : index_change }.

Definition detect_changes (image_2018 image_2023 : image) : result changes :=
  ndvi_2018 <- calculate_ndvi image_2018 ;;
  ndvi_2023 <- calculate_ndvi image_2023 ;;
  ndvi_change <- fsub ndvi_2023 ndvi_2018 ;;
  ndwi_2018 <- calculate_ndwi image_2018 ;;
  ndwi_2023 <- calculate_ndwi image_2023 ;;
  ndwi_change <- fsub ndwi_2023 ndwi_2018 ;;
  ndbi_2018 <- calculate_ndbi image_2018 ;;
  ndbi_2023 <- calculate_ndbi image_2023 ;;
  ndbi_change <- fsub ndbi_2023 ndbi_2018 ;;
  Ok (mk_changes (mk_index_change ndvi_2018 ndvi_2023 ndvi_change)
                 (mk_index_change ndwi_2018 ndwi_2023 ndwi_change)
                 (mk_index_change ndbi_2018 ndbi_2023 ndbi_change)).

Definition default_threshold : float := 0.1.

(** [calculate_area_stats(change, pixel_size_x, pixel_size_y, threshold)];
    the integer count is converted to [float64] by the product. *)
Definition calculate_area_stats (change : ndarray float)
           (pixel_size_x pixel_size_y threshold : float) : float * float :=
  let pos_mask := Np.map (fun c => threshold <? c) change in
  let neg_mask := Np.map (fun c => c <? - threshold) change in
  let pixel_area_km2 := (pixel_size_x * pixel_size_y) / 1e6 in
  let pos_area := float_of_Z (nansum_bool pos_mask) * pixel_area_km2 in
  let neg_area := float_of_Z (nansum_bool neg_mask) * pixel_area_km2 in
  (pos_area, neg_area).

End ChangeDetection.

(** ** [src/feature_extraction.py]: epsilon-stabilised indices *)

Module FeatureExtraction.

Open Scope float_scope.

(** The additive constant of every stabilised denominator. *)
Definition epsilon : float := 1e-6.

(** The formulas are written on one cell; numpy applies them cell by cell
    (python evaluates [a + b + c] as [(a + b) + c]). *)
Module Cell.

Definition ndvi_denominator (nir red : float) : float := nir + red + epsilon.
Definition calculate_ndvi (nir red : float) : float :=
  (nir - red) / ndvi_denominator nir red.

Definition ndwi_denominator (green nir : float) : float := green + nir + epsilon.
Definition calculate_ndwi (green nir : float) : float :=
  (green - nir) / ndwi_denominator green nir.

Definition ndbi_denominator (swir nir : float) : float := swir + nir + epsilon.
Definition calculate_ndbi (swir nir : float) : float :=
  (swir - nir) / ndbi_denominator swir nir.

Definition savi_denominator (nir red L : float) : float := nir + red + L + epsilon.
Definition calculate_savi (nir red L : float) : float :=
  ((nir - red) * (1 + L)) / savi_denominator nir red L.

Definition default_L : float := 0.5.

(** [x**2] on a float array is the rounded product [x * x]. *)
Definition msavi_sqrt_argument (nir red : float) : float :=
  (2 * nir + 1) * (2 * nir + 1) - 8 * (nir - red).
Definition calculate_msavi (nir red : float) : float :=
  (2 * nir + 1 - sqrt (msavi_sqrt_argument nir red)) / 2.

Definition evi_denominator (nir red blue : float) : float :=
  nir + 6 * red - 7.5 * blue + 1 + epsilon.
Definition calculate_evi (nir red blue : float) : float :=
  2.5 * (nir - red) / evi_denominator nir red blue.

Definition bsi_denominator (swir nir red blue : float) : float :=
  (swir + red) + (nir + blue) + epsilon.
Definition calculate_bsi (swir nir red blue : float) : float :=
  ((swir + red) - (nir + blue)) / bsi_denominator swir nir red blue.

End Cell.

(** The array versions used by [extract_features]. *)
Definition calculate_ndvi (nir red : ndarray float) : result (ndarray float) :=
  binop Cell.calculate_ndvi nir red.
Definition calculate_ndwi (green nir : ndarray float) : result (ndarray float) :=
  binop Cell.calculate_ndwi green nir.
Definition calculate_ndbi (swir nir : ndarray float) : result (ndarray float) :=
  binop Cell.calculate_ndbi swir nir.
Definition calculate_savi (nir red : ndarray float) (L : float) : result (ndarray float) :=
  binop (fun n r => Cell.calculate_savi n r L) nir red.
Definition calculate_msavi (nir red : ndarray float) : result (ndarray float) :=
  binop Cell.calculate_msavi nir red.
Definition calculate_evi (nir red blue : ndarray float) : result (ndarray float) :=
  ternop Cell.calculate_evi nir red blue.
Definition calculate_bsi (swir nir red blue : ndarray float) : result (ndarray float) :=
  quadop Cell.calculate_bsi swir nir red blue.

(** [extract_features]: the seven indices of a six-band image, stacked in
    the order of the dictionary, and their names. *)
Definition extract_features (sentinel_data : image) : result (image * list string) :=
  blue <- getitem sentinel_data 0 ;;
  green <- getitem sentinel_data 1 ;;
  red <- getitem sentinel_data 2 ;;
  nir <- getitem sentinel_data 3 ;;
  swir1 <- getitem sentinel_data 4 ;;
  swir2 <- getitem sentinel_data 5 ;;
  ndvi <- calculate_ndvi nir red ;;
  ndwi <- calculate_ndwi green nir ;;
  ndbi <- calculate_ndbi swir1 nir ;;
  savi <- calculate_savi nir red Cell.default_L ;;
  msavi <- calculate_msavi nir red ;;
  evi <- calculate_evi nir red blue ;;
  bsi <- calculate_bsi swir1 nir red blue ;;
  feature_stack <- stack [ndvi; ndwi; ndbi; savi; msavi; evi; bsi] ;;
  Ok (feature_stack,
      ["NDVI"; "NDWI"; "NDBI"; "SAVI"; "MSAVI"; "EVI"; "BSI"]%string).

End FeatureExtraction.

(** ** [src/temporal_analysis.py]: class-transition matrix *)

Module TemporalAnalysis.

Definition matrix : Type := list (list Z).

(** [np.zeros((r, c), dtype=int)] *)
Definition zeros (r c : nat) : matrix := repeat (repeat 0%Z c) r.

(** [range(lo, hi)] *)
Definition range (lo hi : nat) : list nat := seq lo (hi - lo).

Fixpoint set_nth {A : Type} (xs : list A) (k : nat) (v : A) : option (list A) :=
  match xs, k with
  | [], _ => None
  | _ :: xs', O => Some (v :: xs')
  | x :: xs', S k' =>
      match set_nth xs' k' v with
      | Some ys => Some (x :: ys)
      | None => None
      end
  end.

(** [m[i, j] = v]; an index outside the matrix raises [IndexError]. *)
Definition setitem (m : matrix) (i j : nat) (v : Z) : result matrix :=
  match nth_error m i with
  | Some row =>
      match set_nth row j v with
      | Some row' =>
          match set_nth m i row' with
          | Some m' => Ok m'
          | None => Raise IndexError
          end
      | None => Raise IndexError
      end
  | None => Raise IndexError
  end.

(** [m[i, j]] read back (0 outside the matrix; used in statements only). *)
Definition entry (m : matrix) (i j : nat) : Z := nth j (nth i m []) 0%Z.

(** [np.sum((class_2017 == i) & (class_2023 == j))] *)
Definition count_transition (class_2017 class_2023 : ndarray Z) (i j : Z)
  : result Z :=
  both <- binop andb (Np.map (fun c => Z.eqb c i) class_2017)
                     (Np.map (fun c => Z.eqb c j) class_2023) ;;
  Ok (sum_bool both).

Definition n_classes : nat := 4.

(** A cell of a label grid: background (0) or one of the four classes. *)
Definition is_class_or_background (c : Z) : Prop := (0 <= c <= 4)%Z.

Definition calculate_changes (class_2017 class_2023 : ndarray Z) : result matrix :=
  let change_matrix := zeros n_classes n_classes in
  for_each (range 1 (n_classes + 1))
    (fun change_matrix i =>
       for_each (range 1 (n_classes + 1))
         (fun change_matrix j =>
            v <- count_transition class_2017 class_2023 (Z.of_nat i) (Z.of_nat j) ;;
            setitem change_matrix (i - 1) (j - 1) v)
         change_matrix)
    change_matrix.

(** [np.sum(change_matrix)] and [np.sum(np.diag(change_matrix))], as [main]
    computes them for the summary. *)
Definition matrix_sum (m : matrix) : Z :=
  fold_right Z.add 0%Z (List.map (fold_right Z.add 0%Z) m).

Definition diag (m : matrix) : list Z :=
  List.map (fun k => entry m k k) (seq 0 (length m)).

Definition trace (m : matrix) : Z := fold_right Z.add 0%Z (diag m).

(** A label that is one of the four classes (used in statements). *)
Definition is_class (c : Z) : bool := Z.leb 1 c && Z.leb c 4.

(** [plot_change_map]: the grid that is drawn,
    [change_map = (class_2017 != class_2023).astype(int)]. *)
Definition change_map (class_2017 class_2023 : ndarray Z) : result (ndarray Z) :=
  differs <- binop (fun x y => negb (Z.eqb x y)) class_2017 class_2023 ;;
  Ok (Np.map (fun b : bool => if b then 1%Z else 0%Z) differs).

(** The summary statistics printed by [main]: the number of pixels analysed,
    the number of pixels with changes, and the percentage of area changed
    (true division of two [int64] values, then times 100, in [float64]). *)
Record summary : Type := mk_summary
  { total_pixels : Z; pixels_with_changes : Z; percentage_changed : float }.

Definition change_summary (change_matrix : matrix) : summary :=
  let total_pixels := matrix_sum change_matrix in
  let changed := (matrix_sum change_matrix - trace change_matrix)%Z in
  mk_summary total_pixels changed
             (float_of_Z changed / float_of_Z total_pixels * 100)%float.

End TemporalAnalysis.

(** ** [src/visualization.py]: the change map *)

Module Visualization.

(** [plot_change_detection]: the grid that is drawn,
    [change = np.zeros_like(class_2017); change[class_2017 != class_2023] = 1]. *)
Definition plot_change_detection (class_2017 class_2023 : ndarray Z)
  : result (ndarray Z) :=
  let change := zeros_like class_2017 in
  mask <- binop (fun x y => negb (Z.eqb x y)) class_2017 class_2023 ;;
  setitem_mask change mask 1%Z.

End Visualization.

(** ** [src/preprocessing.py]: normalisation *)

Module Preprocessing.

Open Scope float_scope.

(** The cell operations of [np.minimum] and [np.maximum]: a [nan] operand is
    propagated, and of two equal values the first is kept. *)
Definition minimum (a b : float) : float :=
  if (a <=? b) || is_nan a then a else b.

Definition maximum (a b : float) : float :=
  if (b <=? a) || is_nan a then a else b.

(** [a.min()] and [a.max()] over all cells: numpy raises [ValueError:
    zero-size array to reduction operation] on an array without cells. *)
Definition amin (cells : list float) : result float :=
  match cells with
  | [] => Raise ValueError
  | x :: rest => Ok (fold_left minimum rest x)
  end.

Definition amax (cells : list float) : result float :=
  match cells with
  | [] => Raise ValueError
  | x :: rest => Ok (fold_left maximum rest x)
  end.

(** All cells of a multi-band image, band after band. *)
Definition cells (img : image) : list float := concat (List.map flat img).

(** [normalize_image]:
    [(image - image.min()) / (image.max() - image.min())]. *)
Definition normalize_image (img : image) : result image :=
  lowest <- amin (cells img) ;;
  let shifted := List.map (Np.map (fun x => x - lowest)) img in
  highest <- amax (cells img) ;;
  lowest' <- amin (cells img) ;;
  let extent := highest - lowest' in
  Ok (List.map (Np.map (fun x => x / extent)) shifted).

End Preprocessing.

(** ** The scikit-learn collaborators

    [RandomForestClassifier], [train_test_split], [confusion_matrix] and
    [classification_report] are not code of the repository.  The ensemble is
    kept behind an interface whose laws are the documented contract of the
    estimator; the splitting and the metrics, which are plain counting, are
    written out after the library's documentation. *)

Module Sklearn.

Open Scope float_scope.

Definition row : Type := list float.

(** Input validation of the forest ([check_array] with [dtype=float32]):
    at least one sample, rows of one width, every value finite and within
    the range of [float32]. *)
Definition float32_max : float := 0x1.fffffep+127.

Definition finite32 (x : float) : bool := abs x <=? float32_max.

Definition valid_rows (n_features : nat) (X : list row) : bool :=
  match X with
  | [] => false
  | _ => forallb (fun r => Nat.eqb (length r) n_features && forallb finite32 r) X
  end.

(** The estimator, as far as [LandCoverClassifier] uses it.  Importance
    scores are taken as exact rationals (the library stores their [float64]
    roundings). *)
Class Estimator (M : Type) : Type :=
  { fit : nat -> Z -> list row -> list Z -> result M;
    predict : M -> list row -> result (list Z);
    classes_ : M -> list Z;
    n_features_in_ : M -> nat;
    feature_importances_ : M -> list Q }.

Definition total (scores : list Q) : Q := fold_right Qplus 0%Q scores.

(** The contract of a fitted [RandomForestClassifier]:
    - [fit] accepts any valid sample matrix with one label per sample, and
      raises nothing but [ValueError];
    - [classes_] holds exactly the labels seen by [fit], and
      [n_features_in_] is the width of the rows seen by [fit];
    - [predict] accepts valid rows of [n_features_in_] columns and answers,
      for each row, one element of [classes_];
    - [feature_importances_] has one non-negative score per training column;
      the scores sum to 1 unless every tree is a single node, in which case
      they are all 0. *)
Class EstimatorLaws (M : Type) `{Estimator M} : Prop :=
  { fit_accepts : forall n s X y k,
      (0 < n)%nat -> (0 < k)%nat -> valid_rows k X = true ->
      length X = length y -> is_ok (fit n s X y) = true;
    fit_raises : forall n s X y e,
      fit n s X y = Raise e -> e = ValueError;
    fit_classes : forall n s X y m,
      fit n s X y = Ok m -> forall c, In c (classes_ m) <-> In c y;
    fit_n_features : forall n s X y m,
      fit n s X y = Ok m ->
      X <> [] /\ Forall (fun r => length r = n_features_in_ m) X;
    predict_accepts : forall n s X y m X',
      fit n s X y = Ok m ->
      valid_rows (n_features_in_ m) X' = true -> is_ok (predict m X') = true;
    predict_classes : forall n s X y m X' p,
      fit n s X y = Ok m -> predict m X' = Ok p ->
      length p = length X' /\ Forall (fun c => In c (classes_ m)) p;
    importances_length : forall n s X y m,
      fit n s X y = Ok m ->
      length (feature_importances_ m) = n_features_in_ m;
    importances_nonneg : forall n s X y m,
      fit n s X y = Ok m ->
      Forall (fun sc => (0 <= sc)%Q) (feature_importances_ m);
    importances_total : forall n s X y m,
      fit n s X y = Ok m ->
      (total (feature_importances_ m) == 1)%Q \/
      Forall (fun sc => (sc == 0)%Q) (feature_importances_ m) }.

(** [numpy.random.RandomState(seed).permutation(n)]: the shuffle behind
    [train_test_split]. *)
Class RandomState : Type := { permutation : Z -> nat -> list nat }.

(** What the shuffle is documented to return: the indices [0 .. n-1], each
    once, in some order. *)
Class RandomStateLaws `{RandomState} : Prop :=
  { permutation_shuffles : forall seed n,
      Permutation.Permutation (permutation seed n) (seq 0 n) }.

(** [xs[indices]] for an integer index array. *)
Fixpoint take {A : Type} (xs : list A) (indices : list nat) : result (list A) :=
  match indices with
  | [] => Ok []
  | i :: rest =>
      x <- getitem xs i ;;
      tl <- take xs rest ;;
      Ok (x :: tl)
  end.

(** [math.ceil] of a [float64]. *)
Definition ceil (x : float) : Z :=
  match Prim2SF x with
  | S754_finite s m e =>
      match e with
      | Zneg p => if s then (- (Zpos m / 2 ^ Zpos p))%Z
                  else (- ((- Zpos m) / 2 ^ Zpos p))%Z
      | _ => if s then (- (Zpos m * 2 ^ e))%Z else (Zpos m * 2 ^ e)%Z
      end
  | _ => 0%Z
  end.

(** [train_test_split(X, y, test_size=test_size, random_state=seed)]:
    [n_test = ceil(test_size * n_samples)], the rest is the training part,
    and an empty training part is refused. *)
Definition train_test_split {A B : Type} `{RandomState}
           (X : list A) (y : list B) (test_size : float) (seed : Z)
  : result (list A * list A * list B * list B) :=
  if negb (Nat.eqb (length X) (length y)) then Raise ValueError
  else
    let n_samples := length X in
    let n_test := Z.to_nat (ceil (test_size * float_of_Z (Z.of_nat n_samples))) in
    let n_train := (n_samples - n_test)%nat in
    if Nat.eqb n_train 0 then Raise ValueError
    else
      let perm := permutation seed n_samples in
      let ind_test := firstn n_test perm in
      let ind_train := firstn n_train (skipn n_test perm) in
      X_train <- take X ind_train ;;
      X_test <- take X ind_test ;;
      y_train <- take y ind_train ;;
      y_test <- take y ind_test ;;
      Ok (X_train, X_test, y_train, y_test).

(** [clf.score(X, y)]: the mean of [predict(X) == y] ([accuracy_score],
    which refuses two lists of different lengths), a [float64]. *)
Definition score {M : Type} `{Estimator M} (clf : M) (X : list row) (y : list Z)
  : result float :=
  y_pred <- predict clf X ;;
  if negb (Nat.eqb (length y) (length y_pred)) then Raise ValueError
  else
    let hits := length (filter (fun tp => Z.eqb (fst tp) (snd tp)) (combine y y_pred)) in
    Ok (float_of_Z (Z.of_nat hits) / float_of_Z (Z.of_nat (length y))).

End Sklearn.

(** [sklearn.metrics], written out after its documentation.  Ratios are exact
    rationals (the library returns their [float64] roundings). *)

Module Metrics.

(** Insertion into a strictly increasing list. *)
Fixpoint insert_unique (c : Z) (cs : list Z) : list Z :=
  match cs with
  | [] => [c]
  | d :: cs' =>
      if Z.ltb c d then c :: cs
      else if Z.eqb c d then cs
      else d :: insert_unique c cs'
  end.

(** [sorted(set(ys))] *)
Definition sorted_set (ys : list Z) : list Z := fold_right insert_unique [] ys.

(** [unique_labels(y_true, y_pred)] *)
Definition unique_labels (y_true y_pred : list Z) : list Z :=
  sorted_set (y_true ++ y_pred).

(** Number of samples with true label [t] and predicted label [p]. *)
Definition count_pairs (y_true y_pred : list Z) (t p : Z) : Z :=
  Z.of_nat (length (filter (fun tp => Z.eqb (fst tp) t && Z.eqb (snd tp) p)
                           (combine y_true y_pred))).

(** [confusion_matrix(y_true, y_pred)]: rows are true labels, columns are
    predicted labels, both in the order of [unique_labels]. *)
Definition confusion_matrix (y_true y_pred : list Z) : result (list (list Z)) :=
  if negb (Nat.eqb (length y_true) (length y_pred)) then Raise ValueError
  else
    let labels := unique_labels y_true y_pred in
    Ok (List.map (fun t => List.map (fun p => count_pairs y_true y_pred t p) labels)
                 labels).

Record class_metrics : Type := mk_class_metrics
  { precision : Q; recall : Q; f1_score : Q; support : Z }.

Record report : Type := mk_report
  { per_class : list (string * class_metrics); accuracy : Q }.

(** [num / den], and 0 when the denominator is 0 ([zero_division]). *)
Definition ratio (num den : Z) : Q :=
  if Z.eqb den 0 then 0%Q else Qmake num (Z.to_pos den).

Definition count_if (p : Z * Z -> bool) (y_true y_pred : list Z) : Z :=
  Z.of_nat (length (filter p (combine y_true y_pred))).

Definition metrics_of (y_true y_pred : list Z) (c : Z) : class_metrics :=
  let tp := count_if (fun tp => Z.eqb (fst tp) c && Z.eqb (snd tp) c) y_true y_pred in
  let n_pred := count_if (fun tp => Z.eqb (snd tp) c) y_true y_pred in
  let n_true := count_if (fun tp => Z.eqb (fst tp) c) y_true y_pred in
  let p := ratio tp n_pred in
  let r := ratio tp n_true in
  mk_class_metrics p r (ratio (2 * tp) (n_pred + n_true)) n_true.

(** [classification_report(y_true, y_pred, target_names=..., output_dict=True)]
    with [labels] left out: the classes are those of [unique_labels], and a
    list of names of another length is refused with [ValueError]. *)
Definition classification_report (y_true y_pred : list Z)
           (target_names : list string) : result report :=
  if negb (Nat.eqb (length y_true) (length y_pred)) then Raise ValueError
  else
    let labels := unique_labels y_true y_pred in
    if negb (Nat.eqb (length labels) (length target_names)) then Raise ValueError
    else
      Ok (mk_report
            (combine target_names (List.map (metrics_of y_true y_pred) labels))
            (ratio (count_if (fun tp => Z.eqb (fst tp) (snd tp)) y_true y_pred)
                   (Z.of_nat (length y_true)))).

End Metrics.

(** ** [src/classification.py] *)

Module Classification.

Import Sklearn.

Section LandCover.

Context {M : Type} `{Estimator M} `{RandomState}.

(** The object state: the forest's hyper-parameters, the fitted forest
    ([None] until [fit] has run) and the two name lists. *)
Record LandCoverClassifier : Type := mk_classifier
  { n_estimators : nat;
    random_state : Z;
    model : option M;
    feature_names : list string;
    class_names : list string }.

(** [__init__(self, n_estimators=100, random_state=42)] *)
Definition init (n_estimators : nat) (random_state : Z) : LandCoverClassifier :=
  mk_classifier n_estimators random_state None
                ["NDVI"; "NDWI"; "NDBI"]%string
                ["Water"; "Vegetation"; "Built-up"; "Barren"]%string.

Definition default : LandCoverClassifier := init 100 42%Z.

(** Height and width of an image: those of its bands (a raster has at least
    one band). *)
Definition image_shape (features : image) : nat * nat :=
  match features with
  | [] => (0, 0)%nat
  | band :: _ => shape band
  end.

(** [np.moveaxis(features, 0, -1).reshape(-1, bands)]: one row per pixel,
    one column per band. *)
Definition pixel_rows (features : image) : list row :=
  let (h, w) := image_shape features in
  List.map (fun p => List.map (fun b => nth p (flat b) nan) features)
           (seq 0 (h * w)).

(** [X[mask]] and [y[mask]] with [mask = y != 0], then the 80/20 split.
    The arguments are the arrays read from the two files. *)
Definition prepare_training_data (features : image) (labels : ndarray Z)
  : result (list row * list row * list Z * list Z) :=
  let X := pixel_rows features in
  let y := flatten labels in
  let mask := List.map (fun l => negb (Z.eqb l 0)) y in
  X <- getitem_mask X mask ;;
  y <- getitem_mask y mask ;;
  train_test_split X y 0.2%float 42%Z.

(** [train]: the fitted forest replaces the unfitted one. *)
Definition train (self : LandCoverClassifier) (X_train : list row)
           (y_train : list Z) : result LandCoverClassifier :=
  m <- fit (n_estimators self) (random_state self) X_train y_train ;;
  Ok (mk_classifier (n_estimators self) (random_state self) (Some m)
                    (feature_names self) (class_names self)).

(** [self.model.predict(X)] and attribute access on an unfitted forest
    raise the library's [NotFittedError]. *)
Definition fitted_model (self : LandCoverClassifier) : result M :=
  match model self with
  | Some m => Ok m
  | None => Raise NotFittedError
  end.

(** [predict]: the returned array (the file written on the way is left
    out).  [reshape] to the image's height and width raises [ValueError]
    unless there is one prediction per pixel. *)
Definition predict (self : LandCoverClassifier) (features : image)
  : result (ndarray Z) :=
  let (h, w) := image_shape features in
  let X := pixel_rows features in
  m <- fitted_model self ;;
  predictions <- Sklearn.predict m X ;;
  if Nat.eqb (length predictions) (h * w)
  then Ok (mk_ndarray h w predictions)
  else Raise ValueError.

(** [dict(zip(self.feature_names, importance))], in insertion order. *)
Definition get_feature_importance (self : LandCoverClassifier)
  : result (list (string * Q)) :=
  m <- fitted_model self ;;
  let importance := feature_importances_ m in
  Ok (combine (feature_names self) importance).

End LandCover.

Arguments LandCoverClassifier M : clear implicits.

End Classification.

(** ** [src/simple_classification.py] *)

Module SimpleClassification.

Import Sklearn.

(** [a.T] for a 2-D array given by its rows of [n] cells: column [p] of the
    rows becomes row [p]. *)
Fixpoint transpose {A : Type} (n : nat) (rows : list (list A)) : list (list A) :=
  match rows with
  | [] => repeat [] n
  | r :: rows' => zip_with cons r (transpose n rows')
  end.

(** [sentinel.reshape(sentinel.shape[0], n_samples).T]: one row per pixel. *)
Definition samples (sentinel : image) : list row :=
  let (h, w) := Classification.image_shape sentinel in
  transpose (h * w) (List.map flat sentinel).

(** [landcover.reshape(n_samples)] on the bands read from the land-cover
    file: numpy raises [ValueError: cannot reshape array] unless the number
    of cells is [n_samples]. *)
Definition reshape_1d (landcover : list (ndarray Z)) (n_samples : nat)
  : result (list Z) :=
  let cells := concat (List.map flat landcover) in
  if Nat.eqb (length cells) n_samples then Ok cells else Raise ValueError.

Section Forest.

Context {M : Type} `{Estimator M} `{RandomState}.

(** [load_and_prepare_data], from the two arrays read from the files to the
    rows and labels of the pixels that are not background (the metadata
    returned beside them is left out). *)
Definition load_and_prepare_data (sentinel : image) (landcover : list (ndarray Z))
  : result (list row * list Z) :=
  let (h, w) := Classification.image_shape sentinel in
  let n_samples := (h * w)%nat in
  let X := samples sentinel in
  y <- reshape_1d landcover n_samples ;;
  let mask := List.map (fun l => negb (Z.eqb l 0)) y in
  X <- getitem_mask X mask ;;
  y <- getitem_mask y mask ;;
  Ok (X, y).

(** [train_classifier]: the 80/20 split, the fit on the training part, and
    the two accuracies that are printed. *)
Definition train_classifier (X : list row) (y : list Z) : result M :=
  split <- train_test_split X y 0.2%float 42%Z ;;
  let '(X_train, X_test, y_train, y_test) := split in
  clf <- fit 100 42%Z X_train y_train ;;
  _ <- score clf X_train y_train ;;
  _ <- score clf X_test y_test ;;
  Ok clf.

(** [classify_image]: the returned array (the file written on the way is
    left out). *)
Definition classify_image (clf : M) (sentinel : image) : result (ndarray Z) :=
  let (h, w) := Classification.image_shape sentinel in
  let X := samples sentinel in
  predictions <- predict clf X ;;
  if Nat.eqb (length predictions) (h * w)
  then Ok (mk_ndarray h w predictions)
  else Raise ValueError.

End Forest.

End SimpleClassification.

(** ** [src/validation.py] *)

Module Validation.

Definition calculate_metrics (y_true y_pred : list Z) (class_names : list string)
  : result (list (list Z) * Metrics.report) :=
  cm <- Metrics.confusion_matrix y_true y_pred ;;
  report <- Metrics.classification_report y_true y_pred class_names ;;
  Ok (cm, report).

(** [validate_classification], from the two grids read from the files to
    the confusion matrix and report that are then plotted and printed. *)
Definition validate_classification (prediction ground_truth : ndarray Z)
  : result (list (list Z) * Metrics.report) :=
  let y_pred := flatten prediction in
  let y_true := flatten ground_truth in
  let mask := List.map (fun t => negb (Z.eqb t 0)) y_true in
  y_pred <- getitem_mask y_pred mask ;;
  y_true <- getitem_mask y_true mask ;;
  let class_names := ["Water"; "Vegetation"; "Built-up"; "Barren"]%string in
  calculate_metrics y_true y_pred class_names.

(** The pairs [(truth, prediction)] of the positions whose ground-truth
    label is not 0, in grid order (used in statements). *)
Definition labelled_pairs (prediction ground_truth : ndarray Z) : list (Z * Z) :=
  filter (fun tp => negb (Z.eqb (fst tp) 0))
         (combine (flat ground_truth) (flat prediction)).

End Validation.

(** ** A small estimator that obeys the contract

    It stands in for the forest whenever the wrapper is run on concrete data:
    every tree is the same stump on the first column (or a single leaf when
    only one class was seen), and the shuffle is the identity. *)

Module ReferenceForest.

Import Sklearn.
Open Scope float_scope.

Record stump : Type := mk_stump
  { seen_classes : list Z;
    n_columns : nat;
    majority_class : Z;
    rule : option (float * Z * Z) }.

Definition occurrences (c : Z) (ys : list Z) : nat :=
  length (filter (Z.eqb c) ys).

(** The most frequent label, [d] for no label at all. *)
Definition majority (ys : list Z) (d : Z) : Z :=
  fold_right (fun c best => if Nat.ltb (occurrences best ys) (occurrences c ys)
                            then c else best)
             d ys.

Definition first_column (r : row) : float := nth 0 r 0.

Definition labels_where (p : row -> bool) (X : list row) (y : list Z) : list Z :=
  List.map snd (filter (fun xy => p (fst xy)) (combine X y)).

Definition grow (X : list row) (y : list Z) (k : nat) : stump :=
  let classes := Metrics.sorted_set y in
  let top := majority y (hd 0%Z y) in
  match classes with
  | _ :: _ :: _ =>
      let t := first_column (hd [] X) in
      let below := labels_where (fun r => first_column r <=? t) X y in
      let above := labels_where (fun r => negb (first_column r <=? t)) X y in
      mk_stump classes k top (Some (t, majority below top, majority above top))
  | _ => mk_stump classes k top None
  end.

Definition stump_fit (n_estimators : nat) (random_state : Z)
           (X : list row) (y : list Z) : result stump :=
  let k := length (hd [] X) in
  if Nat.eqb n_estimators 0 then Raise ValueError
  else if Nat.eqb k 0 then Raise ValueError
  else if negb (valid_rows k X) then Raise ValueError
  else if negb (Nat.eqb (length X) (length y)) then Raise ValueError
  else Ok (grow X y k).

Definition decide (m : stump) (r : row) : Z :=
  match rule m with
  | Some (t, below, above) => if first_column r <=? t then below else above
  | None => majority_class m
  end.

Definition stump_predict (m : stump) (X : list row) : result (list Z) :=
  if valid_rows (n_columns m) X then Ok (List.map (decide m) X)
  else Raise ValueError.

Definition stump_importances (m : stump) : list Q :=
  match rule m, n_columns m with
  | Some _, S k => 1%Q :: repeat 0%Q k
  | _, k => repeat 0%Q k
  end.

#[export] Instance stump_estimator : Estimator stump :=
  {| fit := stump_fit;
     predict := stump_predict;
     classes_ := seen_classes;
     n_features_in_ := n_columns;
     feature_importances_ := stump_importances |}.

#[export] Instance identity_shuffle : RandomState :=
  {| permutation := fun _ n => seq 0 n |}.

End ReferenceForest.

(** ** Concrete grids of the scenarios *)

Module Scenario.

Import ReferenceForest.
Open Scope float_scope.

(** Near-infrared [[10, 0]] and red [[2, 0]] on a 1 x 2 grid. *)
Definition nir : ndarray float := mk_ndarray 1 2 [10; 0].
Definition red : ndarray float := mk_ndarray 1 2 [2; 0].

(** The same two layers as bands 3 and 2 of an image whose bands 0 and 1
    are [blue] and [green]. *)
Definition bands (blue green : ndarray float) : image := [blue; green; red; nir].

(** The labels [[1, 2], [3, 4]]. *)
Definition labels_1234 : ndarray Z := mk_ndarray 2 2 [1; 2; 3; 4]%Z.

(** A single labelled pixel, and a 3 x 3 grid of one class. *)
Definition label_1x1 : ndarray Z := mk_ndarray 1 1 [1]%Z.
Definition labels_3x3 : ndarray Z := mk_ndarray 3 3 (repeat 2%Z 9).

(** Label grids for the validator: 100 x 100 against 50 x 50, 2 x 3 against
    3 x 2, and a ground truth that is background everywhere. *)
Definition predicted_100x100 : ndarray Z := mk_ndarray 100 100 (repeat 1%Z (100 * 100)).
Definition truth_50x50 : ndarray Z := mk_ndarray 50 50 (repeat 1%Z (50 * 50)).
Definition predicted_2x3 : ndarray Z := mk_ndarray 2 3 [1; 2; 3; 4; 1; 3]%Z.
Definition truth_3x2 : ndarray Z := mk_ndarray 3 2 [1; 2; 3; 4; 0; 2]%Z.
Definition truth_background : ndarray Z := mk_ndarray 2 3 (repeat 0%Z 6).

(** A three-band feature stack of 1 x 5 pixels and its label grid, with a
    background pixel in the middle. *)
Definition training_features : image :=
  [mk_ndarray 1 5 [0.1; 0.2; 0.3; 0.4; 0.5];
   mk_ndarray 1 5 [0.9; 0.8; 0.7; 0.6; 0.5];
   mk_ndarray 1 5 [0.3; 0.1; 0.4; 0.1; 0.5]].
Definition training_labels : ndarray Z := mk_ndarray 1 5 [1; 2; 0; 2; 1]%Z.

(** The split of the four labelled pixels under the identity shuffle: the
    first pixel is the evaluation part, the other three the training part. *)
Definition training_rows : list Sklearn.row :=
  [[0.2; 0.8; 0.1]; [0.4; 0.6; 0.1]; [0.5; 0.5; 0.5]].
Definition training_row_labels : list Z := [2; 2; 1]%Z.
Definition evaluation_rows : list Sklearn.row := [[0.1; 0.9; 0.3]].
Definition evaluation_row_labels : list Z := [1]%Z.

(** [main] of [classification.py] up to the trained classifier, run with the
    reference estimator. *)
Definition trained_classifier
  : result (Classification.LandCoverClassifier ReferenceForest.stump) :=
  split <- Classification.prepare_training_data training_features training_labels ;;
  let '(X_train, _, y_train, _) := split in
  Classification.train Classification.default X_train y_train.

(** Training rows whose labels are all class 2. *)
Definition rows_of_class_2 : list Sklearn.row :=
  [[0.1; 0.2; 0.3]; [0.4; 0.5; 0.6]; [0.7; 0.8; 0.9]].
Definition labels_of_class_2 : list Z := [2; 2; 2]%Z.

(** A six-band image of 1 x 2 pixels (blue, green, red, near-infrared and
    the two short-wave bands), the rows of its seven extracted features, and
    one class per pixel. *)
Definition sentinel_data : image :=
  [mk_ndarray 1 2 [0.1; 0.2]; mk_ndarray 1 2 [0.2; 0.3]; mk_ndarray 1 2 [0.3; 0.1];
   mk_ndarray 1 2 [0.5; 0.6]; mk_ndarray 1 2 [0.4; 0.2]; mk_ndarray 1 2 [0.3; 0.1]].
Definition rows_of_7_features : result (list Sklearn.row) :=
  extracted <- FeatureExtraction.extract_features sentinel_data ;;
  Ok (Classification.pixel_rows (fst extracted)).
Definition labels_of_2_classes : list Z := [1; 2]%Z.

(** A four-band image of [h] x [w] pixels whose band [k] is filled with
    [v + k]. *)
Definition flat_image (h w : nat) (v : float) : image :=
  List.map (fun k => mk_ndarray h w (repeat (v + k) (h * w))) [0; 1; 2; 3].

End Scenario.

(** ** Sign classes of binary64 values *)

(** The smallest exponent of a binary64 significand. *)
Definition emin64 : Z := SpecFloat.emin prec emax.

(** Zero of either sign, a positive number, or plus infinity. *)
Definition SF_nonneg (x : spec_float) : bool :=
  match x with
  | S754_zero _ | S754_infinity false | S754_finite false _ _ => true
  | _ => false
  end.

(** A positive number or plus infinity. *)
Definition SF_pos (x : spec_float) : bool :=
  match x with
  | S754_infinity false | S754_finite false _ _ => true
  | _ => false
  end.

(** The significand and exponent of the constant [1e-6] in binary64. *)
Definition epsilon_m : positive := 4722366482869645.
Definition epsilon_e : Z := (-72)%Z.
Definition SF_epsilon : spec_float := S754_finite false epsilon_m epsilon_e.

(** A band value that is not negative (and not [nan]). *)
Definition nonnegative (x : float) : Prop := (0 <=? x)%float = true.

(** A denominator that is above zero, hence not zero. *)
Definition strictly_positive (d : float) : Prop :=
  (0 <? d)%float = true /\ (d =? 0)%float = false.

(** * Properties *)

(** ** Arrays *)

Section ArrayFacts.

Context {A B C : Type}.

Lemma broadcast_dim_same (n : nat) : broadcast_dim n n = Some n.
Proof. unfold broadcast_dim. now rewrite Nat.eqb_refl. Qed.

Lemma stretch_same (a : ndarray A) : stretch (nrows a) (ncols a) a = flat a.
Proof. unfold stretch, stretch_cols. now rewrite !Nat.eqb_refl. Qed.

(** On two arrays of one shape a binary ufunc never raises and works cell
    by cell. *)
Lemma binop_same_shape (f : A -> B -> C) (a : ndarray A) (b : ndarray B) :
  shape a = shape b ->
  binop f a b = Ok (mk_ndarray (nrows a) (ncols a) (zip_with f (flat a) (flat b))).
Proof.
  unfold shape, binop. intros E. injection E as Er Ec.
  rewrite <- Er, <- Ec, !broadcast_dim_same, stretch_same.
  unfold stretch, stretch_cols. rewrite Er, Ec, !Nat.eqb_refl. reflexivity.
Qed.

Lemma broadcast_dim_none (m n : nat) :
  m <> n -> m <> 1 -> n <> 1 -> broadcast_dim m n = None.
Proof.
  intros H1 H2 H3. unfold broadcast_dim.
  destruct (Nat.eqb_spec m n); [contradiction|].
  destruct (Nat.eqb_spec m 1); [contradiction|].
  destruct (Nat.eqb_spec n 1); [contradiction|]. reflexivity.
Qed.

Lemma binop_incompatible (f : A -> B -> C) (a : ndarray A) (b : ndarray B) :
  incompatible (shape a) (shape b) -> binop f a b = Raise ValueError.
Proof.
  unfold incompatible, shape, binop; simpl. intros [(H1 & H2 & H3) | (H1 & H2 & H3)].
  - now rewrite (broadcast_dim_none _ _ H1 H2 H3).
  - rewrite (broadcast_dim_none _ _ H1 H2 H3).
    now destruct (broadcast_dim (nrows a) (nrows b)).
Qed.

End ArrayFacts.

(** A column against a row: numpy stretches both to 2 x 3. *)
Example binop_broadcast_example :
  fadd (mk_ndarray 2 1 [1; 2]%float) (mk_ndarray 1 3 [10; 20; 30]%float)
  = Ok (mk_ndarray 2 3 [11; 21; 31; 12; 22; 32]%float).
Proof. reflexivity. Qed.

(** The seven features of the six-band scenario image; the first layer is
    its stabilised NDVI. *)
Example extract_features_example :
  exists layers,
    FeatureExtraction.extract_features Scenario.sentinel_data
    = Ok (layers, ["NDVI"; "NDWI"; "NDBI"; "SAVI"; "MSAVI"; "EVI"; "BSI"]%string)
    /\ length layers = 7
    /\ nth_error layers 0
       = Some (mk_ndarray 1 2 [0.24999968750039062; 0.7142846938790087]%float).
Proof. eexists. split; [vm_compute; reflexivity | split; reflexivity]. Qed.

Lemma sum_bool_count (cells : list bool) (h w : nat) :
  sum_bool (mk_ndarray h w cells) = Z.of_nat (length (filter (fun b => b) cells)).
Proof.
  unfold sum_bool; simpl.
  assert (G : forall acc,
             fold_left (fun a (b : bool) => if b then (a + 1)%Z else a) cells acc
             = (acc + Z.of_nat (length (filter (fun b => b) cells)))%Z).
  { induction cells as [| b cells IH]; intros acc; simpl.
    - lia.
    - rewrite IH. destruct b; simpl; lia. }
  rewrite G. lia.
Qed.

(** ** C1: the NDVI scenario *)

(** C1.  On near-infrared [[10, 0]] and red [[2, 0]] the strict-masking NDVI
    returns (it does not raise) the cells [(10-2)/(10+2) = 0.666...] and
    [nan], the no-value marker, which is not zero; the epsilon-stabilised NDVI
    returns a first cell within [1e-6] of [2/3] and a second cell equal to
    [0.0]. *)
Theorem ndvi_scenario (blue green : ndarray float) :
  ChangeDetection.calculate_ndvi (Scenario.bands blue green)
    = Ok (mk_ndarray 1 2 [((10 - 2) / (10 + 2))%float; nan])
  /\ ((10 - 2) / (10 + 2))%float = 0.6666666666666666%float
  /\ is_nan nan = true /\ (nan =? 0)%float = false
  /\ exists x : float,
       FeatureExtraction.calculate_ndvi Scenario.nir Scenario.red
         = Ok (mk_ndarray 1 2 [x; 0%float])
       /\ (abs (x - 2 / 3) <? 1e-6)%float = true.
Proof.
  repeat split.
  exists (0.6666666111111158)%float. split; reflexivity.
Qed.

(** ** C2: the change matrix *)

Section ChangeMatrix.

Import TemporalAnalysis.

Lemma positions_where_cons {A B : Type} (p : A -> B -> bool) x y xs ys :
  positions_where p (x :: xs) (y :: ys)
  = ((if p x y then 1 else 0) + positions_where p xs ys)%Z.
Proof.
  unfold positions_where. cbn [combine filter fst snd].
  destruct (p x y); cbn [length]; lia.
Qed.

Lemma positions_where_nil_r {A B : Type} (p : A -> B -> bool) xs :
  positions_where p xs [] = 0%Z.
Proof. unfold positions_where. now destruct xs. Qed.

Lemma filter_zip_with {A B : Type} (f : A -> bool) (g : B -> bool) xs ys :
  length (filter (fun b : bool => b) (zip_with andb (List.map f xs) (List.map g ys)))
  = length (filter (fun xy => f (fst xy) && g (snd xy)) (combine xs ys)).
Proof.
  revert ys. induction xs as [| x xs IH]; intros [| y ys]; simpl; try reflexivity.
  unfold zip_with in *; simpl. destruct (f x && g y); simpl; now rewrite IH.
Qed.

(** On grids of one shape the count of one transition is the number of
    positions holding that pair of classes. *)
Lemma count_transition_same_shape (a b : ndarray Z) (i j : Z) :
  shape a = shape b ->
  count_transition a b i j
  = Ok (positions_where (fun x y => Z.eqb x i && Z.eqb y j) (flat a) (flat b)).
Proof.
  intros E. unfold count_transition.
  rewrite binop_same_shape by exact E. simpl.
  rewrite sum_bool_count, filter_zip_with. reflexivity.
Qed.

(** With every transition count available, the two loops fill the sixteen
    entries and raise nothing. *)
Lemma calculate_changes_unrolled (a b : ndarray Z) (cnt : Z -> Z -> Z) :
  (forall i j, count_transition a b i j = Ok (cnt i j)) ->
  calculate_changes a b
  = Ok [[cnt 1 1; cnt 1 2; cnt 1 3; cnt 1 4];
        [cnt 2 1; cnt 2 2; cnt 2 3; cnt 2 4];
        [cnt 3 1; cnt 3 2; cnt 3 3; cnt 3 4];
        [cnt 4 1; cnt 4 2; cnt 4 3; cnt 4 4]]%Z.
Proof.
  intros H. unfold calculate_changes, n_classes, range. simpl.
  rewrite !H. reflexivity.
Qed.

Ltac split_label c H :=
  let E := fresh "E" in
  assert (E : (c = 0 \/ c = 1 \/ c = 2 \/ c = 3 \/ c = 4)%Z)
    by (unfold is_class_or_background in H; lia);
  destruct E as [E | [E | [E | [E | E]]]]; subst c.

Lemma transitions_total (xs ys : list Z) :
  Forall is_class_or_background xs -> Forall is_class_or_background ys ->
  let cnt i j := positions_where (fun x y => Z.eqb x i && Z.eqb y j) xs ys in
  (cnt 1 1 + cnt 1 2 + cnt 1 3 + cnt 1 4 + cnt 2 1 + cnt 2 2 + cnt 2 3 + cnt 2 4
   + cnt 3 1 + cnt 3 2 + cnt 3 3 + cnt 3 4 + cnt 4 1 + cnt 4 2 + cnt 4 3 + cnt 4 4)%Z
  = positions_where (fun x y => negb (Z.eqb x 0) && negb (Z.eqb y 0)) xs ys.
Proof.
  intros Hx. revert ys. induction Hx as [| x xs Hx _ IH]; intros ys Hy; cbv zeta.
  - reflexivity.
  - destruct Hy as [| y ys Hy Hys].
    + now rewrite !positions_where_nil_r.
    + specialize (IH ys Hys). cbv zeta in IH.
      rewrite !positions_where_cons, <- IH.
      split_label x Hx; split_label y Hy; cbn [Z.eqb Pos.eqb andb negb]; lia.
Qed.

Lemma transitions_diagonal (xs ys : list Z) :
  Forall is_class_or_background xs -> Forall is_class_or_background ys ->
  let cnt i j := positions_where (fun x y => Z.eqb x i && Z.eqb y j) xs ys in
  (cnt 1 1 + cnt 2 2 + cnt 3 3 + cnt 4 4)%Z
  = positions_where
      (fun x y => negb (Z.eqb x 0) && negb (Z.eqb y 0) && Z.eqb x y) xs ys.
Proof.
  intros Hx. revert ys. induction Hx as [| x xs Hx _ IH]; intros ys Hy; cbv zeta.
  - reflexivity.
  - destruct Hy as [| y ys Hy Hys].
    + now rewrite !positions_where_nil_r.
    + specialize (IH ys Hys). cbv zeta in IH.
      rewrite !positions_where_cons, <- IH.
      split_label x Hx; split_label y Hy; cbn [Z.eqb Pos.eqb andb negb]; lia.
Qed.

End ChangeMatrix.

(** C2.  For two label grids of one shape with cells in 0..4, the categorical
    change computation returns a matrix whose entry [(i-1, j-1)] is the number
    of positions of class [i] at time 1 and class [j] at time 2, whose sum is
    the number of positions that are non-background in both grids, and whose
    trace is the number of those positions whose class is unchanged. *)
Theorem change_matrix_counts (class_2017 class_2023 : ndarray Z) :
  shape class_2017 = shape class_2023 ->
  Forall TemporalAnalysis.is_class_or_background (flat class_2017) ->
  Forall TemporalAnalysis.is_class_or_background (flat class_2023) ->
  exists m : TemporalAnalysis.matrix,
    TemporalAnalysis.calculate_changes class_2017 class_2023 = Ok m
    /\ (forall i j : nat,
          (1 <= i <= 4)%nat -> (1 <= j <= 4)%nat ->
          TemporalAnalysis.entry m (i - 1) (j - 1)
          = positions_where (fun x y => Z.eqb x (Z.of_nat i) && Z.eqb y (Z.of_nat j))
                            (flat class_2017) (flat class_2023))
    /\ TemporalAnalysis.matrix_sum m
       = positions_where (fun x y => negb (Z.eqb x 0) && negb (Z.eqb y 0))
                         (flat class_2017) (flat class_2023)
    /\ TemporalAnalysis.trace m
       = positions_where
           (fun x y => negb (Z.eqb x 0) && negb (Z.eqb y 0) && Z.eqb x y)
           (flat class_2017) (flat class_2023).
Proof.
  intros E H17 H23.
  set (cnt := fun i j : Z =>
         positions_where (fun x y => Z.eqb x i && Z.eqb y j)
                         (flat class_2017) (flat class_2023)).
  eexists. split; [| split; [| split]].
  - apply (calculate_changes_unrolled _ _ cnt).
    intros i j. now apply count_transition_same_shape.
  - intros i j Hi Hj.
    destruct i as [| [| [| [| [| i]]]]]; try lia;
      destruct j as [| [| [| [| [| j]]]]]; try lia; reflexivity.
  - rewrite <- (transitions_total _ _ H17 H23).
    unfold TemporalAnalysis.matrix_sum; simpl. subst cnt; cbv beta. lia.
  - rewrite <- (transitions_diagonal _ _ H17 H23).
    unfold TemporalAnalysis.trace, TemporalAnalysis.diag, TemporalAnalysis.entry; simpl.
    subst cnt; cbv beta. lia.
Qed.

Lemma change_matrix_counts_witness :
  (shape Scenario.labels_1234 = shape Scenario.labels_1234
   /\ Forall TemporalAnalysis.is_class_or_background (flat Scenario.labels_1234))
  /\ exists m : TemporalAnalysis.matrix,
       TemporalAnalysis.calculate_changes Scenario.labels_1234 Scenario.labels_1234 = Ok m
       /\ TemporalAnalysis.matrix_sum m = 4%Z /\ TemporalAnalysis.trace m = 4%Z.
Proof.
  assert (H : Forall TemporalAnalysis.is_class_or_background (flat Scenario.labels_1234)).
  { repeat constructor; discriminate. }
  split; [split; [reflexivity | exact H] |].
  destruct (change_matrix_counts Scenario.labels_1234 Scenario.labels_1234 eq_refl H H)
    as (m & Hm & _ & Hsum & Htrace).
  exists m. split; [exact Hm | split; [exact Hsum | exact Htrace]].
Defined.

(** The scenario of the specification: a grid against itself gives the
    identity pattern. *)
Example change_matrix_identity :
  TemporalAnalysis.calculate_changes Scenario.labels_1234 Scenario.labels_1234
  = Ok [[1; 0; 0; 0]; [0; 1; 0; 0]; [0; 0; 1; 0]; [0; 0; 0; 1]]%Z.
Proof. reflexivity. Qed.

(** ** Binary64 facts used below *)

Section FloatFacts.

Open Scope float_scope.

Lemma Prim2SF_nan : Prim2SF nan = S754_nan.
Proof. reflexivity. Qed.

Lemma Prim2SF_zero : Prim2SF 0 = S754_zero false.
Proof. reflexivity. Qed.

(** Comparisons with [nan] are false. *)
Lemma ltb_nan_r (x : float) : (x <? nan) = false.
Proof.
  rewrite ltb_spec, Prim2SF_nan. unfold SFltb, SFcompare.
  now destruct (Prim2SF x).
Qed.

Lemma ltb_nan_l (x : float) : (nan <? x) = false.
Proof.
  rewrite ltb_spec, Prim2SF_nan. unfold SFltb, SFcompare.
  now destruct (Prim2SF x).
Qed.

(** [nan] is absorbing for subtraction and division. *)
Lemma sub_nan_r (x : float) : x - nan = nan.
Proof.
  apply Prim2SF_inj. rewrite sub_spec, Prim2SF_nan.
  unfold SF64sub, SFsub. now destruct (Prim2SF x).
Qed.

Lemma div_nan_l (x : float) : nan / x = nan.
Proof.
  apply Prim2SF_inj. rewrite div_spec, Prim2SF_nan. reflexivity.
Qed.

(** The square root of a value below zero is [nan]. *)
Lemma sqrt_negative (x : float) : (x <? 0) = true -> sqrt x = nan.
Proof.
  intros H. apply Prim2SF_inj. rewrite sqrt_spec, Prim2SF_nan.
  rewrite ltb_spec, Prim2SF_zero in H. unfold SFltb, SFcompare in H.
  unfold SF64sqrt, SFsqrt.
  destruct (Prim2SF x) as [s | s | | s m e]; try destruct s; try discriminate;
    reflexivity.
Qed.

End FloatFacts.

Lemma filter_map_length {A : Type} (p : A -> bool) (xs : list A) :
  length (filter (fun b : bool => b) (List.map p xs)) = length (filter p xs).
Proof.
  induction xs as [| x xs IH]; simpl; [reflexivity |].
  destruct (p x); simpl; now rewrite IH.
Qed.

Lemma nansum_bool_map {A : Type} (p : A -> bool) (a : ndarray A) :
  nansum_bool (Np.map p a) = cells_where p a.
Proof.
  unfold nansum_bool, Np.map, cells_where.
  now rewrite sum_bool_count, filter_map_length.
Qed.

Lemma cells_where_app {A : Type} (p : A -> bool) (h w h' w' : nat) (xs ys : list A) x :
  p x = false ->
  cells_where p (mk_ndarray h w (xs ++ x :: ys))
  = cells_where p (mk_ndarray h' w' (xs ++ ys)).
Proof.
  intros H. unfold cells_where; simpl.
  rewrite !filter_app; simpl. now rewrite H.
Qed.

(** ** C3: area statistics *)

(** C3.  The area statistics count a cell as positive change exactly when
    [change > threshold] and as negative change exactly when
    [change < -threshold] (default threshold 0.1); a [nan] cell satisfies
    neither comparison, so a grid with one more [nan] cell has the same
    statistics; and each area is the matching count times the pixel area
    [(pixel_size_x * pixel_size_y) / 1e6], the product being taken in that
    order in binary64. *)
Theorem area_stats_counts (change : ndarray float) (pixel_size_x pixel_size_y threshold : float) :
  ChangeDetection.calculate_area_stats change pixel_size_x pixel_size_y threshold
  = ((float_of_Z (cells_where (fun c => threshold <? c) change)
      * ((pixel_size_x * pixel_size_y) / 1e6))%float,
     (float_of_Z (cells_where (fun c => c <? - threshold) change)
      * ((pixel_size_x * pixel_size_y) / 1e6))%float)
  /\ ChangeDetection.default_threshold = 0.1%float
  /\ (threshold <? nan)%float = false
  /\ (nan <? - threshold)%float = false
  /\ forall (h w h' w' : nat) (cells cells' : list float),
       ChangeDetection.calculate_area_stats
         (mk_ndarray h w (cells ++ nan :: cells')) pixel_size_x pixel_size_y threshold
       = ChangeDetection.calculate_area_stats
           (mk_ndarray h' w' (cells ++ cells')) pixel_size_x pixel_size_y threshold.
Proof.
  assert (G : forall a,
             ChangeDetection.calculate_area_stats a pixel_size_x pixel_size_y threshold
             = ((float_of_Z (cells_where (fun c => threshold <? c) a)
                 * ((pixel_size_x * pixel_size_y) / 1e6))%float,
                (float_of_Z (cells_where (fun c => c <? - threshold) a)
                 * ((pixel_size_x * pixel_size_y) / 1e6))%float)).
  { intros a. unfold ChangeDetection.calculate_area_stats.
    now rewrite !nansum_bool_map. }
  split; [apply G |].
  split; [reflexivity |].
  split; [apply ltb_nan_r |].
  split; [apply ltb_nan_l |].
  intros h w h' w' cells cells'. rewrite !G.
  rewrite (cells_where_app (fun c => threshold <? c)%float h w h' w') by apply ltb_nan_r.
  rewrite (cells_where_app (fun c => c <? - threshold)%float h w h' w') by apply ltb_nan_l.
  reflexivity.
Qed.

(** A 2 x 2 change grid with one [nan] cell at 10 m resolution: one cell
    above [+0.1], one below [-0.1], areas of 1e-4 square kilometres. *)
Example area_stats_example :
  ChangeDetection.calculate_area_stats
    (mk_ndarray 2 2 [0.5; -0.3; nan; 0.1]%float) 10 10 ChangeDetection.default_threshold
  = (0.0001, 0.0001)%float.
Proof. reflexivity. Qed.

(** ** C9: MSAVI under a negative square-root argument *)

Lemma msavi_cell_nan (nir red : float) :
  (FeatureExtraction.Cell.msavi_sqrt_argument nir red <? 0)%float = true ->
  FeatureExtraction.Cell.calculate_msavi nir red = nan.
Proof.
  intros H. unfold FeatureExtraction.Cell.calculate_msavi.
  rewrite (sqrt_negative _ H), sub_nan_r, div_nan_l. reflexivity.
Qed.

Lemma nth_error_zip_with {A B C : Type} (f : A -> B -> C) xs ys k x y :
  nth_error xs k = Some x -> nth_error ys k = Some y ->
  nth_error (zip_with f xs ys) k = Some (f x y).
Proof.
  revert ys k. induction xs as [| x0 xs IH]; intros [| y0 ys] [| k]; simpl;
    try discriminate.
  - now intros [= ->] [= ->].
  - intros Hx Hy. now apply IH.
Qed.

(** C9.  On two layers of one shape MSAVI returns a grid (it raises nothing),
    and at every cell where the inner square-root argument
    [(2*nir+1)^2 - 8*(nir-red)] is below zero the result is [nan], the
    no-value marker. *)
Theorem msavi_negative_argument (nir red : ndarray float) :
  shape nir = shape red ->
  exists out : ndarray float,
    FeatureExtraction.calculate_msavi nir red = Ok out
    /\ shape out = shape nir
    /\ forall (k : nat) (n r : float),
         nth_error (flat nir) k = Some n ->
         nth_error (flat red) k = Some r ->
         (FeatureExtraction.Cell.msavi_sqrt_argument n r <? 0)%float = true ->
         nth_error (flat out) k = Some nan
         /\ FeatureExtraction.Cell.calculate_msavi n r = nan.
Proof.
  intros E. unfold FeatureExtraction.calculate_msavi.
  rewrite (binop_same_shape _ _ _ E). eexists. split; [reflexivity |].
  split; [reflexivity |].
  intros k n r Hn Hr Hneg; simpl.
  rewrite (nth_error_zip_with _ _ _ _ _ _ Hn Hr).
  now rewrite (msavi_cell_nan _ _ Hneg).
Qed.

Lemma msavi_negative_argument_witness :
  shape (mk_ndarray 1 2 [0.5; 0.5]%float) = shape (mk_ndarray 1 2 [-1; 0.25]%float)
  /\ (FeatureExtraction.Cell.msavi_sqrt_argument 0.5 (-1) <? 0)%float = true
  /\ exists out : ndarray float,
       FeatureExtraction.calculate_msavi (mk_ndarray 1 2 [0.5; 0.5]%float)
                                         (mk_ndarray 1 2 [-1; 0.25]%float) = Ok out
       /\ nth_error (flat out) 0 = Some nan.
Proof.
  split; [reflexivity |]. split; [reflexivity |].
  destruct (msavi_negative_argument (mk_ndarray 1 2 [0.5; 0.5]%float)
                                    (mk_ndarray 1 2 [-1; 0.25]%float) eq_refl)
    as (out & Hout & _ & Hcells).
  exists out. split; [exact Hout |].
  exact (proj1 (Hcells 0%nat 0.5%float (-1)%float eq_refl eq_refl eq_refl)).
Defined.

(** ** C5: grids of different shapes *)

Section ShapeMismatch.

Import ChangeDetection.

Lemma incompatible_sym (s t : nat * nat) : incompatible s t -> incompatible t s.
Proof.
  unfold incompatible. intros [(H1 & H2 & H3) | (H1 & H2 & H3)]; [left | right];
    repeat split; congruence.
Qed.

Lemma getitem_Forall {A : Type} (P : A -> Prop) (xs : list A) (k : nat) :
  Forall P xs -> (k < length xs)%nat -> exists x, getitem xs k = Ok x /\ P x.
Proof.
  intros HP Hk. unfold getitem.
  destruct (nth_error xs k) as [x |] eqn:E.
  - exists x. split; [reflexivity |].
    rewrite Forall_forall in HP. apply HP. eapply nth_error_In; eassumption.
  - apply nth_error_None in E. lia.
Qed.

(** A strict-masking index of two bands of one shape is computed without an
    exception and has that shape. *)
Lemma strict_index_shape (a b : ndarray float) (s : nat * nat) :
  shape a = s -> shape b = s ->
  exists out,
    (denominator <- fadd a b ;;
     let denominator := mask_zero denominator in
     difference <- fsub a b ;;
     fdiv difference denominator) = Ok out
    /\ shape out = s.
Proof.
  intros Ha Hb. unfold fadd, fsub, fdiv.
  rewrite !(binop_same_shape _ a b) by congruence. simpl.
  rewrite binop_same_shape by reflexivity.
  eexists. split; [reflexivity | exact Ha].
Qed.

Lemma calculate_ndvi_shape (img : image) (s : nat * nat) :
  Forall (fun b => shape b = s) img -> (4 <= length img)%nat ->
  exists out, calculate_ndvi img = Ok out /\ shape out = s.
Proof.
  intros Hs Hn. unfold calculate_ndvi.
  destruct (getitem_Forall _ img 3 Hs) as (nir & -> & Hnir); [lia |].
  destruct (getitem_Forall _ img 2 Hs) as (red & -> & Hred); [lia |].
  simpl. now apply strict_index_shape.
Qed.

Lemma calculate_ndwi_shape (img : image) (s : nat * nat) :
  Forall (fun b => shape b = s) img -> (4 <= length img)%nat ->
  exists out, calculate_ndwi img = Ok out /\ shape out = s.
Proof.
  intros Hs Hn. unfold calculate_ndwi.
  destruct (getitem_Forall _ img 1 Hs) as (green & -> & Hgreen); [lia |].
  destruct (getitem_Forall _ img 3 Hs) as (nir & -> & Hnir); [lia |].
  simpl. now apply strict_index_shape.
Qed.

Lemma calculate_ndbi_shape (img : image) (s : nat * nat) :
  Forall (fun b => shape b = s) img -> (4 <= length img)%nat ->
  exists out, calculate_ndbi img = Ok out /\ shape out = s.
Proof.
  intros Hs Hn. unfold calculate_ndbi.
  destruct (getitem_Forall _ img 0 Hs) as (swir & -> & Hswir); [lia |].
  destruct (getitem_Forall _ img 3 Hs) as (nir & -> & Hnir); [lia |].
  simpl. now apply strict_index_shape.
Qed.

Lemma broadcast_dim_some (m n : nat) :
  ~ (m <> n /\ m <> 1 /\ n <> 1)%nat -> exists k, broadcast_dim m n = Some k.
Proof.
  intros H. unfold broadcast_dim.
  destruct (Nat.eqb_spec m n); [eauto |].
  destruct (Nat.eqb_spec m 1); [eauto |].
  destruct (Nat.eqb_spec n 1); [eauto |]. tauto.
Qed.

(** Shapes that are not incompatible have a common broadcast shape. *)
Lemma compatible_broadcast_shape (s t : nat * nat) :
  ~ incompatible s t -> exists u, broadcast_shape s t = Some u.
Proof.
  unfold incompatible, broadcast_shape. intros H.
  destruct (broadcast_dim_some (fst s) (fst t)) as (h & ->); [tauto |].
  destruct (broadcast_dim_some (snd s) (snd t)) as (w & ->); [tauto |].
  eauto.
Qed.

Lemma binop_compatible {A B C : Type} (f : A -> B -> C)
      (a : ndarray A) (b : ndarray B) :
  ~ incompatible (shape a) (shape b) -> exists c, binop f a b = Ok c.
Proof.
  intros H. destruct (compatible_broadcast_shape _ _ H) as ((h, w) & Hu).
  unfold broadcast_shape, shape in Hu; cbn [fst snd] in Hu. unfold binop.
  destruct (broadcast_dim (nrows a) (nrows b)); [| discriminate].
  destruct (broadcast_dim (ncols a) (ncols b)); [| discriminate]. eauto.
Qed.

Lemma count_transition_compatible (a b : ndarray Z) (i j : Z) :
  ~ incompatible (shape a) (shape b) ->
  exists v, TemporalAnalysis.count_transition a b i j = Ok v.
Proof.
  intros H. unfold TemporalAnalysis.count_transition.
  destruct (binop_compatible andb (Np.map (fun c => Z.eqb c i) a)
                             (Np.map (fun c => Z.eqb c j) b) H) as (c & ->).
  simpl. eauto.
Qed.

End ShapeMismatch.

(** C5, as the code has it.  Neither mode checks shapes; the outcome is
    decided by numpy's broadcasting.  When the shapes of the two inputs
    cannot be broadcast together (they differ in a dimension where neither
    extent is 1), the first cell-wise operation across the two inputs raises
    [ValueError] and no result is produced; otherwise both modes return a
    result. *)
Theorem shapes_decide_change_detection
        (image_2018 image_2023 : image) (class_2017 class_2023 : ndarray Z)
        (s t : nat * nat) :
  Forall (fun b => shape b = s) image_2018 -> (4 <= length image_2018)%nat ->
  Forall (fun b => shape b = t) image_2023 -> (4 <= length image_2023)%nat ->
  shape class_2017 = s -> shape class_2023 = t ->
  (incompatible s t ->
   ChangeDetection.detect_changes image_2018 image_2023 = Raise ValueError
   /\ TemporalAnalysis.calculate_changes class_2017 class_2023 = Raise ValueError)
  /\ (~ incompatible s t ->
      is_ok (ChangeDetection.detect_changes image_2018 image_2023) = true
      /\ is_ok (TemporalAnalysis.calculate_changes class_2017 class_2023) = true).
Proof.
  intros H18 N18 H23 N23 S17 S23.
  destruct (calculate_ndvi_shape _ _ H18 N18) as (ndvi_2018 & Evi18 & Svi18).
  destruct (calculate_ndvi_shape _ _ H23 N23) as (ndvi_2023 & Evi23 & Svi23).
  destruct (calculate_ndwi_shape _ _ H18 N18) as (ndwi_2018 & Ewi18 & Swi18).
  destruct (calculate_ndwi_shape _ _ H23 N23) as (ndwi_2023 & Ewi23 & Swi23).
  destruct (calculate_ndbi_shape _ _ H18 N18) as (ndbi_2018 & Ebi18 & Sbi18).
  destruct (calculate_ndbi_shape _ _ H23 N23) as (ndbi_2023 & Ebi23 & Sbi23).
  split.
  - intros Hst. split.
    + unfold ChangeDetection.detect_changes. rewrite Evi18, Evi23. simpl.
      unfold fsub. rewrite binop_incompatible; [reflexivity |].
      rewrite Svi18, Svi23. now apply incompatible_sym.
    + unfold TemporalAnalysis.calculate_changes, TemporalAnalysis.range; simpl.
      unfold TemporalAnalysis.count_transition.
      rewrite binop_incompatible; [reflexivity |].
      unfold shape in *; simpl. now rewrite S17, S23.
  - intros Hst.
    assert (Hts : ~ incompatible t s) by (intros H; now apply Hst, incompatible_sym).
    split.
    + unfold ChangeDetection.detect_changes.
      rewrite Evi18, Evi23. cbn [bind]. unfold fsub.
      destruct (binop_compatible PrimFloat.sub ndvi_2023 ndvi_2018) as (c1 & ->);
        [now rewrite Svi18, Svi23 |].
      cbn [bind]. rewrite Ewi18, Ewi23. cbn [bind].
      destruct (binop_compatible PrimFloat.sub ndwi_2023 ndwi_2018) as (c2 & ->);
        [now rewrite Swi18, Swi23 |].
      cbn [bind]. rewrite Ebi18, Ebi23. cbn [bind].
      destruct (binop_compatible PrimFloat.sub ndbi_2023 ndbi_2018) as (c3 & ->);
        [now rewrite Sbi18, Sbi23 |].
      reflexivity.
    + set (cnt := fun i j : Z =>
             match TemporalAnalysis.count_transition class_2017 class_2023 i j with
             | Ok v => v
             | Raise _ => 0%Z
             end).
      rewrite (calculate_changes_unrolled _ _ cnt); [reflexivity |].
      intros i j. unfold cnt.
      destruct (count_transition_compatible class_2017 class_2023 i j) as (v & ->);
        [now rewrite S17, S23 | reflexivity].
Qed.

Lemma shapes_decide_change_detection_witness :
  incompatible (3, 3) (2, 2)
  /\ ChangeDetection.detect_changes (Scenario.flat_image 3 3 1) (Scenario.flat_image 2 2 3)
     = Raise ValueError
  /\ TemporalAnalysis.calculate_changes Scenario.labels_3x3 Scenario.labels_1234
     = Raise ValueError.
Proof.
  assert (H : incompatible (3, 3) (2, 2)).
  { left; simpl. repeat split; discriminate. }
  split; [exact H |].
  refine (proj1 (shapes_decide_change_detection
                   (Scenario.flat_image 3 3 1) (Scenario.flat_image 2 2 3)
                   Scenario.labels_3x3 Scenario.labels_1234 (3, 3) (2, 2)
                   _ _ _ _ eq_refl eq_refl) H).
  - repeat constructor.
  - simpl; lia.
  - repeat constructor.
  - simpl; lia.
Defined.

(** C5 as stated fails.  A single-pixel grid and a 2 x 2 grid do not share
    width and height, yet both modes broadcast the single pixel and return a
    result; and where an exception is raised (3 x 3 against 2 x 2) it is
    [ValueError], not [ShapeMismatchError]. *)
Lemma mismatched_shapes_may_broadcast :
  shape Scenario.label_1x1 <> shape Scenario.labels_1234
  /\ TemporalAnalysis.calculate_changes Scenario.label_1x1 Scenario.labels_1234
     = Ok [[1; 1; 1; 1]; [0; 0; 0; 0]; [0; 0; 0; 0]; [0; 0; 0; 0]]%Z
  /\ is_ok (ChangeDetection.detect_changes (Scenario.flat_image 1 1 1)
                                           (Scenario.flat_image 2 2 3)) = true
  /\ TemporalAnalysis.calculate_changes Scenario.labels_3x3 Scenario.labels_1234
     <> Raise ShapeMismatchError
  /\ ChangeDetection.detect_changes (Scenario.flat_image 3 3 1) (Scenario.flat_image 2 2 3)
     <> Raise ShapeMismatchError.
Proof.
  split; [discriminate |].
  split; [reflexivity |].
  split; [reflexivity |].
  split; [vm_compute; discriminate | vm_compute; discriminate].
Qed.

(** ** C8: the validator *)

Section Validator.

Import Validation.

Lemma compress_fst {A B : Type} (p : A -> bool) (ts : list A) (ps : list B) :
  length ps = length ts ->
  compress (List.map p ts) ts
  = List.map fst (filter (fun tp => p (fst tp)) (combine ts ps)).
Proof.
  revert ps. induction ts as [| t ts IH]; intros [| q ps]; simpl;
    try discriminate; try reflexivity.
  intros [= E]. destruct (p t); simpl; now rewrite (IH ps E).
Qed.

Lemma compress_snd {A B : Type} (p : A -> bool) (ts : list A) (ps : list B) :
  compress (List.map p ts) ps
  = List.map snd (filter (fun tp => p (fst tp)) (combine ts ps)).
Proof.
  revert ps. induction ts as [| t ts IH]; intros [| q ps]; simpl;
    try reflexivity.
  destruct (p t); simpl; now rewrite IH.
Qed.

Lemma filter_all_false {A : Type} (p : A -> bool) (xs : list A) :
  Forall (fun x => p x = false) xs -> filter p xs = [].
Proof.
  induction 1 as [| x xs Hx _ IH]; simpl; [reflexivity |]. now rewrite Hx.
Qed.

Lemma Forall_combine_fst {A B : Type} (P : A -> Prop) (xs : list A) (ys : list B) :
  Forall P xs -> Forall (fun xy => P (fst xy)) (combine xs ys).
Proof.
  intros H. revert ys. induction H as [| x xs Hx _ IH]; intros [| y ys]; simpl;
    constructor; auto.
Qed.

End Validator.

(** C8, as the code has it.  The validator checks no shape.  It flattens the
    two grids: when their numbers of cells differ, the boolean-mask indexing
    raises [IndexError]; when they agree, exactly the positions whose
    ground-truth label is 0 are dropped before the confusion matrix and the
    per-class metrics are computed, whatever the widths and heights; and when
    no labelled position remains, the metrics refuse the four class names
    with [ValueError]. *)
Theorem validator_masks_background (prediction ground_truth : ndarray Z) :
  (length (flat prediction) <> length (flat ground_truth) ->
   Validation.validate_classification prediction ground_truth = Raise IndexError)
  /\ (length (flat prediction) = length (flat ground_truth) ->
      Validation.validate_classification prediction ground_truth
      = Validation.calculate_metrics
          (List.map fst (Validation.labelled_pairs prediction ground_truth))
          (List.map snd (Validation.labelled_pairs prediction ground_truth))
          ["Water"; "Vegetation"; "Built-up"; "Barren"]%string)
  /\ (length (flat prediction) = length (flat ground_truth) ->
      Forall (fun t => t = 0%Z) (flat ground_truth) ->
      Validation.validate_classification prediction ground_truth = Raise ValueError).
Proof.
  assert (G : length (flat prediction) = length (flat ground_truth) ->
              Validation.validate_classification prediction ground_truth
              = Validation.calculate_metrics
                  (List.map fst (Validation.labelled_pairs prediction ground_truth))
                  (List.map snd (Validation.labelled_pairs prediction ground_truth))
                  ["Water"; "Vegetation"; "Built-up"; "Barren"]%string).
  { intros E. unfold Validation.validate_classification, flatten, getitem_mask.
    rewrite !length_map, Nat.eqb_refl.
    rewrite (proj2 (Nat.eqb_eq _ _)) by (symmetry; exact E). simpl.
    unfold Validation.labelled_pairs.
    rewrite (compress_fst (fun t => negb (Z.eqb t 0)) _ (flat prediction) E).
    now rewrite compress_snd. }
  split; [| split; [exact G |]].
  - intros N. unfold Validation.validate_classification, flatten, getitem_mask.
    rewrite length_map.
    destruct (Nat.eqb_spec (length (flat ground_truth)) (length (flat prediction)));
      [congruence | reflexivity].
  - intros E Z0. rewrite (G E). unfold Validation.labelled_pairs.
    rewrite filter_all_false; [reflexivity |].
    apply (Forall_combine_fst (fun t => negb (Z.eqb t 0) = false)).
    eapply Forall_impl; [| exact Z0]. intros t ->. reflexivity.
Qed.

Lemma validator_masks_background_witness :
  length (flat Scenario.predicted_100x100) <> length (flat Scenario.truth_50x50)
  /\ Validation.validate_classification Scenario.predicted_100x100 Scenario.truth_50x50
     = Raise IndexError.
Proof.
  assert (N : length (flat Scenario.predicted_100x100)
              <> length (flat Scenario.truth_50x50)).
  { unfold Scenario.predicted_100x100, Scenario.truth_50x50; cbn [flat].
    rewrite !repeat_length. discriminate. }
  split; [exact N |].
  exact (proj1 (validator_masks_background _ _) N).
Defined.

(** C8 as stated fails.  A 2 x 3 prediction against a 3 x 2 ground truth
    differ in width and height, yet the validator returns a confusion matrix;
    100 x 100 against 50 x 50 raises [IndexError], not [ShapeMismatchError];
    and a ground truth without any labelled pixel raises [ValueError], not
    [EmptyLabelSetError]. *)
Lemma validator_checks_no_shape :
  shape Scenario.predicted_2x3 <> shape Scenario.truth_3x2
  /\ (exists report,
        Validation.validate_classification Scenario.predicted_2x3 Scenario.truth_3x2
        = Ok ([[1; 0; 0; 0]; [0; 1; 1; 0]; [0; 0; 1; 0]; [0; 0; 0; 1]]%Z, report))
  /\ Validation.validate_classification Scenario.predicted_100x100 Scenario.truth_50x50
     <> Raise ShapeMismatchError
  /\ Validation.validate_classification Scenario.predicted_2x3 Scenario.truth_background
     <> Raise EmptyLabelSetError.
Proof.
  split; [discriminate |].
  split; [eexists; vm_compute; reflexivity |].
  split; vm_compute; discriminate.
Qed.

(** ** The reference estimator obeys the contract *)

Section ReferenceForestLaws.

Import Sklearn ReferenceForest Metrics.

Lemma In_insert_unique (c a : Z) (cs : list Z) :
  In c (insert_unique a cs) <-> c = a \/ In c cs.
Proof.
  induction cs as [| d cs IH]; simpl.
  - intuition.
  - destruct (Z.ltb_spec a d); [simpl; intuition |].
    destruct (Z.eqb_spec a d); simpl.
    + subst. intuition.
    + rewrite IH. intuition.
Qed.

Lemma In_sorted_set (c : Z) (ys : list Z) : In c (sorted_set ys) <-> In c ys.
Proof.
  unfold sorted_set. induction ys as [| y ys IH]; simpl; [reflexivity |].
  rewrite In_insert_unique, IH. intuition.
Qed.

Lemma fold_right_select {A : Type} (f : A -> A -> A) (d : A) (xs : list A) :
  (forall c best, f c best = c \/ f c best = best) ->
  fold_right f d xs = d \/ In (fold_right f d xs) xs.
Proof.
  intros Hf. induction xs as [| x xs IH]; simpl; [now left |].
  destruct (Hf x (fold_right f d xs)) as [-> | ->]; [right; now left |].
  destruct IH as [-> | H]; [now left | right; now right].
Qed.

Lemma majority_In (ys : list Z) (d : Z) : majority ys d = d \/ In (majority ys d) ys.
Proof.
  unfold majority. apply fold_right_select.
  intros c best. destruct (Nat.ltb _ _); auto.
Qed.

Lemma labels_where_In (p : row -> bool) (X : list row) (y : list Z) (c : Z) :
  In c (labels_where p X y) -> In c y.
Proof.
  unfold labels_where. rewrite in_map_iff. intros ((r, l) & <- & H).
  apply filter_In in H. destruct H as [H _]. now apply in_combine_r in H.
Qed.

Lemma valid_rows_cons (k : nat) (X : list row) :
  valid_rows k X = true -> exists r rest, X = r :: rest /\ length r = k.
Proof.
  destruct X as [| r rest]; [discriminate |].
  unfold valid_rows. cbn [forallb]. intros H.
  apply andb_prop in H. destruct H as [H _].
  apply andb_prop in H. destruct H as [H _].
  apply Nat.eqb_eq in H. now exists r, rest.
Qed.

Lemma valid_rows_nonempty (k : nat) (X : list row) : valid_rows k X = true -> X <> [].
Proof. destruct X; [discriminate | discriminate]. Qed.

Lemma valid_rows_widths (k : nat) (X : list row) :
  valid_rows k X = true -> Forall (fun r => length r = k) X.
Proof.
  destruct X as [| r0 rest]; [constructor |].
  unfold valid_rows. intros H. apply Forall_forall. intros r Hr.
  rewrite forallb_forall in H. specialize (H r Hr).
  apply andb_prop in H. destruct H as [H _]. now apply Nat.eqb_eq.
Qed.

Lemma stump_fit_Ok (n : nat) (s : Z) (X : list row) (y : list Z) (m : stump) :
  stump_fit n s X y = Ok m ->
  m = grow X y (length (hd [] X))
  /\ valid_rows (length (hd [] X)) X = true /\ length X = length y.
Proof.
  unfold stump_fit.
  destruct (Nat.eqb n 0); [discriminate |].
  destruct (Nat.eqb (length (hd [] X)) 0); [discriminate |].
  destruct (valid_rows _ X) eqn:V; [| discriminate]. simpl.
  destruct (Nat.eqb_spec (length X) (length y)); [| discriminate]. simpl.
  intros [= <-]. auto.
Qed.

Lemma grow_fields (X : list row) (y : list Z) (k : nat) :
  seen_classes (grow X y k) = sorted_set y /\ n_columns (grow X y k) = k.
Proof.
  unfold grow. destruct (sorted_set y) as [| ? [| ? ?]]; auto.
Qed.

Lemma decide_In (X : list row) (y : list Z) (k : nat) (r : row) :
  y <> [] -> In (decide (grow X y k) r) y.
Proof.
  intros Hy.
  assert (Htop : In (majority y (hd 0%Z y)) y).
  { destruct (majority_In y (hd 0%Z y)) as [-> | H]; [| exact H].
    destruct y; [congruence | now left]. }
  assert (Hsub : forall p, In (majority (labels_where p X y) (majority y (hd 0%Z y))) y).
  { intros p. destruct (majority_In (labels_where p X y) (majority y (hd 0%Z y)))
      as [-> | H]; [exact Htop | eapply labels_where_In; exact H]. }
  unfold decide, grow.
  destruct (sorted_set y) as [| ? [| ? ?]]; cbn [rule majority_class]; try exact Htop.
  destruct (PrimFloat.leb _ _); apply Hsub.
Qed.

Lemma total_zeros (k : nat) : (total (repeat 0%Q k) == 0)%Q.
Proof.
  induction k as [| k IH]; simpl; [reflexivity |]. rewrite IH. reflexivity.
Qed.

#[export] Instance stump_laws : EstimatorLaws stump.
Proof.
  constructor.
  - intros n s X y k Hn Hk V E. cbn [fit stump_estimator]. unfold stump_fit.
    destruct (valid_rows_cons _ _ V) as (r & rest & -> & Hr). cbn [hd].
    rewrite Hr, V, E, Nat.eqb_refl.
    destruct (Nat.eqb_spec n 0); [lia |]. destruct (Nat.eqb_spec k 0); [lia |].
    reflexivity.
  - intros n s X y e. cbn [fit stump_estimator]. unfold stump_fit.
    repeat match goal with
           | |- context [if ?b then _ else _] => destruct b
           end; congruence.
  - intros n s X y m H c. apply stump_fit_Ok in H. destruct H as (-> & _ & _).
    cbn [classes_ stump_estimator]. rewrite (proj1 (grow_fields _ _ _)).
    apply In_sorted_set.
  - intros n s X y m H. apply stump_fit_Ok in H. destruct H as (-> & V & _).
    cbn [n_features_in_ stump_estimator]. rewrite (proj2 (grow_fields _ _ _)).
    split; [now apply (valid_rows_nonempty (length (hd [] X))) |].
    now apply valid_rows_widths.
  - intros n s X y m X' _ V. cbn [predict stump_estimator]. unfold stump_predict.
    cbn [n_features_in_ stump_estimator] in V. now rewrite V.
  - intros n s X y m X' p H. apply stump_fit_Ok in H. destruct H as (-> & V & E).
    cbn [predict classes_ stump_estimator]. unfold stump_predict.
    destruct (valid_rows _ X'); [| discriminate]. intros [= <-].
    split; [apply length_map |].
    rewrite (proj1 (grow_fields _ _ _)). apply Forall_forall. intros c Hc.
    apply in_map_iff in Hc. destruct Hc as (r & <- & _).
    apply In_sorted_set, decide_In.
    destruct (valid_rows_cons _ _ V) as (r0 & rest & -> & _).
    destruct y; [discriminate | congruence].
  - intros n s X y m _. cbn [feature_importances_ n_features_in_ stump_estimator].
    unfold stump_importances.
    destruct (rule m), (n_columns m); simpl; now rewrite ?repeat_length.
  - intros n s X y m _. cbn [feature_importances_ stump_estimator].
    unfold stump_importances.
    assert (Z0 : forall k, Forall (fun sc => (0 <= sc)%Q) (repeat 0%Q k)).
    { intros k. apply Forall_forall. intros q Hq.
      apply repeat_spec in Hq. subst. apply Qle_refl. }
    destruct (rule m), (n_columns m); try apply Z0.
    constructor; [discriminate | apply Z0].
  - intros n s X y m _. cbn [feature_importances_ stump_estimator].
    unfold stump_importances.
    assert (Z0 : forall k, Forall (fun sc => (sc == 0)%Q) (repeat 0%Q k)).
    { intros k. apply Forall_forall. intros q Hq.
      apply repeat_spec in Hq. subst. reflexivity. }
    destruct (rule m), (n_columns m); try (right; apply Z0).
    left. simpl. rewrite total_zeros. reflexivity.
Qed.

End ReferenceForestLaws.

(** ** The classifier wrapper *)

Section ClassifierFacts.

Import Sklearn Classification.

Context {M : Type} `{EstimatorLaws M} {rng : RandomState}.

(** A successful [train] stores the forest returned by [fit] and changes
    nothing else. *)
Lemma train_Ok (self trained : LandCoverClassifier M) (X : list row) (y : list Z) :
  train self X y = Ok trained ->
  exists m,
    fit (n_estimators self) (random_state self) X y = Ok m
    /\ trained = mk_classifier (n_estimators self) (random_state self) (Some m)
                               (feature_names self) (class_names self).
Proof.
  unfold train. destruct (fit _ _ X y) as [m | e]; simpl; [| discriminate].
  intros [= <-]. now exists m.
Qed.

(** [train] raises exactly what [fit] raises. *)
Lemma train_Raise (self : LandCoverClassifier M) (X : list row) (y : list Z) (e : exn) :
  train self X y = Raise e ->
  fit (n_estimators self) (random_state self) X y = Raise e.
Proof.
  unfold train. destruct (fit _ _ X y) as [m | e']; simpl; [discriminate |].
  now intros [= <-].
Qed.

Lemma bind_Ok {A B : Type} (r : result A) (k : A -> result B) (b : B) :
  bind r k = Ok b -> exists a, r = Ok a /\ k a = Ok b.
Proof. destruct r as [a | e]; simpl; [now exists a | discriminate]. Qed.

Lemma take_In {A : Type} (xs : list A) (indices : list nat) (out : list A) :
  take xs indices = Ok out -> forall x, In x out -> In x xs.
Proof.
  revert out. induction indices as [| i rest IH]; intros out; simpl.
  - intros [= <-] x [].
  - unfold getitem. destruct (nth_error xs i) as [a |] eqn:E; simpl; [| discriminate].
    destruct (take xs rest) as [tl |]; simpl; [| discriminate].
    intros [= <-] x [<- | Hx].
    + eapply nth_error_In; eassumption.
    + now apply (IH tl).
Qed.

Lemma train_test_split_labels {A B : Type} (X : list A) (y : list B)
      (test_size : float) (seed : Z) X_train X_test y_train y_test :
  train_test_split X y test_size seed = Ok (X_train, X_test, y_train, y_test) ->
  forall c, In c y_train -> In c y.
Proof.
  unfold train_test_split.
  destruct (negb _); [discriminate |].
  destruct (Nat.eqb _ 0); [discriminate |].
  intros Hs.
  apply bind_Ok in Hs. destruct Hs as (a & _ & Hs).
  apply bind_Ok in Hs. destruct Hs as (b & _ & Hs).
  apply bind_Ok in Hs. destruct Hs as (c & E & Hs).
  apply bind_Ok in Hs. destruct Hs as (d & _ & Hs).
  inversion Hs; subst. now apply (take_In _ _ _ E).
Qed.

Lemma compress_In {A : Type} (p : A -> bool) (xs : list A) (x : A) :
  In x (compress (List.map p xs) xs) -> p x = true /\ In x xs.
Proof.
  induction xs as [| a xs IH]; simpl; [intros [] |].
  destruct (p a) eqn:E.
  - intros [<- | Hx]; [auto | destruct (IH Hx); auto].
  - intros Hx. destruct (IH Hx); auto.
Qed.

(** Training labels are labels of the grid and none of them is 0. *)
Lemma prepare_training_data_labels (features : image) (labels : ndarray Z)
      X_train X_test y_train y_test :
  prepare_training_data features labels = Ok (X_train, X_test, y_train, y_test) ->
  forall c, In c y_train -> c <> 0%Z /\ In c (flat labels).
Proof.
  unfold prepare_training_data, getitem_mask, flatten.
  destruct (Nat.eqb _ (length (pixel_rows features))); simpl; [| discriminate].
  rewrite length_map, Nat.eqb_refl; simpl.
  intros Hs c Hc.
  apply (train_test_split_labels _ _ _ _ _ _ _ _ Hs) in Hc.
  apply compress_In in Hc. destruct Hc as [Hnz Hin]. split; [| exact Hin].
  intros ->. discriminate.
Qed.

Lemma pixel_rows_length (band : ndarray float) (rest : image) :
  length (pixel_rows (band :: rest)) = (nrows band * ncols band)%nat.
Proof.
  unfold pixel_rows, image_shape, shape. now rewrite length_map, length_seq.
Qed.

(** What [predict] returns for a forest fitted on [(X, y)]: one label of [y]
    per pixel, in an array of the image's height and width. *)
Lemma predict_fitted (self : LandCoverClassifier M) (m : M) n s X y (grid : image) :
  model self = Some m -> fit n s X y = Ok m ->
  valid_rows (n_features_in_ m) (pixel_rows grid) = true ->
  exists predictions band rest,
    grid = band :: rest
    /\ predict self grid = Ok predictions
    /\ shape predictions = shape band
    /\ well_formed predictions
    /\ Forall (fun c => In c y) (flat predictions).
Proof.
  intros Hm Hfit V.
  destruct grid as [| band rest]; [discriminate |].
  pose proof (predict_accepts _ _ _ _ _ _ Hfit V) as Hok.
  destruct (Sklearn.predict m (pixel_rows (band :: rest))) as [p |] eqn:P;
    [| discriminate].
  destruct (predict_classes _ _ _ _ _ _ _ Hfit P) as [Hlen Hin].
  rewrite pixel_rows_length in Hlen.
  exists (mk_ndarray (nrows band) (ncols band) p), band, rest.
  split; [reflexivity |]. split; [| split; [reflexivity | split]].
  - unfold predict, fitted_model, image_shape, shape. rewrite Hm. cbn [bind].
    rewrite P. cbn [bind]. now rewrite Hlen, Nat.eqb_refl.
  - exact Hlen.
  - cbn [flat]. eapply Forall_impl; [| exact Hin].
    intros c Hc. now apply (fit_classes _ _ _ _ _ Hfit).
Qed.

End ClassifierFacts.

(** ** C10: predicted labels *)

(** C10.  Let the training rows come from [prepare_training_data], which
    removes the rows labelled 0, and the classifier from [train] on them.
    Then for every feature grid whose rows the forest accepts, [predict]
    returns a label grid of the grid's height and width, with a value at every
    pixel position (whatever the training label at that position was), and
    every value is one of the nonzero classes seen in training: the
    predicted grid never contains the background value 0. *)
Theorem predicted_labels_are_training_classes
        (M : Type) (E : Sklearn.Estimator M) (L : Sklearn.EstimatorLaws M)
        (R : Sklearn.RandomState)
        (self trained : Classification.LandCoverClassifier M)
        (features : image) (labels : ndarray Z)
        (X_train X_test : list Sklearn.row) (y_train y_test : list Z)
        (grid : image) :
  Classification.prepare_training_data features labels
    = Ok (X_train, X_test, y_train, y_test) ->
  Classification.train self X_train y_train = Ok trained ->
  (forall m, Classification.model trained = Some m ->
             Sklearn.valid_rows (Sklearn.n_features_in_ m)
                                (Classification.pixel_rows grid) = true) ->
  exists (predictions : ndarray Z) (band : ndarray float) (rest : image),
    grid = band :: rest
    /\ Classification.predict trained grid = Ok predictions
    /\ shape predictions = shape band
    /\ well_formed predictions
    /\ Forall (fun c => c <> 0%Z /\ In c y_train) (flat predictions).
Proof.
  intros Hprep Htrain Hvalid.
  destruct (train_Ok _ _ _ _ Htrain) as (m & Hfit & ->).
  destruct (predict_fitted
              (Classification.mk_classifier
                 (Classification.n_estimators self) (Classification.random_state self)
                 (Some m) (Classification.feature_names self)
                 (Classification.class_names self))
              m _ _ _ _ grid eq_refl Hfit (Hvalid m eq_refl))
    as (predictions & band & rest & Hgrid & Hpred & Hshape & Hwf & Hin).
  exists predictions, band, rest. repeat (split; [assumption |]).
  eapply Forall_impl; [| exact Hin].
  intros c Hc. split; [| exact Hc].
  exact (proj1 (prepare_training_data_labels _ _ _ _ _ _ Hprep c Hc)).
Qed.

#[local] Existing Instance ReferenceForest.stump_estimator.
#[local] Existing Instance ReferenceForest.identity_shuffle.

Lemma predicted_labels_are_training_classes_witness :
  nth_error (flat Scenario.training_labels) 2 = Some 0%Z
  /\ exists trained predictions,
       Scenario.trained_classifier = Ok trained
       /\ Classification.predict trained Scenario.training_features = Ok predictions
       /\ shape predictions = (1, 5)%nat
       /\ Forall (fun c => c <> 0%Z) (flat predictions).
Proof.
  split; [reflexivity |].
  destruct (Classification.train Classification.default Scenario.training_rows
                                 Scenario.training_row_labels)
    as [trained |] eqn:Htrain; [| vm_compute in Htrain; discriminate].
  assert (Hprep : Classification.prepare_training_data
                    Scenario.training_features Scenario.training_labels
                  = Ok (Scenario.training_rows, Scenario.evaluation_rows,
                        Scenario.training_row_labels, Scenario.evaluation_row_labels))
    by (vm_compute; reflexivity).
  assert (Hvalid : forall m,
             Classification.model trained = Some m ->
             Sklearn.valid_rows (Sklearn.n_features_in_ m)
               (Classification.pixel_rows Scenario.training_features) = true).
  { vm_compute in Htrain. injection Htrain as <-.
    intros m Hm. injection Hm as <-. vm_compute. reflexivity. }
  destruct (predicted_labels_are_training_classes
              ReferenceForest.stump _ stump_laws _
              Classification.default trained
              Scenario.training_features Scenario.training_labels
              _ _ _ _ Scenario.training_features Hprep Htrain Hvalid)
    as (predictions & band & rest & Hgrid & Hpred & Hshape & _ & Hin).
  exists trained, predictions. split; [| split; [exact Hpred | split]].
  - unfold Scenario.trained_classifier. rewrite Hprep. exact Htrain.
  - rewrite Hshape. injection Hgrid as <- _. reflexivity.
  - eapply Forall_impl; [| exact Hin]. intros c Hc. exact (proj1 Hc).
Defined.

(** ** C6: training on fewer than two classes *)

(** C6, as the code has it.  [train] checks nothing about the labels: it
    hands the rows to the forest's [fit].  On valid training rows (at least
    one row, one positive width, finite values, one label per row) it yields
    a trained classifier whatever the number of distinct labels, with exactly
    the labels present as its classes; and whatever the input, it never
    raises [InsufficientClassesError]. *)
Theorem train_checks_no_class_count
        (M : Type) (E : Sklearn.Estimator M) (L : Sklearn.EstimatorLaws M)
        (self : Classification.LandCoverClassifier M)
        (X_train : list Sklearn.row) (y_train : list Z) (k : nat) :
  (0 < Classification.n_estimators self)%nat -> (0 < k)%nat ->
  Sklearn.valid_rows k X_train = true ->
  length X_train = length y_train ->
  (exists (trained : Classification.LandCoverClassifier M) (m : M),
      Classification.train self X_train y_train = Ok trained
      /\ Classification.model trained = Some m
      /\ forall c, In c (Sklearn.classes_ m) <-> In c y_train)
  /\ forall X y, Classification.train self X y <> Raise InsufficientClassesError.
Proof.
  intros Hn Hk V Hlen. split.
  - pose proof (Sklearn.fit_accepts (Classification.n_estimators self)
                  (Classification.random_state self) _ _ _ Hn Hk V Hlen) as Hok.
    destruct (Sklearn.fit (Classification.n_estimators self)
                (Classification.random_state self) X_train y_train)
      as [m |] eqn:Hfit; [| discriminate].
    exists (Classification.mk_classifier
              (Classification.n_estimators self) (Classification.random_state self)
              (Some m) (Classification.feature_names self)
              (Classification.class_names self)), m.
    split; [| split; [reflexivity |]].
    + unfold Classification.train. rewrite Hfit. reflexivity.
    + now apply (Sklearn.fit_classes _ _ _ _ _ Hfit).
  - intros X y Hraise. apply train_Raise in Hraise.
    apply Sklearn.fit_raises in Hraise. discriminate.
Qed.

Lemma train_checks_no_class_count_witness :
  length (Metrics.sorted_set Scenario.labels_of_class_2) = 1%nat
  /\ exists trained m,
       Classification.train Classification.default
         Scenario.rows_of_class_2 Scenario.labels_of_class_2 = Ok trained
       /\ Classification.model trained = Some m
       /\ forall c, In c (Sklearn.classes_ m) <-> In c Scenario.labels_of_class_2.
Proof.
  split; [reflexivity |].
  refine (proj1 (train_checks_no_class_count
                   ReferenceForest.stump _ stump_laws Classification.default
                   Scenario.rows_of_class_2 Scenario.labels_of_class_2 3 _ _ _ _)).
  - vm_compute. repeat constructor.
  - repeat constructor.
  - vm_compute. reflexivity.
  - reflexivity.
Defined.

(** C6 as stated fails.  Rows whose labels are all class 2 hold a single
    distinct class, and training on them (here with the reference estimator,
    which like the forest accepts any number of classes) returns a trained
    classifier, whose only class is 2, instead of raising
    [InsufficientClassesError]. *)
Lemma train_on_one_class_succeeds :
  length (Metrics.sorted_set Scenario.labels_of_class_2) = 1%nat
  /\ exists trained m,
       Classification.train Classification.default
         Scenario.rows_of_class_2 Scenario.labels_of_class_2 = Ok trained
       /\ Classification.model trained = Some m
       /\ Sklearn.classes_ m = [2%Z]
       /\ Classification.train Classification.default
            Scenario.rows_of_class_2 Scenario.labels_of_class_2
          <> Raise InsufficientClassesError.
Proof.
  split; [reflexivity |].
  eexists. eexists. split; [vm_compute; reflexivity |].
  split; [reflexivity |]. split; [reflexivity |]. vm_compute. discriminate.
Qed.

(** ** C7: feature importance *)

Section FeatureImportance.

Import Sklearn Classification.

Context {M : Type} `{EstimatorLaws M}.

Lemma Forall_combine_snd {A B : Type} (P : B -> Prop) (xs : list A) (ys : list B) :
  Forall P ys -> Forall (fun kv => P (snd kv)) (combine xs ys).
Proof.
  intros HP. apply Forall_forall. intros (k, v) Hin. simpl.
  rewrite Forall_forall in HP. apply HP. eapply in_combine_r; eassumption.
Qed.

Lemma get_feature_importance_fitted (self : LandCoverClassifier M) (m : M) :
  model self = Some m ->
  get_feature_importance self
  = Ok (combine (feature_names self) (feature_importances_ m)).
Proof.
  intros Hm. unfold get_feature_importance, fitted_model. now rewrite Hm.
Qed.

End FeatureImportance.

(** C7, as the code has it.  Before training the query raises the library's
    [NotFittedError].  For a classifier trained on rows of exactly three
    feature columns, those named at construction (NDVI, NDWI, NDBI), the
    query returns a mapping that assigns a non-negative score to each of the
    three features, and the scores sum to 1 (or are all 0 when no tree of the
    forest has a split). *)
Theorem feature_importance_of_three_features
        (M : Type) (E : Sklearn.Estimator M) (L : Sklearn.EstimatorLaws M)
        (n_estimators : nat) (random_state : Z)
        (trained : Classification.LandCoverClassifier M)
        (X_train : list Sklearn.row) (y_train : list Z) :
  Classification.train (Classification.init n_estimators random_state) X_train y_train
    = Ok trained ->
  Forall (fun r => length r = 3%nat) X_train ->
  Classification.get_feature_importance
    (Classification.init (M := M) n_estimators random_state) = Raise NotFittedError
  /\ exists importance : list (string * Q),
       Classification.get_feature_importance trained = Ok importance
       /\ List.map fst importance = ["NDVI"; "NDWI"; "NDBI"]%string
       /\ Forall (fun kv => (0 <= snd kv)%Q) importance
       /\ ((Sklearn.total (List.map snd importance) == 1)%Q
           \/ Forall (fun kv => (snd kv == 0)%Q) importance).
Proof.
  intros Htrain V3. split; [reflexivity |].
  destruct (train_Ok _ _ _ _ Htrain) as (m & Hfit & ->).
  pose proof (Sklearn.importances_length _ _ _ _ _ Hfit) as Hlen.
  pose proof (Sklearn.importances_nonneg _ _ _ _ _ Hfit) as Hnn.
  pose proof (Sklearn.importances_total _ _ _ _ _ Hfit) as Htot.
  assert (H3 : Sklearn.n_features_in_ m = 3%nat).
  { destruct (Sklearn.fit_n_features _ _ _ _ _ Hfit) as [Hne Hm].
    destruct X_train as [| r rest]; [congruence |].
    inversion V3; subst. inversion Hm; subst. congruence. }
  rewrite H3 in Hlen.
  eexists. split; [apply get_feature_importance_fitted; reflexivity |].
  cbn [Classification.feature_names Classification.init].
  destruct (Sklearn.feature_importances_ m) as [| a [| b [| c [| d rest]]]];
    try discriminate.
  split; [reflexivity |].
  split; [now apply Forall_combine_snd |].
  destruct Htot as [Htot | Htot]; [left; exact Htot | right].
  now apply (Forall_combine_snd (fun q => (q == 0)%Q)).
Qed.

Lemma feature_importance_of_three_features_witness :
  Forall (fun r => length r = 3%nat) Scenario.training_rows
  /\ exists trained importance,
       Classification.train (Classification.init 100 42) Scenario.training_rows
                            Scenario.training_row_labels = Ok trained
       /\ Classification.get_feature_importance trained = Ok importance
       /\ List.map fst importance = ["NDVI"; "NDWI"; "NDBI"]%string
       /\ Forall (fun kv => (0 <= snd kv)%Q) importance.
Proof.
  assert (W : Forall (fun r => length r = 3%nat) Scenario.training_rows)
    by (repeat constructor).
  split; [exact W |].
  destruct (Classification.train (Classification.init 100 42) Scenario.training_rows
                                 Scenario.training_row_labels)
    as [trained |] eqn:Htrain; [| vm_compute in Htrain; discriminate].
  destruct (feature_importance_of_three_features
              ReferenceForest.stump _ stump_laws 100 42%Z trained
              Scenario.training_rows Scenario.training_row_labels Htrain W)
    as (_ & importance & Hget & Hnames & Hnn & _).
  exists trained, importance. split; [reflexivity |]. split; [exact Hget |].
  split; [exact Hnames | exact Hnn].
Defined.

(** C7 as stated fails.  A classifier trained on the seven features produced
    by [extract_features] reports three scores, none for SAVI, MSAVI, EVI or
    BSI; a classifier trained on a single class reports scores that sum to 0,
    not 1; and an untrained classifier raises [NotFittedError], not
    [NotTrainedError].  (Run with the reference estimator.) *)
Lemma feature_importance_misses_features :
  (exists rows trained m importance,
      Scenario.rows_of_7_features = Ok rows
      /\ Classification.train Classification.default rows
                              Scenario.labels_of_2_classes = Ok trained
      /\ Classification.model trained = Some m
      /\ Sklearn.n_features_in_ m = 7%nat
      /\ Classification.get_feature_importance trained = Ok importance
      /\ List.map fst importance = ["NDVI"; "NDWI"; "NDBI"]%string)
  /\ (exists trained importance,
        Classification.train Classification.default Scenario.rows_of_class_2
                             Scenario.labels_of_class_2 = Ok trained
        /\ Classification.get_feature_importance trained = Ok importance
        /\ (Sklearn.total (List.map snd importance) == 0)%Q)
  /\ Classification.get_feature_importance
       (Classification.default (M := ReferenceForest.stump))
     <> Raise NotTrainedError.
Proof.
  split; [| split].
  - do 4 eexists. split; [vm_compute; reflexivity |].
    split; [vm_compute; reflexivity |].
    split; [reflexivity |]. split; [reflexivity |].
    split; [vm_compute; reflexivity | reflexivity].
  - do 2 eexists. split; [vm_compute; reflexivity |].
    split; [vm_compute; reflexivity | reflexivity].
  - vm_compute. discriminate.
Qed.

(** ** Binary64 addition of non-negative values *)

Section Rounding64.

Local Open Scope Z_scope.

Lemma digits2_pos_size (p : positive) : digits2_pos p = Pos.size p.
Proof. induction p as [p IH | p IH |]; simpl; now rewrite ?IH. Qed.

Lemma Zdigits2_log2 (p : positive) : Zdigits2 (Zpos p) = Z.log2 (Zpos p) + 1.
Proof.
  unfold Zdigits2. rewrite digits2_pos_size.
  destruct p as [p | p |]; simpl; try reflexivity; lia.
Qed.

Lemma Zdigits2_bounds (p : positive) :
  2 ^ (Zdigits2 (Zpos p) - 1) <= Zpos p < 2 ^ Zdigits2 (Zpos p).
Proof.
  rewrite Zdigits2_log2.
  replace (Z.log2 (Zpos p) + 1 - 1) with (Z.log2 (Zpos p)) by lia.
  apply Z.log2_spec. lia.
Qed.

Lemma Zdigits2_pos (p : positive) : 1 <= Zdigits2 (Zpos p).
Proof. rewrite Zdigits2_log2. pose proof (Z.log2_nonneg (Zpos p)). lia. Qed.

Lemma shr_1_m (mrs : shr_record) :
  0 <= shr_m mrs -> shr_m (shr_1 mrs) = shr_m mrs / 2.
Proof.
  destruct mrs as [m r s]; simpl. intros Hm.
  rewrite <- Z.div2_div.
  destruct m as [| [p | p |] | p]; simpl; try reflexivity; lia.
Qed.

Lemma iter_shr_1_m (p : positive) :
  forall mrs, 0 <= shr_m mrs ->
              shr_m (iter_pos shr_1 p mrs) = shr_m mrs / 2 ^ Zpos p.
Proof.
  induction p as [p IH | p IH |]; intros mrs Hm; simpl iter_pos.
  - assert (H1 : 0 <= shr_m (shr_1 mrs)).
    { rewrite shr_1_m by assumption. apply Z.div_pos; lia. }
    assert (H2 : 0 <= shr_m (iter_pos shr_1 p (shr_1 mrs))).
    { rewrite IH by assumption. apply Z.div_pos; lia. }
    rewrite IH, IH, shr_1_m by assumption.
    rewrite !Z.div_div by lia. f_equal.
    replace (Zpos p~1) with (Zpos p + Zpos p + 1) by lia.
    rewrite !Z.pow_add_r, Z.pow_1_r by lia. ring.
  - assert (H2 : 0 <= shr_m (iter_pos shr_1 p mrs)).
    { rewrite IH by assumption. apply Z.div_pos; lia. }
    rewrite IH, IH by assumption.
    rewrite Z.div_div by lia. f_equal.
    replace (Zpos p~0) with (Zpos p + Zpos p) by lia.
    now rewrite Z.pow_add_r by lia.
  - now rewrite shr_1_m.
Qed.


Lemma shr_m_record_of_loc (m : Z) (l : location) :
  shr_m (shr_record_of_loc m l) = m.
Proof. destruct l as [| []]; reflexivity. Qed.

Lemma fexp_emin (e : Z) : emin64 <= fexp prec emax e.
Proof. unfold fexp, emin64. lia. Qed.

Lemma shr_fexp_pos (m : positive) (e : Z) (l : location) :
  emin64 - e <= Zdigits2 (Zpos m) - 1 ->
  exists m' : positive,
    shr_m (fst (shr_fexp prec emax (Zpos m) e l)) = Zpos m'
    /\ (emin64 <= snd (shr_fexp prec emax (Zpos m) e l)
        \/ shr_fexp prec emax (Zpos m) e l = (shr_record_of_loc (Zpos m) l, e)).
Proof.
  intros Hmag. unfold shr_fexp, shr.
  destruct (fexp prec emax (Zdigits2 (Zpos m) + e) - e) as [| p | p] eqn:En.
  - exists m. split; [apply shr_m_record_of_loc | now right].
  - cbn [fst snd].
    rewrite iter_shr_1_m by (rewrite shr_m_record_of_loc; lia).
    rewrite shr_m_record_of_loc.
    assert (Hp : Zpos p <= Zdigits2 (Zpos m) - 1).
    { rewrite <- En. unfold fexp. fold emin64. unfold prec. lia. }
    assert (H1 : 1 <= Zpos m / 2 ^ Zpos p).
    { apply Z.div_le_lower_bound; [apply Z.pow_pos_nonneg; lia |].
      rewrite Z.mul_1_r.
      apply Z.le_trans with (2 ^ (Zdigits2 (Zpos m) - 1)).
      - apply Z.pow_le_mono_r; lia.
      - apply Zdigits2_bounds. }
    exists (Z.to_pos (Zpos m / 2 ^ Zpos p)).
    split; [rewrite Z2Pos.id; lia |].
    left. rewrite <- En.
    replace (e + (fexp prec emax (Zdigits2 (Zpos m) + e) - e))
      with (fexp prec emax (Zdigits2 (Zpos m) + e)) by lia.
    apply fexp_emin.
  - exists m. split; [apply shr_m_record_of_loc | now right].
Qed.

Lemma round_nearest_even_pos (m : positive) (l : location) :
  exists m' : positive, round_nearest_even (Zpos m) l = Zpos m'.
Proof.
  destruct l as [| [| |]]; unfold round_nearest_even.
  - now exists m.
  - destruct (Z.even (Zpos m)); [now exists m | now exists (m + 1)%positive].
  - now exists m.
  - now exists (m + 1)%positive.
Qed.

(** Rounding a non-zero significand whose magnitude is above the smallest
    subnormal keeps the sign and never gives a zero or [nan]. *)
Lemma binary_round_aux_sign (sx : bool) (m : positive) (e : Z) :
  emin64 - e <= Zdigits2 (Zpos m) - 1 ->
  (exists m' e', binary_round_aux prec emax sx (Zpos m) e loc_Exact
                 = S754_finite sx m' e')
  \/ binary_round_aux prec emax sx (Zpos m) e loc_Exact = S754_infinity sx.
Proof.
  intros Hmag. unfold binary_round_aux.
  destruct (shr_fexp_pos m e loc_Exact Hmag) as (m1 & Hm1 & Hcase).
  destruct (shr_fexp prec emax (Zpos m) e loc_Exact) as [mrs1 e1] eqn:E1.
  cbn [fst snd] in Hm1, Hcase. rewrite Hm1.
  destruct (round_nearest_even_pos m1 (loc_of_shr_record mrs1)) as (m2 & Hm2).
  rewrite Hm2.
  assert (Hmag2 : emin64 - e1 <= Zdigits2 (Zpos m2) - 1).
  { destruct Hcase as [Hmin | Heq].
    - pose proof (Zdigits2_pos m2). lia.
    - injection Heq as Hr He. subst mrs1 e1. simpl in Hm1, Hm2.
      injection Hm1 as Hm1. injection Hm2 as Hm2. subst m1 m2. exact Hmag. }
  destruct (shr_fexp_pos m2 e1 loc_Exact Hmag2) as (m3 & Hm3 & _).
  destruct (shr_fexp prec emax (Zpos m2) e1 loc_Exact) as [mrs2 e2].
  cbn [fst] in Hm3. rewrite Hm3.
  destruct (Z.leb e2 (emax - prec)); [left; eauto | now right].
Qed.

Lemma binary_round_sign (sx : bool) (m : positive) (e : Z) :
  emin64 <= e ->
  (exists m' e', binary_round prec emax sx m e = S754_finite sx m' e')
  \/ binary_round prec emax sx m e = S754_infinity sx.
Proof.
  intros He. unfold binary_round, shl_align.
  destruct (fexp prec emax (Zpos (digits2_pos m) + e) - e) as [| d | d] eqn:Ed;
    apply binary_round_aux_sign.
  - pose proof (Zdigits2_pos m). lia.
  - pose proof (Zdigits2_pos m). lia.
  - pose proof (Zdigits2_pos (Pos.iter xO m d)).
    pose proof (fexp_emin (Zpos (digits2_pos m) + e)). lia.
Qed.


Lemma valid_exponent (s : bool) (m : positive) (e : Z) :
  valid_binary (S754_finite s m e) = true -> emin64 <= e.
Proof.
  unfold valid_binary, bounded, canonical_mantissa. intros H.
  apply andb_prop in H. destruct H as [H _]. apply Z.eqb_eq in H.
  rewrite <- H. apply fexp_emin.
Qed.

Lemma SFadd_finite_pos (mx my : positive) (ex ey : Z) :
  emin64 <= ex -> emin64 <= ey ->
  SF_pos (SFadd prec emax (S754_finite false mx ex) (S754_finite false my ey)) = true.
Proof.
  intros Hx Hy. unfold SFadd. cbn [cond_Zopp Z.add binary_normalize].
  destruct (binary_round_sign false
              (fst (shl_align mx ex (Z.min ex ey)) + fst (shl_align my ey (Z.min ex ey)))
              (Z.min ex ey)) as [(m' & e' & ->) | ->]; [lia | reflexivity | reflexivity].
Qed.

Lemma SF_pos_nonneg (x : spec_float) : SF_pos x = true -> SF_nonneg x = true.
Proof. destruct x as [s | [] | | [] m e]; simpl; congruence. Qed.

Lemma SFadd_nonneg (x y : spec_float) :
  valid_binary x = true -> valid_binary y = true ->
  SF_nonneg x = true -> SF_nonneg y = true ->
  SF_nonneg (SFadd prec emax x y) = true.
Proof.
  intros Vx Vy Hx Hy.
  destruct x as [sx | [] | | [] mx ex]; try discriminate;
    destruct y as [sy | [] | | [] my ey]; try discriminate; try reflexivity.
  - destruct sx, sy; reflexivity.
  - apply SF_pos_nonneg, SFadd_finite_pos; eapply valid_exponent; eassumption.
Qed.

Lemma SFadd_pos (x y : spec_float) :
  valid_binary x = true -> valid_binary y = true ->
  SF_nonneg x = true -> SF_pos y = true ->
  SF_pos (SFadd prec emax x y) = true.
Proof.
  intros Vx Vy Hx Hy.
  destruct x as [sx | [] | | [] mx ex]; try discriminate;
    destruct y as [sy | [] | | [] my ey]; try discriminate; try reflexivity.
  apply SFadd_finite_pos; eapply valid_exponent; eassumption.
Qed.

End Rounding64.

Section Float64.

Open Scope float_scope.

Lemma leb_zero (x : float) : (0 <=? x) = SF_nonneg (Prim2SF x).
Proof.
  rewrite leb_spec. change (Prim2SF 0) with (S754_zero false).
  unfold SFleb, SFcompare. now destruct (Prim2SF x) as [[] | [] | | [] m e].
Qed.

Lemma ltb_zero (x : float) : (0 <? x) = SF_pos (Prim2SF x).
Proof.
  rewrite ltb_spec. change (Prim2SF 0) with (S754_zero false).
  unfold SFltb, SFcompare. now destruct (Prim2SF x) as [[] | [] | | [] m e].
Qed.

Lemma positive_nonzero (x : float) : (0 <? x) = true -> (x =? 0) = false.
Proof.
  rewrite ltb_zero, eqb_spec. change (Prim2SF 0) with (S754_zero false).
  unfold SFeqb, SFcompare. now destruct (Prim2SF x) as [[] | [] | | [] m e].
Qed.

Lemma add_nonneg (x y : float) :
  (0 <=? x) = true -> (0 <=? y) = true -> (0 <=? x + y) = true.
Proof.
  rewrite !leb_zero, add_spec. apply SFadd_nonneg; apply Prim2SF_valid.
Qed.

Lemma add_pos (x y : float) :
  (0 <=? x) = true -> (0 <? y) = true -> (0 <? x + y) = true.
Proof.
  rewrite leb_zero, !ltb_zero, add_spec. apply SFadd_pos; apply Prim2SF_valid.
Qed.

End Float64.


(** ** Binary64 addition: exact cases and cancellation *)

Section Exactness.

Local Open Scope Z_scope.

Lemma iter_xO_mul (p d : positive) : Zpos (Pos.iter xO p d) = Zpos p * 2 ^ Zpos d.
Proof.
  induction d as [| d IH] using Pos.peano_ind.
  - simpl. lia.
  - rewrite Pos.iter_succ, Pos2Z.inj_xO, IH, Pos2Z.inj_succ, Z.pow_succ_r by lia.
    ring.
Qed.

Lemma digits_iter_xO (p d : positive) :
  Zdigits2 (Zpos (Pos.iter xO p d)) = Zdigits2 (Zpos p) + Zpos d.
Proof.
  rewrite !Zdigits2_log2, iter_xO_mul, Z.log2_mul_pow2 by lia. lia.
Qed.

Lemma shr_fexp_exponent (m e : Z) (l : location) :
  e <= snd (shr_fexp prec emax m e l).
Proof.
  unfold shr_fexp, shr.
  destruct (fexp prec emax (Zdigits2 m + e) - e); cbn [snd]; lia.
Qed.

(** The exponent of a rounded value is at least the exponent it was given
    with. *)
Lemma binary_round_aux_exponent (sx s' : bool) (m : Z) (e : Z) (l : location)
      (m' : positive) (e' : Z) :
  binary_round_aux prec emax sx m e l = S754_finite s' m' e' -> e <= e'.
Proof.
  unfold binary_round_aux.
  pose proof (shr_fexp_exponent m e l) as H1.
  destruct (shr_fexp prec emax m e l) as [mrs1 e1]. cbn [snd] in H1.
  pose proof (shr_fexp_exponent
                (round_nearest_even (shr_m mrs1) (loc_of_shr_record mrs1)) e1 loc_Exact)
    as H2.
  destruct (shr_fexp prec emax _ e1 loc_Exact) as [mrs2 e2]. cbn [snd] in H2.
  destruct (shr_m mrs2); try discriminate.
  destruct (Z.leb e2 (emax - prec)); [| discriminate].
  intros [= _ _ <-]. lia.
Qed.

Lemma shr_fexp_canonical (m : positive) (e : Z) :
  fexp prec emax (Zdigits2 (Zpos m) + e) = e ->
  shr_fexp prec emax (Zpos m) e loc_Exact
  = (Build_shr_record (Zpos m) false false, e).
Proof.
  intros H. unfold shr_fexp. rewrite H, Z.sub_diag. reflexivity.
Qed.

(** A significand that has to be shifted left to become canonical is
    rounded exactly. *)
Lemma binary_round_exact (sx : bool) (p d : positive) (e : Z) :
  fexp prec emax (Zdigits2 (Zpos p) + e) - e = Zneg d ->
  binary_round prec emax sx p e
  = if Z.leb (e - Zpos d) (emax - prec)
    then S754_finite sx (Pos.iter xO p d) (e - Zpos d)
    else S754_infinity sx.
Proof.
  intros Hd. unfold binary_round, shl_align.
  change (Zpos (digits2_pos p)) with (Zdigits2 (Zpos p)). rewrite Hd.
  assert (Hfe : fexp prec emax (Zdigits2 (Zpos p) + e) = e - Zpos d) by lia.
  rewrite Hfe.
  assert (Hcan : fexp prec emax (Zdigits2 (Zpos (Pos.iter xO p d)) + (e - Zpos d))
                 = e - Zpos d).
  { rewrite digits_iter_xO.
    replace (Zdigits2 (Zpos p) + Zpos d + (e - Zpos d)) with (Zdigits2 (Zpos p) + e)
      by lia.
    exact Hfe. }
  unfold binary_round_aux.
  rewrite (shr_fexp_canonical _ _ Hcan). cbn [shr_m loc_of_shr_record round_nearest_even].
  rewrite (shr_fexp_canonical _ _ Hcan). cbn [shr_m].
  reflexivity.
Qed.

End Exactness.

Section Cancellation.

Local Open Scope Z_scope.

Lemma shl_align_value (m : positive) (e e' : Z) :
  e' <= e -> Zpos (fst (shl_align m e e')) = Zpos m * 2 ^ (e - e').
Proof.
  intros H. unfold shl_align.
  destruct (e' - e) as [| d | d] eqn:Ed; cbn [fst].
  - replace (e - e') with 0 by lia. simpl. lia.
  - lia.
  - rewrite iter_xO_mul. f_equal. f_equal. lia.
Qed.

(** A sum of two valid finite values is a zero only when the two aligned
    significands cancel. *)
Lemma SFadd_finite_zero_inv (sx sy sz : bool) (mx my : positive) (ex ey : Z) :
  emin64 <= ex -> emin64 <= ey ->
  SFadd prec emax (S754_finite sx mx ex) (S754_finite sy my ey) = S754_zero sz ->
  cond_Zopp sx (Zpos mx * 2 ^ (ex - Z.min ex ey))
  + cond_Zopp sy (Zpos my * 2 ^ (ey - Z.min ex ey)) = 0.
Proof.
  intros Hx Hy. unfold SFadd. cbv zeta.
  rewrite <- (shl_align_value mx ex (Z.min ex ey)) by lia.
  rewrite <- (shl_align_value my ey (Z.min ex ey)) by lia.
  destruct (cond_Zopp sx (Zpos (fst (shl_align mx ex (Z.min ex ey))))
            + cond_Zopp sy (Zpos (fst (shl_align my ey (Z.min ex ey)))))
    as [| p | p]; unfold binary_normalize.
  - reflexivity.
  - destruct (binary_round_sign false p (Z.min ex ey)) as [(m' & e' & ->) | ->];
      [lia | discriminate | discriminate].
  - destruct (binary_round_sign true p (Z.min ex ey)) as [(m' & e' & ->) | ->];
      [lia | discriminate | discriminate].
Qed.

Lemma emin64_value : emin64 = -1074.
Proof. reflexivity. Qed.

Lemma epsilon_m_odd (t : Z) : Zpos epsilon_m <> 2 * t.
Proof. unfold epsilon_m. lia. Qed.

(** Only the value [-1e-6] itself cancels [1e-6]. *)
Lemma add_epsilon_zero_inv (y : spec_float) (sz : bool) :
  valid_binary y = true ->
  SFadd prec emax y SF_epsilon = S754_zero sz ->
  exists (my : positive) (ey : Z),
    y = S754_finite true my ey /\ ey <= epsilon_e
    /\ Zpos my = Zpos epsilon_m * 2 ^ (epsilon_e - ey).
Proof.
  intros V H. destruct y as [s | s | | sy my ey]; try discriminate.
  pose proof (valid_exponent _ _ _ V) as Hey.
  apply SFadd_finite_zero_inv in H;
    [| exact Hey | rewrite emin64_value; unfold epsilon_e; lia].
  destruct sy; cbn [cond_Zopp] in H.
  - exists my, ey.
    destruct (Z.le_gt_cases ey epsilon_e) as [Hle | Hgt].
    + rewrite Z.min_l in H by lia. rewrite Z.sub_diag, Z.pow_0_r in H.
      split; [reflexivity | split; [exact Hle | lia]].
    + exfalso. rewrite Z.min_r in H by lia.
      rewrite Z.sub_diag, Z.pow_0_r in H.
      replace (ey - epsilon_e) with (Z.succ (ey - epsilon_e - 1)) in H by lia.
      rewrite Z.pow_succ_r in H by lia.
      apply (epsilon_m_odd (Zpos my * 2 ^ (ey - epsilon_e - 1))). lia.
  - exfalso.
    assert (0 < Zpos my * 2 ^ (ey - Z.min ey epsilon_e))
      by (apply Z.mul_pos_pos; [lia | apply Z.pow_pos_nonneg; lia]).
    assert (0 < Zpos epsilon_m * 2 ^ (epsilon_e - Z.min ey epsilon_e))
      by (apply Z.mul_pos_pos; [lia | apply Z.pow_pos_nonneg; lia]).
    lia.
Qed.


Lemma valid_significand (s : bool) (m : positive) (e : Z) :
  valid_binary (S754_finite s m e) = true -> Zpos m < 2 ^ 53.
Proof.
  unfold SpecFloat.valid_binary, bounded, canonical_mantissa. intros H.
  apply andb_prop in H. destruct H as [H _]. apply Z.eqb_eq in H.
  change (Zpos (digits2_pos m)) with (Zdigits2 (Zpos m)) in H.
  assert (Hd : Zdigits2 (Zpos m) <= 53) by (unfold fexp, prec in H; lia).
  apply Z.lt_le_trans with (2 ^ Zdigits2 (Zpos m)).
  - apply Zdigits2_bounds.
  - apply Z.pow_le_mono_r; lia.
Qed.

Lemma binary_round_unshifted (sx : bool) (p : positive) (e : Z) :
  0 <= fexp prec emax (Zdigits2 (Zpos p) + e) - e ->
  binary_round prec emax sx p e = binary_round_aux prec emax sx (Zpos p) e loc_Exact.
Proof.
  intros H. unfold binary_round, shl_align.
  change (Zpos (digits2_pos p)) with (Zdigits2 (Zpos p)).
  destruct (fexp prec emax (Zdigits2 (Zpos p) + e) - e); [reflexivity | reflexivity | lia].
Qed.

(** Adding a normal value of exponent above [-72] never gives [-1e-6] (nor
    any other negative value made of its significand at an exponent of at
    most [-72]). *)
Lemma add_coarse_not_minus_epsilon (x : spec_float) (mc my : positive) (ec ey : Z) :
  valid_binary x = true ->
  2 ^ 52 <= Zpos mc -> epsilon_e < ec ->
  SFadd prec emax x (S754_finite false mc ec) = S754_finite true my ey ->
  ey <= epsilon_e ->
  Zpos my = Zpos epsilon_m * 2 ^ (epsilon_e - ey) ->
  False.
Proof.
  intros V Hmc Hec H Hey Hmy.
  destruct x as [s | s | | sx mx ex]; try discriminate.
  pose proof (valid_exponent _ _ _ V) as Hex.
  pose proof (valid_significand _ _ _ V) as Hmx.
  assert (Hmin : emin64 <= Z.min ex ec)
    by (rewrite emin64_value in *; unfold epsilon_e in *; lia).
  unfold SFadd in H. cbv zeta in H. cbn [cond_Zopp] in H.
  destruct (cond_Zopp sx (Zpos (fst (shl_align mx ex (Z.min ex ec))))
            + Zpos (fst (shl_align mc ec (Z.min ex ec)))) as [| p | p] eqn:Es;
    unfold binary_normalize in H.
  - discriminate.
  - destruct (binary_round_sign false p (Z.min ex ec) Hmin) as [(m' & e' & R) | R];
      rewrite R in H; discriminate.
  - rewrite !shl_align_value in Es by lia.
    assert (P1 : 0 < Zpos mx * 2 ^ (ex - Z.min ex ec))
      by (apply Z.mul_pos_pos; [lia | apply Z.pow_pos_nonneg; lia]).
    assert (P2 : 0 < Zpos mc * 2 ^ (ec - Z.min ex ec))
      by (apply Z.mul_pos_pos; [lia | apply Z.pow_pos_nonneg; lia]).
    destruct sx; cbn [cond_Zopp] in Es; [| lia].
    destruct (Z.lt_ge_cases ex ec) as [Hlt | Hge].
    + (* the other value is below the unit in the last place of [mc * 2^ec] *)
      rewrite Z.min_l in Es by lia.
      rewrite Z.sub_diag, Z.pow_0_r, Z.mul_1_r in Es.
      assert (2 ^ 1 <= 2 ^ (ec - ex)) by (apply Z.pow_le_mono_r; lia).
      assert (2 ^ 52 * 2 ^ 1 <= Zpos mc * 2 ^ (ec - ex))
        by (apply Z.mul_le_mono_nonneg; lia).
      change (2 ^ 52 * 2 ^ 1) with (2 ^ 53) in *. lia.
    + rewrite Z.min_r in H by lia.
      destruct (fexp prec emax (Zdigits2 (Zpos p) + ec) - ec) as [| d | d] eqn:Ed.
      * rewrite binary_round_unshifted in H by lia.
        apply binary_round_aux_exponent in H. lia.
      * rewrite binary_round_unshifted in H by lia.
        apply binary_round_aux_exponent in H. lia.
      * rewrite (binary_round_exact _ _ _ _ Ed) in H.
        destruct (Z.leb (ec - Zpos d) (emax - prec)); [| discriminate].
        injection H as Hm He. subst my ey.
        rewrite iter_xO_mul in Hmy.
        replace (Zpos d) with ((ec - epsilon_e - 1) + 1 + (epsilon_e - (ec - Zpos d)))
          in Hmy at 1 by lia.
        rewrite !Z.pow_add_r, Z.pow_1_r in Hmy by lia.
        set (K := 2 ^ (epsilon_e - (ec - Zpos d))) in *.
        assert (HK : 0 < K) by (apply Z.pow_pos_nonneg; lia).
        apply (epsilon_m_odd (Zpos p * 2 ^ (ec - epsilon_e - 1))).
        apply (Z.mul_reg_r _ _ K); [lia |]. rewrite <- Hmy. ring.
Qed.

End Cancellation.

Section Float64Cancellation.

Open Scope float_scope.

Lemma eqb_zero_inv (z : float) :
  (z =? 0) = true -> exists s, Prim2SF z = S754_zero s.
Proof.
  rewrite eqb_spec. change (Prim2SF 0) with (S754_zero false).
  unfold SFeqb, SFcompare.
  destruct (Prim2SF z) as [s | [] | | [] m e]; try discriminate. eauto.
Qed.

(** After a normal constant of exponent above [-72] (such as 1 or 0.5) has
    been added, adding [1e-6] never gives a zero. *)
Lemma coarse_plus_epsilon_nonzero (s c : float) (mc : positive) (ec : Z) :
  Prim2SF c = S754_finite false mc ec ->
  (2 ^ 52 <= Zpos mc)%Z -> (epsilon_e < ec)%Z ->
  (s + c + FeatureExtraction.epsilon =? 0) = false.
Proof.
  intros Hc Hmc Hec.
  destruct (s + c + FeatureExtraction.epsilon =? 0) eqn:E; [exfalso | reflexivity].
  apply eqb_zero_inv in E. destruct E as [sz Hz].
  rewrite add_spec in Hz. change (Prim2SF FeatureExtraction.epsilon) with SF_epsilon in Hz.
  apply add_epsilon_zero_inv in Hz; [| apply Prim2SF_valid].
  destruct Hz as (my & ey & Hy & Hle & Hm).
  rewrite add_spec, Hc in Hy.
  exact (add_coarse_not_minus_epsilon _ _ _ _ _ (Prim2SF_valid s) Hmc Hec Hy Hle Hm).
Qed.

Lemma plus_one_plus_epsilon_nonzero (s : float) :
  (s + 1 + FeatureExtraction.epsilon =? 0) = false.
Proof.
  apply (coarse_plus_epsilon_nonzero s 1 4503599627370496 (-52));
    [reflexivity | discriminate | reflexivity].
Qed.

Lemma plus_half_plus_epsilon_nonzero (s : float) :
  (s + 0.5 + FeatureExtraction.epsilon =? 0) = false.
Proof.
  apply (coarse_plus_epsilon_nonzero s 0.5 4503599627370496 (-53));
    [reflexivity | discriminate | reflexivity].
Qed.

End Float64Cancellation.


(** ** C4: the stabilised denominators *)

Section StabilisedDenominators.

Import FeatureExtraction.Cell.
Open Scope float_scope.

Lemma epsilon_positive : (0 <? FeatureExtraction.epsilon) = true.
Proof. reflexivity. Qed.

(** A non-negative sum plus [epsilon] is above zero. *)
Lemma stabilised_positive (sum : float) :
  nonnegative sum -> strictly_positive (sum + FeatureExtraction.epsilon).
Proof.
  intros H.
  assert (P : (0 <? sum + FeatureExtraction.epsilon) = true)
    by (apply add_pos; [exact H | exact epsilon_positive]).
  split; [exact P | now apply positive_nonzero].
Qed.

Lemma nonnegative_add (x y : float) :
  nonnegative x -> nonnegative y -> nonnegative (x + y).
Proof. apply add_nonneg. Qed.

End StabilisedDenominators.

(** C4, as the code has it.  For band values that are not negative (and a
    soil factor [L] that is not negative) the denominators of the stabilised
    NDVI, NDWI, NDBI, SAVI and BSI, computed in binary64, are above zero:
    none of their cells arises from a division by zero.  The denominators of
    EVI, and of SAVI with its default [L = 0.5], are not zero for any band
    values at all: once 1 (or 0.5) has been added, the sum lies on a grid too
    coarse to hold [-1e-6]. *)
Theorem stabilised_denominators_nonzero (nir red green blue swir L : float) :
  nonnegative nir -> nonnegative red -> nonnegative green ->
  nonnegative blue -> nonnegative swir -> nonnegative L ->
  strictly_positive (FeatureExtraction.Cell.ndvi_denominator nir red)
  /\ strictly_positive (FeatureExtraction.Cell.ndwi_denominator green nir)
  /\ strictly_positive (FeatureExtraction.Cell.ndbi_denominator swir nir)
  /\ strictly_positive (FeatureExtraction.Cell.savi_denominator nir red L)
  /\ strictly_positive (FeatureExtraction.Cell.bsi_denominator swir nir red blue)
  /\ (forall n r b : float,
        (FeatureExtraction.Cell.evi_denominator n r b =? 0)%float = false)
  /\ (forall n r : float,
        (FeatureExtraction.Cell.savi_denominator
           n r FeatureExtraction.Cell.default_L =? 0)%float = false).
Proof.
  intros Hnir Hred Hgreen Hblue Hswir HL.
  repeat split;
    try (apply stabilised_positive; repeat apply nonnegative_add; assumption).
  - intros n r b. apply plus_one_plus_epsilon_nonzero.
  - intros n r. apply plus_half_plus_epsilon_nonzero.
Qed.

Lemma stabilised_denominators_nonzero_witness :
  strictly_positive (FeatureExtraction.Cell.ndvi_denominator 0 0)
  /\ strictly_positive (FeatureExtraction.Cell.bsi_denominator 0.3 0.4 0.2 0.1).
Proof.
  split.
  - apply (stabilised_denominators_nonzero 0 0 0 0 0 0.5); reflexivity.
  - apply (stabilised_denominators_nonzero 0.4 0.2 0.5 0.1 0.3 0.5); reflexivity.
Defined.

(** The EVI denominator is never zero, yet it is not bounded away from zero
    either: non-negative bands bring it within [1e-16] of zero. *)
Example evi_denominator_tiny :
  FeatureExtraction.Cell.evi_denominator 0 0 0.13333346666666665
  = 8.226659269441623e-17%float.
Proof. reflexivity. Qed.

(** C4 as stated fails.  With a near-infrared value of [-1e-6] and a red
    value of 0 the stabilised NDVI divides by a denominator that is exactly
    zero and returns minus infinity; the same band sum cancels the constant
    in the NDWI, NDBI and BSI denominators, and a soil factor of [-1e-6] does
    so for SAVI. *)
Lemma stabilised_denominator_can_vanish :
  (FeatureExtraction.Cell.ndvi_denominator (-1e-6) 0 =? 0)%float = true
  /\ FeatureExtraction.Cell.calculate_ndvi (-1e-6) 0 = neg_infinity
  /\ (FeatureExtraction.Cell.ndwi_denominator (-1e-6) 0 =? 0)%float = true
  /\ (FeatureExtraction.Cell.ndbi_denominator (-1e-6) 0 =? 0)%float = true
  /\ (FeatureExtraction.Cell.savi_denominator 0 0 (-1e-6) =? 0)%float = true
  /\ (FeatureExtraction.Cell.bsi_denominator (-1e-6) 0 0 0 =? 0)%float = true
  /\ FeatureExtraction.Cell.calculate_bsi (-1e-6) 0 0 0 = neg_infinity.
Proof. repeat split. Qed.

(** * Further properties *)

(** ** More binary64 facts *)

Section MoreFloatFacts.

Open Scope float_scope.

Lemma shl_align_same (m : positive) (e : Z) : shl_align m e e = (m, e).
Proof. unfold shl_align. now rewrite Z.sub_diag. Qed.

Lemma SFsub_diag (s : bool) (m : positive) (e : Z) :
  SFsub prec emax (S754_finite s m e) (S754_finite s m e) = S754_zero false.
Proof.
  unfold SFsub. cbv zeta. rewrite Z.min_id, shl_align_same. cbn [fst].
  destruct s; cbn [cond_Zopp negb]; rewrite ?Z.add_opp_diag_r, ?Z.sub_diag.
  all: try reflexivity.
Qed.

(** A value minus itself is [+0], or [nan] when the value is infinite or
    [nan]. *)
Lemma sub_diag (x : float) : x - x = 0 \/ x - x = nan.
Proof.
  destruct (Prim2SF x) as [s | s | | s m e] eqn:E.
  - left. apply Prim2SF_inj. rewrite sub_spec, E. now destruct s.
  - right. apply Prim2SF_inj. rewrite sub_spec, E. now destruct s.
  - right. apply Prim2SF_inj. rewrite sub_spec, E. reflexivity.
  - left. apply Prim2SF_inj. rewrite sub_spec, E. apply SFsub_diag.
Qed.

Lemma div_nan_r (x : float) : x / nan = nan.
Proof.
  apply Prim2SF_inj. rewrite div_spec, Prim2SF_nan.
  unfold SF64div, SFdiv. now destruct (Prim2SF x).
Qed.

End MoreFloatFacts.

(** ** Strict-masking indices, cell by cell *)

Section StrictIndices.

Import ChangeDetection.
Open Scope float_scope.

(** One cell of a strict-masking index of the bands [a] and [b]. *)
Lemma zip_with_strict (xs ys : list float) :
  zip_with PrimFloat.div (zip_with PrimFloat.sub xs ys)
           (List.map (fun d => if d =? 0 then nan else d) (zip_with PrimFloat.add xs ys))
  = zip_with (fun x y => (x - y) / (if x + y =? 0 then nan else x + y)) xs ys.
Proof.
  unfold zip_with. revert ys.
  induction xs as [| x xs IH]; intros [| y ys]; simpl; try reflexivity.
  now rewrite IH.
Qed.

Lemma strict_index_cells (a b : ndarray float) :
  shape a = shape b ->
  (denominator <- fadd a b ;;
   let denominator := mask_zero denominator in
   difference <- fsub a b ;;
   fdiv difference denominator)
  = Ok (mk_ndarray (nrows a) (ncols a)
          (zip_with (fun x y => (x - y) / (if x + y =? 0 then nan else x + y))
                    (flat a) (flat b))).
Proof.
  intros E. unfold fadd, fsub, fdiv.
  rewrite !(binop_same_shape _ a b) by exact E. cbn [bind].
  unfold mask_zero, putmask, Np.map. cbn [nrows ncols flat].
  rewrite binop_same_shape by reflexivity. cbn [nrows ncols flat].
  now rewrite zip_with_strict.
Qed.

End StrictIndices.

(** The three strict-masking indices of an image whose first four bands
    have one shape. *)
Lemma strict_indices_cells
      (blue green red nir : ndarray float) (rest : image) (s : nat * nat) :
  Forall (fun b => shape b = s) [blue; green; red; nir] ->
  let index := fun x y : float => ((x - y) / (if x + y =? 0 then nan else x + y))%float in
  let img := blue :: green :: red :: nir :: rest in
  ChangeDetection.calculate_ndvi img
    = Ok (mk_ndarray (fst s) (snd s) (zip_with index (flat nir) (flat red)))
  /\ ChangeDetection.calculate_ndwi img
     = Ok (mk_ndarray (fst s) (snd s) (zip_with index (flat green) (flat nir)))
  /\ ChangeDetection.calculate_ndbi img
     = Ok (mk_ndarray (fst s) (snd s) (zip_with index (flat blue) (flat nir))).
Proof.
  intros Hs index img.
  apply Forall_cons_iff in Hs. destruct Hs as [Hb Hs].
  apply Forall_cons_iff in Hs. destruct Hs as [Hg Hs].
  apply Forall_cons_iff in Hs. destruct Hs as [Hr Hs].
  apply Forall_cons_iff in Hs. destruct Hs as [Hn _].
  unfold ChangeDetection.calculate_ndvi, ChangeDetection.calculate_ndwi,
    ChangeDetection.calculate_ndbi, img. cbn [getitem nth_error bind].
  rewrite !strict_index_cells by congruence.
  assert (Ev : forall a : ndarray float, shape a = s ->
                 forall cells : list float,
                   mk_ndarray (nrows a) (ncols a) cells
                   = mk_ndarray (fst s) (snd s) cells).
  { intros a <- cells. reflexivity. }
  rewrite (Ev nir Hn), (Ev green Hg), (Ev blue Hb).
  repeat split.
Qed.

Lemma zip_with_diag {A B : Type} (f : A -> A -> B) (xs : list A) :
  zip_with f xs xs = List.map (fun x => f x x) xs.
Proof.
  unfold zip_with. induction xs as [| x xs IH]; simpl; [reflexivity |].
  now rewrite IH.
Qed.

(** An index grid minus itself: every cell is [+0] or [nan]. *)
Lemma fsub_diag (h w : nat) (cells : list float) :
  exists out,
    fsub (mk_ndarray h w cells) (mk_ndarray h w cells) = Ok (mk_ndarray h w out)
    /\ Forall (fun x => x = 0%float \/ x = nan) out.
Proof.
  unfold fsub. rewrite binop_same_shape by reflexivity. cbn [nrows ncols flat].
  eexists. split; [reflexivity |].
  rewrite zip_with_diag. apply Forall_forall. intros x Hx.
  apply in_map_iff in Hx. destruct Hx as (y & <- & _). apply sub_diag.
Qed.

Section Thresholds.

Open Scope float_scope.

(** Above a threshold that is not negative lies no value that is below the
    opposite threshold. *)
Lemma above_threshold_not_below (t c : float) :
  (0 <=? t) = true -> (t <? c) = true -> (c <? - t) = false.
Proof.
  rewrite leb_zero, !ltb_spec, opp_spec. unfold SFltb, SFcompare, SFopp.
  destruct (Prim2SF t) as [st | [] | | [] mt et]; try discriminate;
    destruct (Prim2SF c) as [sc | [] | | [] mc ec]; try discriminate;
    try reflexivity.
  all: try (destruct st; discriminate).
Qed.

(** Neither [+0] nor [nan] is beyond a threshold that is not negative. *)
Lemma zero_within_threshold (t : float) :
  (0 <=? t) = true -> (t <? 0) = false /\ (0 <? - t) = false.
Proof.
  rewrite leb_zero, !ltb_spec, opp_spec. change (Prim2SF 0) with (S754_zero false).
  unfold SFltb, SFcompare, SFopp.
  destruct (Prim2SF t) as [st | [] | | [] mt et]; try discriminate; now split.
Qed.

End Thresholds.

Lemma filter_disjoint_length {A : Type} (p q : A -> bool) (xs : list A) :
  (forall x, p x = true -> q x = false) ->
  (length (filter p xs) + length (filter q xs) <= length xs)%nat.
Proof.
  intros H. induction xs as [| x xs IH]; simpl; [lia |].
  destruct (p x) eqn:P.
  - rewrite (H x P). simpl. lia.
  - destruct (q x); simpl; lia.
Qed.

Lemma filter_none {A : Type} (P : A -> Prop) (p : A -> bool) (xs : list A) :
  Forall P xs -> (forall x, P x -> p x = false) -> filter p xs = [].
Proof.
  intros HP H. apply filter_all_false. eapply Forall_impl; [| exact HP]. exact H.
Qed.

(** ** Further properties of [src/change_detection.py] *)

(** X1.  The strict-masking indices read band 3 (near-infrared): on an image
    with fewer than four bands each of the three raises [IndexError], and so
    does [detect_changes], whichever of its two images is the short one. *)
Theorem strict_indices_need_four_bands (img other : image) (s : nat * nat) :
  (length img < 4)%nat ->
  ChangeDetection.calculate_ndvi img = Raise IndexError
  /\ ChangeDetection.calculate_ndwi img = Raise IndexError
  /\ ChangeDetection.calculate_ndbi img = Raise IndexError
  /\ ChangeDetection.detect_changes img other = Raise IndexError
  /\ (Forall (fun b => shape b = s) other -> (4 <= length other)%nat ->
      ChangeDetection.detect_changes other img = Raise IndexError).
Proof.
  intros Hn.
  assert (H3 : getitem img 3 = Raise IndexError).
  { unfold getitem. destruct (nth_error img 3) eqn:E; [| reflexivity].
    assert (nth_error img 3 <> None) by congruence.
    apply nth_error_Some in H. lia. }
  assert (Hvi : ChangeDetection.calculate_ndvi img = Raise IndexError).
  { unfold ChangeDetection.calculate_ndvi. now rewrite H3. }
  split; [exact Hvi |]. split; [| split; [| split]].
  - unfold ChangeDetection.calculate_ndwi. rewrite H3.
    unfold getitem at 1. now destruct (nth_error img 1).
  - unfold ChangeDetection.calculate_ndbi. rewrite H3.
    unfold getitem at 1. now destruct (nth_error img 0).
  - unfold ChangeDetection.detect_changes. now rewrite Hvi.
  - intros Hs Ho.
    destruct (calculate_ndvi_shape _ _ Hs Ho) as (v & Ev & _).
    unfold ChangeDetection.detect_changes. now rewrite Ev, Hvi.
Qed.

Lemma strict_indices_need_four_bands_witness :
  (length (Scenario.flat_image 2 2 1) = 4)%nat
  /\ ChangeDetection.calculate_ndvi (firstn 3 (Scenario.flat_image 2 2 1)) = Raise IndexError
  /\ ChangeDetection.detect_changes (Scenario.flat_image 2 2 1)
                                    (firstn 3 (Scenario.flat_image 2 2 1))
     = Raise IndexError.
Proof.
  split; [reflexivity |].
  assert (Hn : (length (firstn 3 (Scenario.flat_image 2 2 1)) < 4)%nat)
    by (simpl; lia).
  destruct (strict_indices_need_four_bands
              (firstn 3 (Scenario.flat_image 2 2 1)) (Scenario.flat_image 2 2 1)
              (2, 2)%nat Hn) as (Hvi & _ & _ & _ & Hsecond).
  split; [exact Hvi |].
  apply Hsecond; [repeat constructor | simpl; lia].
Defined.


(** X2.  On an image whose first four bands have one shape the three
    strict-masking indices raise nothing and work cell by cell: NDVI from
    bands 3 and 2, NDWI from bands 1 and 3, NDBI from bands 0 and 3, each as
    [(x - y) / (x + y)] with the denominator replaced by [nan] where it is
    zero.  A cell whose two band values sum to zero is therefore [nan]. *)
Theorem strict_indices_cell_by_cell
        (blue green red nir : ndarray float) (rest : image) (s : nat * nat) :
  Forall (fun b => shape b = s) [blue; green; red; nir] ->
  let index := fun x y : float => ((x - y) / (if x + y =? 0 then nan else x + y))%float in
  let img := blue :: green :: red :: nir :: rest in
  ChangeDetection.calculate_ndvi img
    = Ok (mk_ndarray (fst s) (snd s) (zip_with index (flat nir) (flat red)))
  /\ ChangeDetection.calculate_ndwi img
     = Ok (mk_ndarray (fst s) (snd s) (zip_with index (flat green) (flat nir)))
  /\ ChangeDetection.calculate_ndbi img
     = Ok (mk_ndarray (fst s) (snd s) (zip_with index (flat blue) (flat nir)))
  /\ forall x y : float, (x + y =? 0)%float = true -> index x y = nan.
Proof.
  intros Hs index img.
  destruct (strict_indices_cells blue green red nir rest s Hs) as (Hvi & Hwi & Hbi).
  repeat split; try assumption.
  intros x y E. unfold index. rewrite E. apply div_nan_r.
Qed.

Lemma strict_indices_cell_by_cell_witness :
  ChangeDetection.calculate_ndvi
    [mk_ndarray 1 2 [1; 2]; mk_ndarray 1 2 [3; 4]; mk_ndarray 1 2 [2; 5];
     mk_ndarray 1 2 [10; -5]]%float
  = Ok (mk_ndarray 1 2 [((10 - 2) / (10 + 2))%float; nan]).
Proof.
  refine (proj1 (strict_indices_cell_by_cell
                   (mk_ndarray 1 2 [1; 2]%float) (mk_ndarray 1 2 [3; 4]%float)
                   (mk_ndarray 1 2 [2; 5]%float) (mk_ndarray 1 2 [10; -5]%float)
                   [] (1, 2)%nat _)).
  repeat constructor.
Defined.

(** X3.  Comparing an image with itself, [detect_changes] returns for each
    index the same grid twice and a change grid of the bands' shape whose
    cells are all [+0] or [nan] ([nan] where the index itself is [nan] or
    infinite): no cell reports a change. *)
Theorem unchanged_image_shows_no_change
        (blue green red nir : ndarray float) (rest : image) (s : nat * nat) :
  Forall (fun b => shape b = s) [blue; green; red; nir] ->
  let img := blue :: green :: red :: nir :: rest in
  exists c : ChangeDetection.changes,
    ChangeDetection.detect_changes img img = Ok c
    /\ Forall (fun ic =>
                 ChangeDetection.before ic = ChangeDetection.after ic
                 /\ shape (ChangeDetection.change ic) = s
                 /\ Forall (fun x => x = 0%float \/ x = nan)
                           (flat (ChangeDetection.change ic)))
              [ChangeDetection.ndvi c; ChangeDetection.ndwi c; ChangeDetection.ndbi c].
Proof.
  intros Hs img.
  destruct (strict_indices_cells blue green red nir rest s Hs) as (Hvi & Hwi & Hbi).
  fold img in Hvi, Hwi, Hbi.
  unfold ChangeDetection.detect_changes. rewrite Hvi, Hwi, Hbi. cbn [bind].
  destruct (fsub_diag (fst s) (snd s)
              (zip_with (fun x y => ((x - y) / (if x + y =? 0 then nan else x + y))%float)
                        (flat nir) (flat red))) as (o1 & -> & H1).
  destruct (fsub_diag (fst s) (snd s)
              (zip_with (fun x y => ((x - y) / (if x + y =? 0 then nan else x + y))%float)
                        (flat green) (flat nir))) as (o2 & -> & H2).
  destruct (fsub_diag (fst s) (snd s)
              (zip_with (fun x y => ((x - y) / (if x + y =? 0 then nan else x + y))%float)
                        (flat blue) (flat nir))) as (o3 & -> & H3).
  cbn [bind]. eexists. split; [reflexivity |].
  cbn [ChangeDetection.ndvi ChangeDetection.ndwi ChangeDetection.ndbi].
  repeat constructor; cbn; try assumption; now destruct s.
Qed.

Lemma unchanged_image_shows_no_change_witness :
  exists c : ChangeDetection.changes,
    ChangeDetection.detect_changes (Scenario.flat_image 2 2 1) (Scenario.flat_image 2 2 1)
    = Ok c
    /\ Forall (fun x => x = 0%float \/ x = nan)
              (flat (ChangeDetection.change (ChangeDetection.ndvi c))).
Proof.
  destruct (unchanged_image_shows_no_change
              (mk_ndarray 2 2 (repeat (1 + 0)%float 4)) (mk_ndarray 2 2 (repeat (1 + 1)%float 4))
              (mk_ndarray 2 2 (repeat (1 + 2)%float 4)) (mk_ndarray 2 2 (repeat (1 + 3)%float 4))
              [] (2, 2)%nat) as (c & Hc & Hall).
  - repeat constructor.
  - exists c. split; [exact Hc |].
    apply Forall_cons_iff in Hall. exact (proj2 (proj2 (proj1 Hall))).
Defined.

(** X4.  [main] feeds each change grid to [calculate_area_stats].  For an
    image compared with itself and any threshold that is not negative, both
    areas of every index are [0 * pixel area]: no pixel is counted as
    increase or as decrease. *)
Theorem unchanged_image_has_no_changed_area
        (blue green red nir : ndarray float) (rest : image) (s : nat * nat)
        (pixel_size_x pixel_size_y threshold : float) :
  Forall (fun b => shape b = s) [blue; green; red; nir] ->
  (0 <=? threshold)%float = true ->
  let img := blue :: green :: red :: nir :: rest in
  exists c : ChangeDetection.changes,
    ChangeDetection.detect_changes img img = Ok c
    /\ Forall (fun ic =>
                 ChangeDetection.calculate_area_stats
                   (ChangeDetection.change ic) pixel_size_x pixel_size_y threshold
                 = ((0 * ((pixel_size_x * pixel_size_y) / 1e6))%float,
                    (0 * ((pixel_size_x * pixel_size_y) / 1e6))%float))
              [ChangeDetection.ndvi c; ChangeDetection.ndwi c; ChangeDetection.ndbi c].
Proof.
  intros Hs Ht img.
  destruct (strict_indices_cells blue green red nir rest s Hs) as (Hvi & Hwi & Hbi).
  fold img in Hvi, Hwi, Hbi.
  destruct (zero_within_threshold threshold Ht) as [Hpos Hneg].
  assert (G : forall h w cells,
             Forall (fun x => x = 0%float \/ x = nan) cells ->
             ChangeDetection.calculate_area_stats
               (mk_ndarray h w cells) pixel_size_x pixel_size_y threshold
             = ((0 * ((pixel_size_x * pixel_size_y) / 1e6))%float,
                (0 * ((pixel_size_x * pixel_size_y) / 1e6))%float)).
  { intros h w cells Hc. unfold ChangeDetection.calculate_area_stats.
    rewrite !nansum_bool_map. unfold cells_where. cbn [flat].
    rewrite (filter_none _ (fun c => (threshold <? c)%float) cells Hc).
    - rewrite (filter_none _ (fun c => (c <? - threshold)%float) cells Hc).
      + reflexivity.
      + intros x [-> | ->]; [exact Hneg | apply ltb_nan_l].
    - intros x [-> | ->]; [exact Hpos | apply ltb_nan_r]. }
  unfold ChangeDetection.detect_changes. rewrite Hvi, Hwi, Hbi. cbn [bind].
  destruct (fsub_diag (fst s) (snd s)
              (zip_with (fun x y => ((x - y) / (if x + y =? 0 then nan else x + y))%float)
                        (flat nir) (flat red))) as (o1 & -> & H1).
  destruct (fsub_diag (fst s) (snd s)
              (zip_with (fun x y => ((x - y) / (if x + y =? 0 then nan else x + y))%float)
                        (flat green) (flat nir))) as (o2 & -> & H2).
  destruct (fsub_diag (fst s) (snd s)
              (zip_with (fun x y => ((x - y) / (if x + y =? 0 then nan else x + y))%float)
                        (flat blue) (flat nir))) as (o3 & -> & H3).
  cbn [bind]. eexists. split; [reflexivity |].
  cbn [ChangeDetection.ndvi ChangeDetection.ndwi ChangeDetection.ndbi
       ChangeDetection.change].
  repeat constructor; now apply G.
Qed.

Lemma unchanged_image_has_no_changed_area_witness :
  (0 <=? ChangeDetection.default_threshold)%float = true
  /\ exists c : ChangeDetection.changes,
       ChangeDetection.detect_changes (Scenario.flat_image 2 2 1) (Scenario.flat_image 2 2 1)
       = Ok c
       /\ ChangeDetection.calculate_area_stats
            (ChangeDetection.change (ChangeDetection.ndvi c)) 10 10
            ChangeDetection.default_threshold
          = (0, 0)%float.
Proof.
  split; [reflexivity |].
  destruct (unchanged_image_has_no_changed_area
              (mk_ndarray 2 2 (repeat (1 + 0)%float 4)) (mk_ndarray 2 2 (repeat (1 + 1)%float 4))
              (mk_ndarray 2 2 (repeat (1 + 2)%float 4)) (mk_ndarray 2 2 (repeat (1 + 3)%float 4))
              [] (2, 2)%nat 10%float 10%float ChangeDetection.default_threshold)
    as (c & Hc & Hall).
  - repeat constructor.
  - reflexivity.
  - exists c. split; [exact Hc |].
    apply Forall_cons_iff in Hall. exact (proj1 Hall).
Defined.

(** X5.  With a threshold that is not negative no cell lies both above
    [threshold] and below [-threshold]: the two counts behind the areas are
    not negative and together do not exceed the number of cells. *)
Theorem area_stats_count_each_cell_once
        (change : ndarray float) (pixel_size_x pixel_size_y threshold : float) :
  (0 <=? threshold)%float = true ->
  exists increased decreased : Z,
    ChangeDetection.calculate_area_stats change pixel_size_x pixel_size_y threshold
    = ((float_of_Z increased * ((pixel_size_x * pixel_size_y) / 1e6))%float,
       (float_of_Z decreased * ((pixel_size_x * pixel_size_y) / 1e6))%float)
    /\ (0 <= increased)%Z /\ (0 <= decreased)%Z
    /\ (increased + decreased <= Z.of_nat (length (flat change)))%Z
    /\ forall c : float, ((threshold <? c) && (c <? - threshold))%float = false.
Proof.
  intros Ht.
  exists (cells_where (fun c => (threshold <? c)%float) change),
         (cells_where (fun c => (c <? - threshold)%float) change).
  split; [| split; [| split; [| split]]].
  - unfold ChangeDetection.calculate_area_stats. now rewrite !nansum_bool_map.
  - unfold cells_where. lia.
  - unfold cells_where. lia.
  - unfold cells_where.
    pose proof (filter_disjoint_length (fun c => (threshold <? c)%float)
                  (fun c => (c <? - threshold)%float) (flat change)
                  (fun x => above_threshold_not_below threshold x Ht)).
    lia.
  - intros c. destruct (threshold <? c)%float eqn:E; [| reflexivity].
    now rewrite (above_threshold_not_below _ _ Ht E).
Qed.

Lemma area_stats_count_each_cell_once_witness :
  exists increased decreased : Z,
    ChangeDetection.calculate_area_stats
      (mk_ndarray 2 2 [0.5; -0.3; nan; 0.1]%float) 10 10 ChangeDetection.default_threshold
    = ((float_of_Z increased * ((10 * 10) / 1e6))%float,
       (float_of_Z decreased * ((10 * 10) / 1e6))%float)
    /\ (increased + decreased <= 4)%Z.
Proof.
  destruct (area_stats_count_each_cell_once
              (mk_ndarray 2 2 [0.5; -0.3; nan; 0.1]%float) 10 10
              ChangeDetection.default_threshold eq_refl)
    as (i & d & Hstats & _ & _ & Hsum & _).
  exists i, d. split; [exact Hstats | exact Hsum].
Defined.

(** With a negative threshold the two masks overlap: a cell without any
    change is counted as increase and as decrease. *)
Example negative_threshold_counts_twice :
  ChangeDetection.calculate_area_stats (mk_ndarray 1 1 [0]%float) 1000 1000 (-0.1)
  = (1, 1)%float.
Proof. reflexivity. Qed.

(** ** Further properties of [src/feature_extraction.py] *)

Section FeatureStack.

Import FeatureExtraction.

Lemma binop_shape {A B C : Type} (f : A -> B -> C) (a : ndarray A) (b : ndarray B)
      (s : nat * nat) :
  shape a = s -> shape b = s ->
  exists out, binop f a b = Ok out /\ shape out = s.
Proof.
  intros Ha Hb. rewrite binop_same_shape by congruence.
  eexists. split; [reflexivity | exact Ha].
Qed.

Lemma ternop_shape {A B C D : Type} (f : A -> B -> C -> D)
      (a : ndarray A) (b : ndarray B) (c : ndarray C) (s : nat * nat) :
  shape a = s -> shape b = s -> shape c = s ->
  exists out, ternop f a b c = Ok out /\ shape out = s.
Proof.
  intros Ha Hb Hc. unfold ternop.
  destruct (binop_shape pair a b s Ha Hb) as (ab & -> & Hab). cbn [bind].
  now apply binop_shape.
Qed.

Lemma quadop_shape {A B C D E : Type} (f : A -> B -> C -> D -> E)
      (a : ndarray A) (b : ndarray B) (c : ndarray C) (d : ndarray D) (s : nat * nat) :
  shape a = s -> shape b = s -> shape c = s -> shape d = s ->
  exists out, quadop f a b c d = Ok out /\ shape out = s.
Proof.
  intros Ha Hb Hc Hd. unfold quadop.
  destruct (ternop_shape (fun x y z => (x, y, z)) a b c s Ha Hb Hc) as (abc & -> & Habc).
  cbn [bind]. now apply binop_shape.
Qed.

Lemma stack_same_shape {A : Type} (layers : list (ndarray A)) (s : nat * nat) :
  layers <> [] -> Forall (fun l => shape l = s) layers -> stack layers = Ok layers.
Proof.
  intros Hne Hs. unfold stack. destruct layers as [| first rest]; [congruence |].
  assert (Hf : shape first = s) by (now apply Forall_cons_iff in Hs).
  rewrite (proj2 (forallb_forall _ _)); [reflexivity |].
  intros l Hl. rewrite Forall_forall in Hs. specialize (Hs l Hl).
  unfold shape in *. apply andb_true_intro. split; apply Nat.eqb_eq; congruence.
Qed.

End FeatureStack.

(** X6.  [extract_features] reads bands 0 to 5: on an image with fewer than
    six bands it raises [IndexError]. *)
Theorem extract_features_needs_six_bands (sentinel_data : image) :
  (length sentinel_data < 6)%nat ->
  FeatureExtraction.extract_features sentinel_data = Raise IndexError.
Proof.
  intros Hn. unfold FeatureExtraction.extract_features.
  destruct sentinel_data as [| b0 [| b1 [| b2 [| b3 [| b4 [| b5 rest]]]]]];
    try reflexivity.
  simpl in Hn. lia.
Qed.

Lemma extract_features_needs_six_bands_witness :
  (length Scenario.sentinel_data = 6)%nat
  /\ FeatureExtraction.extract_features (firstn 5 Scenario.sentinel_data) = Raise IndexError.
Proof.
  split; [reflexivity |].
  apply extract_features_needs_six_bands. simpl. lia.
Defined.

(** X7.  On an image with at least six bands whose first five have one
    shape, [extract_features] raises nothing and returns seven layers of that
    shape with the names NDVI, NDWI, NDBI, SAVI, MSAVI, EVI, BSI in this
    order: the results of the seven index functions on the blue, green, red,
    near-infrared and first short-wave bands, SAVI with [L = 0.5].  The sixth
    band, which is read, and any further band have no influence. *)
Theorem extract_features_stacks_seven_layers
        (blue green red nir swir1 swir2 : ndarray float) (rest : image) (s : nat * nat) :
  Forall (fun b => shape b = s) [blue; green; red; nir; swir1] ->
  exists ndvi ndwi ndbi savi msavi evi bsi : ndarray float,
    FeatureExtraction.extract_features (blue :: green :: red :: nir :: swir1 :: swir2 :: rest)
    = Ok ([ndvi; ndwi; ndbi; savi; msavi; evi; bsi],
          ["NDVI"; "NDWI"; "NDBI"; "SAVI"; "MSAVI"; "EVI"; "BSI"]%string)
    /\ Forall (fun l => shape l = s) [ndvi; ndwi; ndbi; savi; msavi; evi; bsi]
    /\ FeatureExtraction.calculate_ndvi nir red = Ok ndvi
    /\ FeatureExtraction.calculate_ndwi green nir = Ok ndwi
    /\ FeatureExtraction.calculate_ndbi swir1 nir = Ok ndbi
    /\ FeatureExtraction.calculate_savi nir red FeatureExtraction.Cell.default_L = Ok savi
    /\ FeatureExtraction.calculate_msavi nir red = Ok msavi
    /\ FeatureExtraction.calculate_evi nir red blue = Ok evi
    /\ FeatureExtraction.calculate_bsi swir1 nir red blue = Ok bsi.
Proof.
  intros Hs.
  apply Forall_cons_iff in Hs. destruct Hs as [Hb Hs].
  apply Forall_cons_iff in Hs. destruct Hs as [Hg Hs].
  apply Forall_cons_iff in Hs. destruct Hs as [Hr Hs].
  apply Forall_cons_iff in Hs. destruct Hs as [Hn Hs].
  apply Forall_cons_iff in Hs. destruct Hs as [Hw _].
  unfold FeatureExtraction.extract_features. cbn [getitem nth_error bind].
  unfold FeatureExtraction.calculate_ndvi, FeatureExtraction.calculate_ndwi,
    FeatureExtraction.calculate_ndbi, FeatureExtraction.calculate_savi,
    FeatureExtraction.calculate_msavi, FeatureExtraction.calculate_evi,
    FeatureExtraction.calculate_bsi.
  destruct (binop_shape FeatureExtraction.Cell.calculate_ndvi nir red s Hn Hr)
    as (ndvi & -> & S1).
  destruct (binop_shape FeatureExtraction.Cell.calculate_ndwi green nir s Hg Hn)
    as (ndwi & -> & S2).
  destruct (binop_shape FeatureExtraction.Cell.calculate_ndbi swir1 nir s Hw Hn)
    as (ndbi & -> & S3).
  destruct (binop_shape
              (fun n r => FeatureExtraction.Cell.calculate_savi
                            n r FeatureExtraction.Cell.default_L) nir red s Hn Hr)
    as (savi & -> & S4).
  destruct (binop_shape FeatureExtraction.Cell.calculate_msavi nir red s Hn Hr)
    as (msavi & -> & S5).
  destruct (ternop_shape FeatureExtraction.Cell.calculate_evi nir red blue s Hn Hr Hb)
    as (evi & -> & S6).
  destruct (quadop_shape FeatureExtraction.Cell.calculate_bsi swir1 nir red blue s
                         Hw Hn Hr Hb) as (bsi & -> & S7).
  cbn [bind].
  assert (Hall : Forall (fun l => shape l = s) [ndvi; ndwi; ndbi; savi; msavi; evi; bsi])
    by (repeat constructor; assumption).
  rewrite (stack_same_shape _ s) by (discriminate || exact Hall). cbn [bind].
  exists ndvi, ndwi, ndbi, savi, msavi, evi, bsi.
  split; [reflexivity |]. split; [exact Hall |]. repeat split.
Qed.

Lemma extract_features_stacks_seven_layers_witness :
  exists layers : image,
    FeatureExtraction.extract_features Scenario.sentinel_data
    = Ok (layers, ["NDVI"; "NDWI"; "NDBI"; "SAVI"; "MSAVI"; "EVI"; "BSI"]%string)
    /\ Forall (fun l => shape l = (1, 2)%nat) layers.
Proof.
  destruct (extract_features_stacks_seven_layers
              (mk_ndarray 1 2 [0.1; 0.2]%float) (mk_ndarray 1 2 [0.2; 0.3]%float)
              (mk_ndarray 1 2 [0.3; 0.1]%float) (mk_ndarray 1 2 [0.5; 0.6]%float)
              (mk_ndarray 1 2 [0.4; 0.2]%float) (mk_ndarray 1 2 [0.3; 0.1]%float)
              [] (1, 2)%nat)
    as (ndvi & ndwi & ndbi & savi & msavi & evi & bsi & Hout & Hshape & _).
  - repeat constructor.
  - exists [ndvi; ndwi; ndbi; savi; msavi; evi; bsi]. split; [exact Hout | exact Hshape].
Defined.

Section ExactProducts.

Open Scope float_scope.

(** [+0] divided by a value above zero is [+0]. *)
Lemma div_zero_pos (d : float) : (0 <? d) = true -> 0 / d = 0.
Proof.
  rewrite ltb_zero. intros H. apply Prim2SF_inj. rewrite div_spec.
  change (Prim2SF 0) with (S754_zero false). unfold SF64div, SFdiv.
  destruct (Prim2SF d) as [s | [] | | [] m e]; try discriminate; reflexivity.
Qed.

(** A finite value minus itself is [+0]. *)
Lemma sub_diag_finite (x : float) : (abs x <? infinity) = true -> x - x = 0.
Proof.
  rewrite ltb_spec, abs_spec. intros H. apply Prim2SF_inj. rewrite sub_spec.
  change (Prim2SF 0) with (S754_zero false).
  destruct (Prim2SF x) as [s | s | | s m e]; try discriminate.
  - now destruct s.
  - apply SFsub_diag.
Qed.

Lemma valid_canonical (s : bool) (m : positive) (e : Z) :
  valid_binary (S754_finite s m e) = true ->
  fexp prec emax (Zdigits2 (Zpos m) + e) = e /\ (e <= emax - prec)%Z.
Proof.
  unfold SpecFloat.valid_binary, bounded, canonical_mantissa. intros H.
  apply andb_prop in H. destruct H as [H1 H2].
  apply Z.eqb_eq in H1. apply Z.leb_le in H2. split; assumption.
Qed.

Lemma shift_52 (p : positive) :
  iter_pos shr_1 52 (Build_shr_record (Zpos (Pos.iter xO p 52)) false false)
  = Build_shr_record (Zpos p) false false.
Proof. reflexivity. Qed.

(** Multiplying a significand by [2^52] at an exponent lowered by 52 rounds
    back to the value itself. *)
Lemma binary_round_aux_times_one (s : bool) (m : positive) (e : Z) :
  valid_binary (S754_finite s m e) = true ->
  binary_round_aux prec emax s (Zpos (m * 4503599627370496)) (e + -52) loc_Exact
  = S754_finite s m e.
Proof.
  intros V. destruct (valid_canonical _ _ _ V) as [Hcan Hmax].
  replace (m * 4503599627370496)%positive with (Pos.iter xO m 52)
    by (rewrite Pos.mul_comm; reflexivity).
  unfold binary_round_aux, shr_fexp. rewrite digits_iter_xO.
  replace (Zdigits2 (Zpos m) + 52 + (e + -52))%Z with (Zdigits2 (Zpos m) + e)%Z by lia.
  rewrite Hcan. replace (e - (e + -52))%Z with 52%Z by lia.
  unfold shr at 1. cbn [shr_record_of_loc]. rewrite shift_52.
  cbn [shr_m loc_of_shr_record shr_r shr_s round_nearest_even].
  replace (e + -52 + 52)%Z with e by lia.
  rewrite Hcan, Z.sub_diag. cbn [shr shr_record_of_loc shr_m].
  now rewrite (proj2 (Z.leb_le _ _) Hmax).
Qed.

Lemma mul_one (x : float) : x * 1 = x.
Proof.
  apply Prim2SF_inj. rewrite mul_spec.
  change (Prim2SF 1) with (S754_finite false 4503599627370496 (-52)).
  pose proof (Prim2SF_valid x) as V.
  destruct (Prim2SF x) as [s | s | | s m e]; unfold SF64mul, SFmul.
  - now destruct s.
  - now destruct s.
  - reflexivity.
  - rewrite xorb_false_r. now apply binary_round_aux_times_one.
Qed.

(** Adding [+0] changes nothing once a positive constant is added after it. *)
Lemma add_zero_then (z c : float) : (0 <? c) = true -> z + 0 + c = z + c.
Proof.
  rewrite ltb_zero. intros Hc. apply Prim2SF_inj. rewrite !add_spec.
  change (Prim2SF 0) with (S754_zero false).
  destruct (Prim2SF z) as [s | s | | s m e]; try reflexivity.
  destruct (Prim2SF c) as [sc | [] | | [] mc ec]; try discriminate;
    now destruct s.
Qed.

End ExactProducts.

(** X8.  Where two bands hold the same finite value that is not negative,
    the stabilised NDVI, NDWI and NDBI of that cell, and SAVI with the
    default soil factor, are exactly [+0]. *)
Theorem equal_bands_give_zero_index (x : float) :
  (0 <=? x)%float = true -> (abs x <? infinity)%float = true ->
  FeatureExtraction.Cell.calculate_ndvi x x = 0%float
  /\ FeatureExtraction.Cell.calculate_ndwi x x = 0%float
  /\ FeatureExtraction.Cell.calculate_ndbi x x = 0%float
  /\ FeatureExtraction.Cell.calculate_savi x x FeatureExtraction.Cell.default_L = 0%float.
Proof.
  intros Hx Hfin.
  assert (Hd : (0 <? x + x + FeatureExtraction.epsilon)%float = true).
  { apply add_pos; [now apply add_nonneg | reflexivity]. }
  assert (Hs : (0 <? x + x + FeatureExtraction.Cell.default_L
                     + FeatureExtraction.epsilon)%float = true).
  { apply add_pos; [| reflexivity].
    apply add_nonneg; [now apply add_nonneg | reflexivity]. }
  unfold FeatureExtraction.Cell.calculate_ndvi, FeatureExtraction.Cell.calculate_ndwi,
    FeatureExtraction.Cell.calculate_ndbi, FeatureExtraction.Cell.calculate_savi,
    FeatureExtraction.Cell.ndvi_denominator, FeatureExtraction.Cell.ndwi_denominator,
    FeatureExtraction.Cell.ndbi_denominator, FeatureExtraction.Cell.savi_denominator.
  rewrite (sub_diag_finite x Hfin).
  change (0 * (1 + FeatureExtraction.Cell.default_L))%float with 0%float.
  rewrite !(div_zero_pos _ Hd), (div_zero_pos _ Hs). repeat split.
Qed.

Lemma equal_bands_give_zero_index_witness :
  FeatureExtraction.Cell.calculate_ndvi 0.25 0.25 = 0%float
  /\ FeatureExtraction.Cell.calculate_savi 0.25 0.25 FeatureExtraction.Cell.default_L
     = 0%float.
Proof.
  destruct (equal_bands_give_zero_index 0.25 eq_refl eq_refl) as (H1 & _ & _ & H4).
  split; [exact H1 | exact H4].
Defined.

(** X9.  With a soil factor of 0, SAVI is the stabilised NDVI, bit for bit,
    for all band values (cell formula and array function). *)
Theorem savi_without_soil_factor_is_ndvi :
  (forall nir red : float,
      FeatureExtraction.Cell.calculate_savi nir red 0
      = FeatureExtraction.Cell.calculate_ndvi nir red)
  /\ forall nir red : ndarray float,
       FeatureExtraction.calculate_savi nir red 0
       = FeatureExtraction.calculate_ndvi nir red.
Proof.
  assert (G : forall nir red : float,
             FeatureExtraction.Cell.calculate_savi nir red 0
             = FeatureExtraction.Cell.calculate_ndvi nir red).
  { intros nir red.
    unfold FeatureExtraction.Cell.calculate_savi, FeatureExtraction.Cell.calculate_ndvi,
      FeatureExtraction.Cell.savi_denominator, FeatureExtraction.Cell.ndvi_denominator.
    change (1 + 0)%float with 1%float.
    rewrite mul_one, add_zero_then by reflexivity. reflexivity. }
  split; [exact G |].
  intros nir red.
  unfold FeatureExtraction.calculate_savi, FeatureExtraction.calculate_ndvi, binop.
  destruct (broadcast_dim (nrows nir) (nrows red)) as [h |]; [| reflexivity].
  destruct (broadcast_dim (ncols nir) (ncols red)) as [w |]; [| reflexivity].
  f_equal. f_equal. unfold zip_with. apply map_ext. intros (n, r). apply G.
Qed.

(** ** Further properties of [src/temporal_analysis.py] and the change map
       of [src/visualization.py] *)

Section ChangeMatrixFacts.

Import TemporalAnalysis.

Lemma positions_where_swap {A B : Type} (p : A -> B -> bool) (xs : list A) (ys : list B) :
  positions_where p xs ys = positions_where (fun y x => p x y) ys xs.
Proof.
  revert ys. induction xs as [| x xs IH]; intros [| y ys];
    rewrite ?positions_where_nil_r; try reflexivity.
  now rewrite !positions_where_cons, IH.
Qed.

Lemma positions_where_ext {A B : Type} (p q : A -> B -> bool) (xs : list A) (ys : list B) :
  (forall x y, p x y = q x y) -> positions_where p xs ys = positions_where q xs ys.
Proof.
  intros H. unfold positions_where. f_equal. f_equal.
  apply filter_ext. intros (x, y). apply H.
Qed.

Lemma positions_where_nonneg {A B : Type} (p : A -> B -> bool) (xs : list A) (ys : list B) :
  (0 <= positions_where p xs ys)%Z.
Proof. unfold positions_where. lia. Qed.

Lemma positions_where_diag {A : Type} (p : A -> A -> bool) (xs : list A) :
  positions_where p xs xs = Z.of_nat (length (filter (fun x => p x x) xs)).
Proof.
  induction xs as [| x xs IH]; [reflexivity |].
  rewrite positions_where_cons, IH. cbn [filter].
  destruct (p x x); cbn [length]; lia.
Qed.

Lemma positions_where_never {A B : Type} (p : A -> B -> bool) (xs : list A) (ys : list B) :
  (forall x y, p x y = false) -> positions_where p xs ys = 0%Z.
Proof.
  intros H. unfold positions_where.
  rewrite filter_all_false; [reflexivity |].
  apply Forall_forall. intros (x, y) _. apply H.
Qed.

(** The matrix of two grids of one shape, entry by entry. *)
Lemma calculate_changes_same_shape (a b : ndarray Z) :
  shape a = shape b ->
  let cnt i j := positions_where (fun x y => Z.eqb x i && Z.eqb y j) (flat a) (flat b) in
  calculate_changes a b
  = Ok [[cnt 1 1; cnt 1 2; cnt 1 3; cnt 1 4];
        [cnt 2 1; cnt 2 2; cnt 2 3; cnt 2 4];
        [cnt 3 1; cnt 3 2; cnt 3 3; cnt 3 4];
        [cnt 4 1; cnt 4 2; cnt 4 3; cnt 4 4]]%Z.
Proof.
  intros E cnt. apply (calculate_changes_unrolled a b cnt).
  intros i j. now apply count_transition_same_shape.
Qed.

Ltac decide_labels :=
  unfold is_class;
  repeat match goal with
         | |- context [Z.eqb ?a ?b] => destruct (Z.eqb_spec a b); try lia
         | |- context [Z.leb ?a ?b] => destruct (Z.leb_spec a b); try lia
         end;
  cbn [andb]; lia.

(** Whatever the labels, the sixteen counts add up to the positions that
    hold a class in both grids, and the four diagonal counts to those of
    them whose class is the same. *)
Lemma transitions_total_any (xs ys : list Z) :
  let cnt i j := positions_where (fun x y => Z.eqb x i && Z.eqb y j) xs ys in
  (cnt 1 1 + cnt 1 2 + cnt 1 3 + cnt 1 4 + cnt 2 1 + cnt 2 2 + cnt 2 3 + cnt 2 4
   + cnt 3 1 + cnt 3 2 + cnt 3 3 + cnt 3 4 + cnt 4 1 + cnt 4 2 + cnt 4 3 + cnt 4 4)%Z
  = positions_where (fun x y => is_class x && is_class y) xs ys.
Proof.
  cbv zeta. revert ys. induction xs as [| x xs IH]; intros [| y ys];
    rewrite ?positions_where_nil_r; try reflexivity.
  rewrite !positions_where_cons, <- IH. clear IH. decide_labels.
Qed.

Lemma transitions_diagonal_any (xs ys : list Z) :
  let cnt i j := positions_where (fun x y => Z.eqb x i && Z.eqb y j) xs ys in
  (cnt 1 1 + cnt 2 2 + cnt 3 3 + cnt 4 4)%Z
  = positions_where (fun x y => is_class x && Z.eqb x y) xs ys.
Proof.
  cbv zeta. revert ys. induction xs as [| x xs IH]; intros [| y ys];
    rewrite ?positions_where_nil_r; try reflexivity.
  rewrite !positions_where_cons, <- IH. clear IH. decide_labels.
Qed.

End ChangeMatrixFacts.

Section ChangeMapFacts.

Import TemporalAnalysis.

Lemma positions_where_ext_Forall {A B : Type} (P : A -> Prop) (Q : B -> Prop)
      (p q : A -> B -> bool) (xs : list A) (ys : list B) :
  Forall P xs -> Forall Q ys ->
  (forall x y, P x -> Q y -> p x y = q x y) ->
  positions_where p xs ys = positions_where q xs ys.
Proof.
  intros HP. revert ys. induction HP as [| x xs Hx _ IH]; intros ys HQ H.
  - reflexivity.
  - destruct HQ as [| y ys Hy HQ]; [now rewrite !positions_where_nil_r |].
    rewrite !positions_where_cons, (H x y Hx Hy), (IH ys HQ H). reflexivity.
Qed.

Lemma positions_where_split {A B : Type} (p : A -> B -> bool) (xs : list A) (ys : list B) :
  (positions_where p xs ys + positions_where (fun x y => negb (p x y)) xs ys)%Z
  = Z.of_nat (Nat.min (length xs) (length ys)).
Proof.
  revert ys. induction xs as [| x xs IH]; intros [| y ys];
    rewrite ?positions_where_nil_r; try reflexivity.
  rewrite !positions_where_cons. cbn [length]. rewrite <- Nat.succ_min_distr.
  specialize (IH ys). destruct (p x y); cbn [negb]; lia.
Qed.

(** The cells marked 1 in the change map are the positions whose labels
    differ. *)
Lemma change_map_same_shape (a b : ndarray Z) :
  shape a = shape b ->
  exists cm,
    change_map a b = Ok cm
    /\ shape cm = shape a
    /\ flat cm = zip_with (fun x y => if Z.eqb x y then 0%Z else 1%Z) (flat a) (flat b)
    /\ cells_where (fun c => Z.eqb c 1) cm
       = positions_where (fun x y => negb (Z.eqb x y)) (flat a) (flat b).
Proof.
  intros E. unfold change_map. rewrite binop_same_shape by exact E. cbn [bind].
  eexists. split; [reflexivity |]. split; [reflexivity |].
  unfold Np.map, cells_where, positions_where, zip_with. cbn [flat].
  rewrite map_map. split.
  - apply map_ext. intros (x, y). cbn [fst snd]. now destruct (Z.eqb x y).
  - f_equal. generalize (combine (flat a) (flat b)). intros l.
    induction l as [| (x, y) l IH]; [reflexivity |]. cbn [List.map filter fst snd].
    destruct (Z.eqb x y); cbn [negb Z.eqb Pos.eqb length]; now rewrite IH.
Qed.

Lemma positions_where_le {A B : Type} (p q : A -> B -> bool) (xs : list A) (ys : list B) :
  (forall x y, p x y = true -> q x y = true) ->
  (positions_where p xs ys <= positions_where q xs ys)%Z.
Proof.
  intros H. revert ys. induction xs as [| x xs IH]; intros [| y ys];
    rewrite ?positions_where_nil_r; try (unfold positions_where; simpl; lia).
  rewrite !positions_where_cons. specialize (IH ys).
  destruct (p x y) eqn:P; [rewrite (H x y P); lia |].
  destruct (q x y); lia.
Qed.

Lemma entry_nonneg (m : matrix) :
  Forall (Forall (fun v => (0 <= v)%Z)) m -> forall i j : nat, (0 <= entry m i j)%Z.
Proof.
  intros H i j. unfold entry.
  destruct (nth_in_or_default i m []) as [Hi | ->].
  - rewrite Forall_forall in H. specialize (H _ Hi).
    destruct (nth_in_or_default j (nth i m []) 0%Z) as [Hj | ->]; [| lia].
    rewrite Forall_forall in H. now apply H.
  - destruct j; cbn; lia.
Qed.

End ChangeMapFacts.

(** X10.  Swapping the two years transposes the change matrix: for grids of
    one shape, entry [(i, j)] of the matrix from 2023 to 2017 is entry
    [(j, i)] of the matrix from 2017 to 2023. *)
Theorem swapping_years_transposes_matrix (class_2017 class_2023 : ndarray Z) :
  shape class_2017 = shape class_2023 ->
  exists forward backward : TemporalAnalysis.matrix,
    TemporalAnalysis.calculate_changes class_2017 class_2023 = Ok forward
    /\ TemporalAnalysis.calculate_changes class_2023 class_2017 = Ok backward
    /\ forall i j : nat,
         (i < 4)%nat -> (j < 4)%nat ->
         TemporalAnalysis.entry backward i j = TemporalAnalysis.entry forward j i.
Proof.
  intros E.
  rewrite (calculate_changes_same_shape _ _ E).
  rewrite (calculate_changes_same_shape _ _ (eq_sym E)).
  eexists. eexists. split; [reflexivity |]. split; [reflexivity |].
  intros i j Hi Hj.
  destruct i as [| [| [| [| i]]]]; try lia;
    destruct j as [| [| [| [| j]]]]; try lia;
    cbn [TemporalAnalysis.entry nth];
    rewrite positions_where_swap; apply positions_where_ext; intros x y;
    apply andb_comm.
Qed.

Lemma swapping_years_transposes_matrix_witness :
  exists forward backward : TemporalAnalysis.matrix,
    TemporalAnalysis.calculate_changes
      Scenario.labels_1234 (mk_ndarray 2 2 [2; 2; 3; 1]%Z) = Ok forward
    /\ TemporalAnalysis.calculate_changes
         (mk_ndarray 2 2 [2; 2; 3; 1]%Z) Scenario.labels_1234 = Ok backward
    /\ TemporalAnalysis.entry backward 1 0 = TemporalAnalysis.entry forward 0 1.
Proof.
  destruct (swapping_years_transposes_matrix
              Scenario.labels_1234 (mk_ndarray 2 2 [2; 2; 3; 1]%Z) eq_refl)
    as (forward & backward & Hf & Hb & Ht).
  exists forward, backward. split; [exact Hf |]. split; [exact Hb |].
  apply Ht; lia.
Defined.

(** X11.  The change matrix of a grid against itself is diagonal: entry
    [(i, i)] is the number of cells of class [i + 1] and every other entry
    is 0. *)
Theorem self_comparison_is_diagonal (classes : ndarray Z) :
  exists m : TemporalAnalysis.matrix,
    TemporalAnalysis.calculate_changes classes classes = Ok m
    /\ forall i j : nat,
         (i < 4)%nat -> (j < 4)%nat ->
         TemporalAnalysis.entry m i j
         = if Nat.eqb i j
           then cells_where (fun c => Z.eqb c (Z.of_nat (i + 1))) classes
           else 0%Z.
Proof.
  rewrite (calculate_changes_same_shape _ _ eq_refl).
  eexists. split; [reflexivity |].
  intros i j Hi Hj.
  destruct i as [| [| [| [| i]]]]; try lia;
    destruct j as [| [| [| [| j]]]]; try lia;
    cbn [TemporalAnalysis.entry nth Nat.eqb];
    rewrite positions_where_diag; unfold cells_where;
    try (f_equal; f_equal; apply filter_ext; intros x; apply andb_diag);
    (rewrite filter_all_false; [reflexivity |]);
    apply Forall_forall; intros x _;
    destruct (Z.eqb_spec x 1), (Z.eqb_spec x 2), (Z.eqb_spec x 3), (Z.eqb_spec x 4);
    try reflexivity; lia.
Qed.

(** X12.  Labels outside 1..4 (background 0, but also a no-data value such
    as 255, or a negative label) are ignored by the change matrix: for grids
    of one shape and any labels, the entries are not negative, their sum is
    the number of positions holding one of the four classes in both years,
    and the trace is the number of those positions whose class is the
    same. *)
Theorem labels_outside_classes_are_ignored (class_2017 class_2023 : ndarray Z) :
  shape class_2017 = shape class_2023 ->
  exists m : TemporalAnalysis.matrix,
    TemporalAnalysis.calculate_changes class_2017 class_2023 = Ok m
    /\ TemporalAnalysis.matrix_sum m
       = positions_where
           (fun x y => TemporalAnalysis.is_class x && TemporalAnalysis.is_class y)
           (flat class_2017) (flat class_2023)
    /\ TemporalAnalysis.trace m
       = positions_where (fun x y => TemporalAnalysis.is_class x && Z.eqb x y)
                         (flat class_2017) (flat class_2023)
    /\ forall i j : nat, (0 <= TemporalAnalysis.entry m i j)%Z.
Proof.
  intros E. rewrite (calculate_changes_same_shape _ _ E). cbv zeta.
  eexists. split; [reflexivity |]. split; [| split].
  - rewrite <- transitions_total_any.
    unfold TemporalAnalysis.matrix_sum. cbn [List.map fold_right]. lia.
  - rewrite <- transitions_diagonal_any.
    unfold TemporalAnalysis.trace, TemporalAnalysis.diag, TemporalAnalysis.entry.
    cbn [length seq List.map nth fold_right]. lia.
  - apply entry_nonneg. repeat constructor; apply positions_where_nonneg.
Qed.

Lemma labels_outside_classes_are_ignored_witness :
  exists m : TemporalAnalysis.matrix,
    TemporalAnalysis.calculate_changes
      (mk_ndarray 2 2 [1; 255; 5; 2]%Z) (mk_ndarray 2 2 [2; 1; 3; -1]%Z) = Ok m
    /\ TemporalAnalysis.matrix_sum m = 1%Z.
Proof.
  destruct (labels_outside_classes_are_ignored
              (mk_ndarray 2 2 [1; 255; 5; 2]%Z) (mk_ndarray 2 2 [2; 1; 3; -1]%Z) eq_refl)
    as (m & Hm & Hsum & _).
  exists m. split; [exact Hm | exact Hsum].
Defined.

(** X13.  When every pixel of both years holds one of the four classes, the
    summary printed by [main] agrees with the map drawn by
    [plot_change_map]: the total is the number of pixels of the grid and the
    number of changed pixels is the number of cells marked 1 in the change
    map. *)
Theorem change_map_counts_changed_pixels (class_2017 class_2023 : ndarray Z) :
  shape class_2017 = shape class_2023 ->
  well_formed class_2017 -> well_formed class_2023 ->
  Forall (fun c => TemporalAnalysis.is_class c = true) (flat class_2017) ->
  Forall (fun c => TemporalAnalysis.is_class c = true) (flat class_2023) ->
  exists (m : TemporalAnalysis.matrix) (cm : ndarray Z),
    TemporalAnalysis.calculate_changes class_2017 class_2023 = Ok m
    /\ TemporalAnalysis.change_map class_2017 class_2023 = Ok cm
    /\ shape cm = shape class_2017
    /\ TemporalAnalysis.total_pixels (TemporalAnalysis.change_summary m)
       = Z.of_nat (nrows class_2017 * ncols class_2017)
    /\ TemporalAnalysis.pixels_with_changes (TemporalAnalysis.change_summary m)
       = cells_where (fun c => Z.eqb c 1) cm.
Proof.
  intros E W17 W23 C17 C23.
  destruct (change_map_same_shape _ _ E) as (cm & Hcm & Hshape & _ & Hones).
  rewrite (calculate_changes_same_shape _ _ E). cbv zeta.
  eexists. exists cm. split; [reflexivity |]. split; [exact Hcm |].
  split; [exact Hshape |].
  set (xs := flat class_2017) in *. set (ys := flat class_2023) in *.
  assert (Hlen : Nat.min (length xs) (length ys) = (nrows class_2017 * ncols class_2017)%nat).
  { unfold well_formed in W17, W23. fold xs in W17. fold ys in W23.
    unfold shape in E. injection E as Er Ec. rewrite W17, W23, <- Er, <- Ec.
    apply Nat.min_id. }
  assert (Htotal : positions_where
                     (fun x y => TemporalAnalysis.is_class x && TemporalAnalysis.is_class y)
                     xs ys
                   = Z.of_nat (nrows class_2017 * ncols class_2017)).
  { rewrite <- Hlen, <- (positions_where_split (fun _ _ => true) xs ys).
    rewrite (positions_where_never (fun _ _ => negb true)) by reflexivity.
    rewrite Z.add_0_r.
    apply (positions_where_ext_Forall _ _ _ _ _ _ C17 C23).
    intros x y -> ->. reflexivity. }
  assert (Hsame : positions_where (fun x y => TemporalAnalysis.is_class x && Z.eqb x y) xs ys
                  = positions_where (fun x y => Z.eqb x y) xs ys).
  { apply (positions_where_ext_Forall _ _ _ _ _ _ C17 C23). intros x y -> _. reflexivity. }
  pose proof (positions_where_split (fun x y => Z.eqb x y) xs ys) as Hsplit.
  cbv beta in Hsplit. rewrite Hlen in Hsplit.
  pose proof (transitions_total_any xs ys) as Hsum.
  pose proof (transitions_diagonal_any xs ys) as Hdiag. cbv beta zeta in Hsum, Hdiag.
  unfold TemporalAnalysis.change_summary.
  cbn [TemporalAnalysis.total_pixels TemporalAnalysis.pixels_with_changes].
  unfold TemporalAnalysis.matrix_sum, TemporalAnalysis.trace, TemporalAnalysis.diag,
    TemporalAnalysis.entry.
  cbn [length seq List.map nth fold_right].
  rewrite Hones. split; lia.
Qed.

Lemma change_map_counts_changed_pixels_witness :
  exists (m : TemporalAnalysis.matrix) (cm : ndarray Z),
    TemporalAnalysis.calculate_changes
      Scenario.labels_1234 (mk_ndarray 2 2 [2; 2; 3; 1]%Z) = Ok m
    /\ TemporalAnalysis.change_map
         Scenario.labels_1234 (mk_ndarray 2 2 [2; 2; 3; 1]%Z) = Ok cm
    /\ TemporalAnalysis.pixels_with_changes (TemporalAnalysis.change_summary m)
       = cells_where (fun c => Z.eqb c 1) cm.
Proof.
  destruct (change_map_counts_changed_pixels
              Scenario.labels_1234 (mk_ndarray 2 2 [2; 2; 3; 1]%Z))
    as (m & cm & Hm & Hcm & _ & _ & Hchanged).
  - reflexivity.
  - reflexivity.
  - reflexivity.
  - repeat constructor.
  - repeat constructor.
  - exists m, cm. split; [exact Hm |]. split; [exact Hcm | exact Hchanged].
Defined.

(** With a background pixel the two disagree: the map marks the change of
    a pixel from background to a class, the matrix does not count it. *)
Example change_map_counts_background :
  TemporalAnalysis.change_map (mk_ndarray 1 2 [0; 1]%Z) (mk_ndarray 1 2 [3; 1]%Z)
  = Ok (mk_ndarray 1 2 [1; 0]%Z)
  /\ exists m,
       TemporalAnalysis.calculate_changes (mk_ndarray 1 2 [0; 1]%Z) (mk_ndarray 1 2 [3; 1]%Z)
       = Ok m
       /\ TemporalAnalysis.pixels_with_changes (TemporalAnalysis.change_summary m) = 0%Z.
Proof. split; [reflexivity |]. eexists. split; reflexivity. Qed.

Section TwoChangeMaps.

Lemma zip_with_overwrite (xs ys : list Z) :
  zip_with (fun x (m : bool) => if m then 1%Z else x)
           (List.map (fun _ => 0%Z) xs)
           (zip_with (fun x y => negb (Z.eqb x y)) xs ys)
  = List.map (fun b : bool => if b then 1%Z else 0%Z)
             (zip_with (fun x y => negb (Z.eqb x y)) xs ys).
Proof.
  unfold zip_with. revert ys.
  induction xs as [| x xs IH]; intros [| y ys]; try reflexivity.
  cbn [combine List.map fst snd]. now rewrite IH.
Qed.

Lemma broadcast_dim_one_l (n : nat) : broadcast_dim 1 n = Some n.
Proof.
  unfold broadcast_dim. destruct (Nat.eqb_spec 1 n); [congruence | reflexivity].
Qed.

End TwoChangeMaps.

(** X14.  The change map of [visualization.py] and the one of
    [temporal_analysis.py]: on grids of one shape they are the same grid, of
    that shape, with cells 0 and 1 only; for a 1 x 1 first grid against a
    larger second grid the former raises [IndexError] (the broadcast mask
    does not fit the array of zeros) while the latter returns a broadcast
    map. *)
Theorem change_maps_agree_on_one_shape (class_2017 class_2023 : ndarray Z) :
  (shape class_2017 = shape class_2023 ->
   exists cm : ndarray Z,
     Visualization.plot_change_detection class_2017 class_2023 = Ok cm
     /\ TemporalAnalysis.change_map class_2017 class_2023 = Ok cm
     /\ shape cm = shape class_2017
     /\ Forall (fun c => c = 0%Z \/ c = 1%Z) (flat cm))
  /\ (shape class_2017 = (1, 1)%nat -> shape class_2023 <> (1, 1)%nat ->
      Visualization.plot_change_detection class_2017 class_2023 = Raise IndexError
      /\ exists cm : ndarray Z,
           TemporalAnalysis.change_map class_2017 class_2023 = Ok cm
           /\ shape cm = shape class_2023).
Proof.
  split.
  - intros E.
    unfold Visualization.plot_change_detection, TemporalAnalysis.change_map.
    rewrite binop_same_shape by exact E. cbn [bind].
    unfold setitem_mask, zeros_like, Np.map. cbn [nrows ncols flat].
    rewrite !Nat.eqb_refl. cbn [andb]. rewrite zip_with_overwrite.
    eexists. split; [reflexivity |]. split; [reflexivity |]. split; [reflexivity |].
    cbn [flat]. apply Forall_forall. intros c Hc.
    apply in_map_iff in Hc. destruct Hc as ([] & <- & _); auto.
  - intros E1 N.
    unfold Visualization.plot_change_detection, TemporalAnalysis.change_map, binop.
    unfold shape in E1, N. injection E1 as Er Ec. rewrite Er, Ec.
    rewrite !broadcast_dim_one_l.
    cbn [bind]. split.
    + unfold setitem_mask, zeros_like, Np.map. cbn [nrows ncols]. rewrite Er, Ec.
      destruct (Nat.eqb_spec (nrows class_2023) 1) as [R |]; [| reflexivity].
      destruct (Nat.eqb_spec (ncols class_2023) 1) as [C |]; [| reflexivity].
      exfalso. apply N. now rewrite R, C.
    + eexists. split; reflexivity.
Qed.

(** A 1 x 1 first grid against a 2 x 2 second grid: the change map of
    [temporal_analysis.py] is broadcast, the one of [visualization.py] is
    refused. *)
Example change_maps_differ_on_broadcast :
  TemporalAnalysis.change_map Scenario.label_1x1 Scenario.labels_1234
  = Ok (mk_ndarray 2 2 [0; 1; 1; 1]%Z)
  /\ Visualization.plot_change_detection Scenario.label_1x1 Scenario.labels_1234
     = Raise IndexError
  /\ Visualization.plot_change_detection Scenario.labels_1234 Scenario.label_1x1
     = Ok (mk_ndarray 2 2 [0; 1; 1; 1]%Z).
Proof. repeat split. Qed.

(** X15.  When no position holds one of the four classes in both years,
    the change matrix sums to zero and the percentage of area changed in the
    summary is [0 / 0 * 100 = nan]; nothing is raised. *)
Theorem percentage_is_nan_without_common_pixels (class_2017 class_2023 : ndarray Z) :
  shape class_2017 = shape class_2023 ->
  positions_where (fun x y => TemporalAnalysis.is_class x && TemporalAnalysis.is_class y)
                  (flat class_2017) (flat class_2023) = 0%Z ->
  exists m : TemporalAnalysis.matrix,
    TemporalAnalysis.calculate_changes class_2017 class_2023 = Ok m
    /\ TemporalAnalysis.change_summary m = TemporalAnalysis.mk_summary 0 0 nan.
Proof.
  intros E Hnone. rewrite (calculate_changes_same_shape _ _ E). cbv zeta.
  eexists. split; [reflexivity |].
  pose proof (transitions_total_any (flat class_2017) (flat class_2023)) as Hsum.
  pose proof (transitions_diagonal_any (flat class_2017) (flat class_2023)) as Hdiag.
  cbv beta zeta in Hsum, Hdiag. rewrite Hnone in Hsum.
  assert (Hle : (positions_where (fun x y => TemporalAnalysis.is_class x && Z.eqb x y)
                                 (flat class_2017) (flat class_2023) = 0)%Z).
  { pose proof (positions_where_nonneg
                  (fun x y => TemporalAnalysis.is_class x && Z.eqb x y)
                  (flat class_2017) (flat class_2023)).
    pose proof (positions_where_split
                  (fun x y => TemporalAnalysis.is_class x && TemporalAnalysis.is_class y)
                  (flat class_2017) (flat class_2023)) as Hs.
    assert (Hsub : (positions_where (fun x y => TemporalAnalysis.is_class x && Z.eqb x y)
                                    (flat class_2017) (flat class_2023)
                    <= positions_where
                         (fun x y => TemporalAnalysis.is_class x && TemporalAnalysis.is_class y)
                         (flat class_2017) (flat class_2023))%Z).
    { apply positions_where_le. intros x y Hxy.
      apply andb_prop in Hxy. destruct Hxy as [Hx Heq].
      apply Z.eqb_eq in Heq. subst y. now rewrite Hx. }
    lia. }
  rewrite Hle in Hdiag.
  unfold TemporalAnalysis.change_summary.
  assert (S0 : forall m', TemporalAnalysis.matrix_sum m' = 0%Z ->
               TemporalAnalysis.trace m' = 0%Z ->
               TemporalAnalysis.mk_summary
                 (TemporalAnalysis.matrix_sum m')
                 (TemporalAnalysis.matrix_sum m' - TemporalAnalysis.trace m')
                 (float_of_Z (TemporalAnalysis.matrix_sum m' - TemporalAnalysis.trace m')
                  / float_of_Z (TemporalAnalysis.matrix_sum m') * 100)%float
               = TemporalAnalysis.mk_summary 0 0 nan).
  { intros m' -> ->. reflexivity. }
  apply S0.
  - unfold TemporalAnalysis.matrix_sum. cbn [List.map fold_right]. lia.
  - unfold TemporalAnalysis.trace, TemporalAnalysis.diag, TemporalAnalysis.entry.
    cbn [length seq List.map nth fold_right]. lia.
Qed.

Lemma percentage_is_nan_without_common_pixels_witness :
  exists m : TemporalAnalysis.matrix,
    TemporalAnalysis.calculate_changes (mk_ndarray 2 2 [0; 0; 0; 0]%Z) Scenario.labels_1234
     = Ok m
    /\ TemporalAnalysis.percentage_changed (TemporalAnalysis.change_summary m) = nan.
Proof.
  destruct (percentage_is_nan_without_common_pixels
              (mk_ndarray 2 2 [0; 0; 0; 0]%Z) Scenario.labels_1234 eq_refl eq_refl)
    as (m & Hm & Hs).
  exists m. split; [exact Hm |]. now rewrite Hs.
Defined.

(** ** Further properties of [src/classification.py] *)

Section SplitFacts.

Import Sklearn.

Lemma compress_length {A B : Type} (p : B -> bool) (ys : list B) (xs : list A) :
  length xs = length ys ->
  length (compress (List.map p ys) xs) = length (filter p ys).
Proof.
  revert xs. induction ys as [| y ys IH]; intros [| x xs]; simpl;
    try discriminate; try reflexivity.
  intros [= E]. destruct (p y); simpl; now rewrite IH.
Qed.

Lemma compress_combine {A B : Type} (p : B -> bool) (ys : list B) (xs : list A) :
  combine (compress (List.map p ys) xs) (compress (List.map p ys) ys)
  = filter (fun xy => p (snd xy)) (combine xs ys).
Proof.
  revert xs. induction ys as [| y ys IH]; intros [| x xs]; simpl; try reflexivity.
  destruct (p y); simpl; now rewrite IH.
Qed.

(** The two smallest sample counts leave no training row:
    [ceil(0.2 * 0) = 0] and [ceil(0.2 * 1) = 1]. *)
Lemma train_test_split_too_small {A B : Type} `{RandomState}
      (X : list A) (y : list B) (seed : Z) :
  (length X <= 1)%nat -> train_test_split X y 0.2%float seed = Raise ValueError.
Proof.
  intros Hn. unfold train_test_split.
  destruct (negb (Nat.eqb (length X) (length y))); [reflexivity |].
  destruct (length X) as [| [| n]]; [reflexivity | reflexivity | lia].
Qed.

Lemma take_Ok_map {A : Type} (d : A) (xs : list A) (indices : list nat) (out : list A) :
  take xs indices = Ok out ->
  out = List.map (fun i => nth i xs d) indices
  /\ Forall (fun i => (i < length xs)%nat) indices.
Proof.
  revert out. induction indices as [| i rest IH]; intros out; simpl.
  - intros [= <-]. split; [reflexivity | constructor].
  - unfold getitem. destruct (nth_error xs i) as [a |] eqn:E; simpl; [| discriminate].
    destruct (take xs rest) as [tl |]; simpl; [| discriminate].
    intros [= <-]. destruct (IH tl eq_refl) as [-> Hb]. split.
    + f_equal. symmetry. now apply nth_error_nth.
    + constructor; [| exact Hb]. apply nth_error_Some. congruence.
Qed.

Lemma combine_map_nth {A B : Type} (da : A) (db : B) (xs : list A) (ys : list B)
      (indices : list nat) :
  combine (List.map (fun i => nth i xs da) indices)
          (List.map (fun i => nth i ys db) indices)
  = List.map (fun i => (nth i xs da, nth i ys db)) indices.
Proof.
  induction indices as [| i rest IH]; simpl; [reflexivity |]. now rewrite IH.
Qed.

Lemma map_nth_seq {A B : Type} (da : A) (db : B) (xs : list A) (ys : list B) :
  length xs = length ys ->
  List.map (fun i => (nth i xs da, nth i ys db)) (seq 0 (length xs)) = combine xs ys.
Proof.
  revert ys. induction xs as [| x xs IH]; intros [| y ys]; simpl;
    try discriminate; try reflexivity.
  intros [= E]. f_equal. rewrite <- seq_shift, map_map. now apply IH.
Qed.

(** What a successful split returns: the test part and the training part
    together are the samples, each once, every row beside its label. *)
Lemma train_test_split_partitions {A B : Type} `{RandomStateLaws}
      (X : list A) (y : list B) (test_size : float) (seed : Z)
      X_train X_test y_train y_test :
  train_test_split X y test_size seed = Ok (X_train, X_test, y_train, y_test) ->
  length X_train = length y_train
  /\ length X_test = length y_test
  /\ X_train <> []
  /\ Permutation (combine X_test y_test ++ combine X_train y_train) (combine X y).
Proof.
  intros Hs.
  destruct X as [| x0 X0]; [destruct y; discriminate |].
  destruct y as [| y0 Y0]; [discriminate |].
  remember (x0 :: X0) as X' eqn:EX. remember (y0 :: Y0) as y' eqn:Ey.
  clear EX Ey X0 Y0. revert Hs. unfold train_test_split.
  destruct (Nat.eqb_spec (length X') (length y')) as [Hlen |]; [| discriminate].
  cbn [negb].
  set (n_test := Z.to_nat (ceil (test_size * float_of_Z (Z.of_nat (length X'))))).
  destruct (Nat.eqb_spec (length X' - n_test) 0) as [| Htrain]; [discriminate |].
  pose proof (permutation_shuffles seed (length X')) as Hperm.
  set (perm := permutation seed (length X')) in *.
  intros Hs.
  apply bind_Ok in Hs. destruct Hs as (a & Ea & Hs).
  apply bind_Ok in Hs. destruct Hs as (b & Eb & Hs).
  apply bind_Ok in Hs. destruct Hs as (c & Ec & Hs).
  apply bind_Ok in Hs. destruct Hs as (d & Ed & Hs).
  inversion Hs; subst a b c d. clear Hs.
  destruct (take_Ok_map x0 _ _ _ Ea) as [-> _].
  destruct (take_Ok_map x0 _ _ _ Eb) as [-> _].
  destruct (take_Ok_map y0 _ _ _ Ec) as [-> _].
  destruct (take_Ok_map y0 _ _ _ Ed) as [-> _].
  assert (Hpl : length perm = length X').
  { rewrite (Permutation_length Hperm). apply length_seq. }
  assert (Hcut : firstn n_test perm ++ firstn (length X' - n_test) (skipn n_test perm)
                 = perm).
  { rewrite (firstn_all2 (n := length X' - n_test)).
    - apply firstn_skipn.
    - rewrite length_skipn. lia. }
  split; [now rewrite !length_map |]. split; [now rewrite !length_map |]. split.
  - intros Hnil. apply (f_equal (@length A)) in Hnil.
    rewrite length_map, firstn_all2 in Hnil by (rewrite length_skipn; lia).
    rewrite length_skipn in Hnil. simpl in Hnil. lia.
  - rewrite !combine_map_nth, <- map_app, Hcut.
    rewrite <- (map_nth_seq x0 y0 X' y' Hlen).
    now apply Permutation_map.
Qed.

End SplitFacts.

(** The identity shuffle is a shuffle. *)
#[export] Instance identity_shuffle_laws :
  @Sklearn.RandomStateLaws ReferenceForest.identity_shuffle.
Proof. constructor. intros seed n. apply Permutation_refl. Qed.

(** X16.  [prepare_training_data] needs at least two labelled pixels: when
    the label grid has as many cells as the feature grid has pixels and at
    most one of them is not background, the 80/20 split leaves no training
    row and [ValueError] is raised; when the two cell counts differ, the
    mask indexing raises [IndexError]. *)
Theorem prepare_training_data_needs_two_labelled_pixels
        (R : Sklearn.RandomState) (features : image) (labels : ndarray Z) :
  (length (Classification.pixel_rows features) <> length (flat labels) ->
   @Classification.prepare_training_data R features labels = Raise IndexError)
  /\ (length (Classification.pixel_rows features) = length (flat labels) ->
      (length (filter (fun l => negb (Z.eqb l 0)) (flat labels)) <= 1)%nat ->
      @Classification.prepare_training_data R features labels = Raise ValueError).
Proof.
  split.
  - intros N. unfold Classification.prepare_training_data, getitem_mask, flatten.
    rewrite length_map.
    destruct (Nat.eqb_spec (length (flat labels))
                           (length (Classification.pixel_rows features)));
      [congruence | reflexivity].
  - intros E Hfew. unfold Classification.prepare_training_data, getitem_mask, flatten.
    rewrite !length_map, Nat.eqb_refl, <- E, Nat.eqb_refl. cbn [bind].
    apply train_test_split_too_small.
    now rewrite compress_length.
Qed.

(** A single labelled pixel, or none, cannot be split. *)
Example prepare_training_data_single_pixel :
  @Classification.prepare_training_data ReferenceForest.identity_shuffle
    Scenario.training_features (mk_ndarray 1 5 [0; 0; 3; 0; 0]%Z)
  = Raise ValueError
  /\ @Classification.prepare_training_data ReferenceForest.identity_shuffle
       Scenario.training_features (mk_ndarray 1 5 [0; 0; 0; 0; 0]%Z)
     = Raise ValueError
  /\ @Classification.prepare_training_data ReferenceForest.identity_shuffle
       Scenario.training_features Scenario.labels_1234
     = Raise IndexError.
Proof. repeat split. Qed.

(** X17.  What [prepare_training_data] returns, for any shuffle that is a
    permutation: the training part is not empty, each part has one label per
    row, the two parts together hold every labelled pixel exactly once, each
    row beside its own label, and no label is 0. *)
Theorem prepare_training_data_partitions
        (R : Sklearn.RandomState) (L : Sklearn.RandomStateLaws)
        (features : image) (labels : ndarray Z)
        (X_train X_test : list Sklearn.row) (y_train y_test : list Z) :
  @Classification.prepare_training_data R features labels
    = Ok (X_train, X_test, y_train, y_test) ->
  length X_train = length y_train
  /\ length X_test = length y_test
  /\ X_train <> []
  /\ Permutation (combine X_test y_test ++ combine X_train y_train)
                 (filter (fun xy => negb (Z.eqb (snd xy) 0))
                         (combine (Classification.pixel_rows features) (flat labels)))
  /\ Forall (fun l => l <> 0%Z) (y_test ++ y_train).
Proof.
  unfold Classification.prepare_training_data, getitem_mask, flatten.
  destruct (Nat.eqb _ (length (Classification.pixel_rows features)));
    cbn [bind]; [| discriminate].
  rewrite length_map, Nat.eqb_refl. cbn [bind].
  intros Hs. apply train_test_split_partitions in Hs.
  destruct Hs as (Htrain & Htest & Hne & Hperm).
  rewrite compress_combine in Hperm.
  repeat (split; [assumption |]).
  assert (Hall : Forall (fun xy : Sklearn.row * Z => snd xy <> 0%Z)
                        (combine X_test y_test ++ combine X_train y_train)).
  { apply Forall_forall. intros xy Hin.
    apply (Permutation_in _ Hperm) in Hin. apply filter_In in Hin.
    destruct Hin as [_ Hnz]. intros E. rewrite E in Hnz. discriminate. }
  apply Forall_app in Hall. destruct Hall as [Ht Hr].
  apply Forall_app. split.
  - apply Forall_forall. intros l Hl.
    destruct (In_nth_error _ _ Hl) as (k & Hk).
    assert (Hlt : (k < length X_test)%nat).
    { rewrite Htest. apply nth_error_Some. congruence. }
    destruct (nth_error X_test k) as [r |] eqn:Hr'.
    + rewrite Forall_forall in Ht. apply (Ht (r, l)).
      apply (nth_error_In _ k). revert Hr' Hk. clear.
      revert k y_test. induction X_test as [| x xs IH]; intros [| k] [| y ys];
        simpl; try discriminate.
      * now intros [= ->] [= ->].
      * apply IH.
    + apply nth_error_None in Hr'. lia.
  - apply Forall_forall. intros l Hl.
    destruct (In_nth_error _ _ Hl) as (k & Hk).
    assert (Hlt : (k < length X_train)%nat).
    { rewrite Htrain. apply nth_error_Some. congruence. }
    destruct (nth_error X_train k) as [r |] eqn:Hr'.
    + rewrite Forall_forall in Hr. apply (Hr (r, l)).
      apply (nth_error_In _ k). revert Hr' Hk. clear.
      revert k y_train. induction X_train as [| x xs IH]; intros [| k] [| y ys];
        simpl; try discriminate.
      * now intros [= ->] [= ->].
      * apply IH.
    + apply nth_error_None in Hr'. lia.
Qed.

Lemma prepare_training_data_partitions_witness :
  @Classification.prepare_training_data ReferenceForest.identity_shuffle
    Scenario.training_features Scenario.training_labels
  = Ok (Scenario.training_rows, Scenario.evaluation_rows,
        Scenario.training_row_labels, Scenario.evaluation_row_labels)
  /\ Permutation
       (combine Scenario.evaluation_rows Scenario.evaluation_row_labels
        ++ combine Scenario.training_rows Scenario.training_row_labels)
       (filter (fun xy => negb (Z.eqb (snd xy) 0))
               (combine (Classification.pixel_rows Scenario.training_features)
                        (flat Scenario.training_labels))).
Proof.
  assert (Hprep : @Classification.prepare_training_data
                    ReferenceForest.identity_shuffle
                    Scenario.training_features Scenario.training_labels
                  = Ok (Scenario.training_rows, Scenario.evaluation_rows,
                        Scenario.training_row_labels, Scenario.evaluation_row_labels))
    by (vm_compute; reflexivity).
  split; [exact Hprep |].
  exact (proj1 (proj2 (proj2 (proj2
           (prepare_training_data_partitions
              ReferenceForest.identity_shuffle identity_shuffle_laws _ _ _ _ _ _ Hprep))))).
Defined.

(** ** Further properties of [src/validation.py] *)

Section ConfusionFacts.

Import Metrics.

Lemma validate_classification_pairs (prediction ground_truth : ndarray Z) :
  length (flat prediction) = length (flat ground_truth) ->
  Validation.validate_classification prediction ground_truth
  = Validation.calculate_metrics
      (List.map fst (Validation.labelled_pairs prediction ground_truth))
      (List.map snd (Validation.labelled_pairs prediction ground_truth))
      ["Water"; "Vegetation"; "Built-up"; "Barren"]%string.
Proof.
  intros E. unfold Validation.validate_classification, flatten, getitem_mask.
  rewrite !length_map, Nat.eqb_refl.
  rewrite (proj2 (Nat.eqb_eq _ _)) by (symmetry; exact E). simpl.
  unfold Validation.labelled_pairs.
  rewrite (compress_fst (fun t => negb (Z.eqb t 0)) _ (flat prediction) E).
  now rewrite compress_snd.
Qed.

Lemma combine_fst_snd {A B : Type} (l : list (A * B)) :
  combine (List.map fst l) (List.map snd l) = l.
Proof.
  induction l as [| (a, b) l IH]; simpl; [reflexivity |]. now rewrite IH.
Qed.

(** The label list is strictly increasing, hence without repetition. *)
Lemma insert_unique_sorted (c : Z) (cs : list Z) :
  StronglySorted Z.lt cs -> StronglySorted Z.lt (insert_unique c cs).
Proof.
  induction 1 as [| d cs Hs IH Hd]; simpl.
  - repeat constructor.
  - destruct (Z.ltb_spec c d).
    + constructor; [now constructor |]. constructor; [assumption |].
      eapply Forall_impl; [| exact Hd]. intros x Hx. lia.
    + destruct (Z.eqb_spec c d); [now constructor |].
      constructor; [exact IH |].
      apply Forall_forall. intros x Hx. apply In_insert_unique in Hx.
      destruct Hx as [-> | Hx]; [lia |].
      rewrite Forall_forall in Hd. now apply Hd.
Qed.

Lemma sorted_set_sorted (ys : list Z) : StronglySorted Z.lt (sorted_set ys).
Proof.
  unfold sorted_set. induction ys as [| y ys IH]; simpl; [constructor |].
  now apply insert_unique_sorted.
Qed.

Lemma sorted_NoDup (cs : list Z) : StronglySorted Z.lt cs -> NoDup cs.
Proof.
  induction 1 as [| d cs Hs IH Hd]; constructor; [| exact IH].
  intros Hin. rewrite Forall_forall in Hd. specialize (Hd d Hin). lia.
Qed.

Local Abbreviation sumZ := (fold_right Z.add 0%Z).

Lemma sumZ_indicator (v : Z) (cs : list Z) :
  NoDup cs ->
  sumZ (List.map (fun c => if Z.eqb v c then 1%Z else 0%Z) cs)
  = if in_dec Z.eq_dec v cs then 1%Z else 0%Z.
Proof.
  induction 1 as [| d cs Hd Hnd IH]; [reflexivity |].
  cbn [List.map fold_right]. rewrite IH.
  destruct (in_dec Z.eq_dec v (d :: cs)) as [Hin | Hnin];
    destruct (in_dec Z.eq_dec v cs) as [Hc | Hnc];
    destruct (Z.eqb_spec v d) as [E | E]; simpl in *; try lia; try tauto.
  all: intuition congruence.
Qed.

Lemma sumZ_map_add {A : Type} (f g : A -> Z) (l : list A) :
  sumZ (List.map (fun c => (f c + g c)%Z) l)
  = (sumZ (List.map f l) + sumZ (List.map g l))%Z.
Proof. induction l as [| a l IH]; simpl; lia. Qed.

(** Counting by key over a duplicate-free list of keys that holds every key
    that occurs counts every element once. *)
Lemma sumZ_count_by_key {A : Type} (q : A -> bool) (k : A -> Z) (cs : list Z) (xs : list A) :
  NoDup cs -> Forall (fun x => In (k x) cs) xs ->
  sumZ (List.map (fun c => Z.of_nat (length (filter (fun x => q x && Z.eqb (k x) c) xs))) cs)
  = Z.of_nat (length (filter q xs)).
Proof.
  intros Hnd Hin. induction Hin as [| x xs Hx _ IH].
  - simpl. induction cs; simpl; [reflexivity |].
    inversion Hnd; subst. auto.
  - cbn [filter].
    rewrite (map_ext _ (fun c => ((if q x && Z.eqb (k x) c then 1 else 0)
                                  + Z.of_nat (length (filter (fun x0 => q x0 && Z.eqb (k x0) c) xs)))%Z)).
    + rewrite (sumZ_map_add (fun c => if q x && Z.eqb (k x) c then 1%Z else 0%Z)), IH.
      destruct (q x); cbn [andb length].
      * rewrite (sumZ_indicator (k x) cs Hnd).
        destruct (in_dec Z.eq_dec (k x) cs); [lia | contradiction].
      * replace (sumZ (List.map (fun _ : Z => 0%Z) cs)) with 0%Z; [lia |].
        clear. induction cs; simpl; lia.
    + intros c. destruct (q x && Z.eqb (k x) c); cbn [length]; lia.
Qed.

End ConfusionFacts.

Section ValidatorFacts.

Import Metrics.

Local Abbreviation sumZ := (fold_right Z.add 0%Z).

Lemma unique_labels_fst (pairs : list (Z * Z)) :
  Forall (fun tp => In (fst tp) (unique_labels (List.map fst pairs) (List.map snd pairs)))
         pairs.
Proof.
  apply Forall_forall. intros tp Hin. unfold unique_labels.
  apply In_sorted_set, in_or_app. left. now apply in_map.
Qed.

Lemma unique_labels_snd (pairs : list (Z * Z)) :
  Forall (fun tp => In (snd tp) (unique_labels (List.map fst pairs) (List.map snd pairs)))
         pairs.
Proof.
  apply Forall_forall. intros tp Hin. unfold unique_labels.
  apply In_sorted_set, in_or_app. right. now apply in_map.
Qed.

(** The entries of the confusion matrix of a list of (truth, prediction)
    pairs add up to the number of pairs. *)
Lemma confusion_matrix_total (pairs : list (Z * Z)) :
  let y_true := List.map fst pairs in
  let y_pred := List.map snd pairs in
  let labels := unique_labels y_true y_pred in
  sumZ (List.map sumZ
          (List.map (fun t => List.map (fun p => count_pairs y_true y_pred t p) labels)
                    labels))
  = Z.of_nat (length pairs).
Proof.
  cbv zeta. set (labels := unique_labels _ _).
  assert (Hnd : NoDup labels) by apply sorted_NoDup, sorted_set_sorted.
  rewrite map_map. unfold count_pairs. rewrite combine_fst_snd.
  rewrite (map_ext _ (fun t => Z.of_nat (length (filter (fun tp => true && Z.eqb (fst tp) t)
                                                     pairs)))).
  - rewrite (sumZ_count_by_key (fun _ => true) fst labels pairs Hnd (unique_labels_fst pairs)).
    f_equal. f_equal. clear. induction pairs; simpl; congruence.
  - intros t. cbn [andb].
    apply (sumZ_count_by_key (fun tp => Z.eqb (fst tp) t) snd labels pairs Hnd
                             (unique_labels_snd pairs)).
Qed.

(** The diagonal entries add up to the number of pairs whose two labels
    agree. *)
Lemma confusion_matrix_diagonal (pairs : list (Z * Z)) :
  let y_true := List.map fst pairs in
  let y_pred := List.map snd pairs in
  let labels := unique_labels y_true y_pred in
  sumZ (List.map (fun c => count_pairs y_true y_pred c c) labels)
  = Z.of_nat (length (filter (fun tp => Z.eqb (fst tp) (snd tp)) pairs)).
Proof.
  cbv zeta. set (labels := unique_labels _ _).
  assert (Hnd : NoDup labels) by apply sorted_NoDup, sorted_set_sorted.
  unfold count_pairs. rewrite combine_fst_snd.
  rewrite <- (sumZ_count_by_key (fun tp => Z.eqb (fst tp) (snd tp)) fst labels pairs Hnd
                                (unique_labels_fst pairs)).
  f_equal. apply map_ext. intros c. f_equal. f_equal. apply filter_ext.
  intros (t, p). cbn [fst snd].
  destruct (Z.eqb_spec t c), (Z.eqb_spec p c), (Z.eqb_spec t p); try reflexivity; lia.
Qed.

Lemma validate_classification_lengths (prediction ground_truth : ndarray Z) :
  length (flat prediction) <> length (flat ground_truth) ->
  Validation.validate_classification prediction ground_truth = Raise IndexError.
Proof.
  intros N. unfold Validation.validate_classification, flatten, getitem_mask.
  rewrite length_map.
  destruct (Nat.eqb_spec (length (flat ground_truth)) (length (flat prediction)));
    [congruence | reflexivity].
Qed.

End ValidatorFacts.

(** X18.  For two grids with the same number of cells the validator returns
    a result exactly when four distinct labels occur among the ground-truth
    and predicted labels of the labelled pixels: then the confusion matrix is
    4 x 4 and the report has one row per class name; otherwise (a class that
    is absent from the scene, a predicted label 0 or 5) the metrics refuse the
    four class names with [ValueError]. *)
Theorem validator_needs_exactly_four_labels (prediction ground_truth : ndarray Z) :
  length (flat prediction) = length (flat ground_truth) ->
  let pairs := Validation.labelled_pairs prediction ground_truth in
  let labels := Metrics.unique_labels (List.map fst pairs) (List.map snd pairs) in
  (length labels = 4%nat ->
   exists (cm : list (list Z)) (report : Metrics.report),
     Validation.validate_classification prediction ground_truth = Ok (cm, report)
     /\ List.map fst (Metrics.per_class report)
        = ["Water"; "Vegetation"; "Built-up"; "Barren"]%string
     /\ length cm = 4%nat
     /\ Forall (fun row => length row = 4%nat) cm)
  /\ (length labels <> 4%nat ->
      Validation.validate_classification prediction ground_truth = Raise ValueError).
Proof.
  intros E pairs labels.
  rewrite (validate_classification_pairs _ _ E). fold pairs.
  unfold Validation.calculate_metrics, Metrics.confusion_matrix,
    Metrics.classification_report.
  rewrite !length_map, Nat.eqb_refl. cbn [negb bind]. fold labels.
  split.
  - intros H4. rewrite H4. cbn [length Nat.eqb negb bind].
    eexists. eexists. split; [reflexivity |].
    cbn [Metrics.per_class].
    destruct labels as [| a [| b [| c [| d [| e rest]]]]]; try discriminate.
    split; [reflexivity |]. split; [reflexivity |]. repeat constructor.
  - intros N4. cbn [length].
    destruct (Nat.eqb_spec (length labels) 4) as [| _]; [contradiction |].
    reflexivity.
Qed.

Lemma validator_needs_exactly_four_labels_witness :
  Validation.validate_classification
    (mk_ndarray 1 4 [1; 2; 2; 1]%Z) (mk_ndarray 1 4 [1; 2; 3; 0]%Z)
  = Raise ValueError.
Proof.
  refine (proj2 (validator_needs_exactly_four_labels
                   (mk_ndarray 1 4 [1; 2; 2; 1]%Z) (mk_ndarray 1 4 [1; 2; 3; 0]%Z)
                   eq_refl) _).
  vm_compute. discriminate.
Defined.

(** X19.  Whenever the validator returns, the entries of the confusion
    matrix add up to the number of labelled pixels, its trace is the number
    of labelled pixels that were predicted correctly, and the accuracy of the
    report is the trace divided by the sum. *)
Theorem confusion_matrix_accounts_for_every_pixel
        (prediction ground_truth : ndarray Z)
        (cm : list (list Z)) (report : Metrics.report) :
  Validation.validate_classification prediction ground_truth = Ok (cm, report) ->
  let pairs := Validation.labelled_pairs prediction ground_truth in
  TemporalAnalysis.matrix_sum cm = Z.of_nat (length pairs)
  /\ TemporalAnalysis.trace cm
     = Z.of_nat (length (filter (fun tp => Z.eqb (fst tp) (snd tp)) pairs))
  /\ Metrics.accuracy report
     = Metrics.ratio (TemporalAnalysis.trace cm) (TemporalAnalysis.matrix_sum cm).
Proof.
  intros Hok pairs.
  destruct (Nat.eq_dec (length (flat prediction)) (length (flat ground_truth)))
    as [E | N];
    [| rewrite (validate_classification_lengths _ _ N) in Hok; discriminate].
  rewrite (validate_classification_pairs _ _ E) in Hok. fold pairs in Hok.
  pose proof (confusion_matrix_total pairs) as Htotal.
  pose proof (confusion_matrix_diagonal pairs) as Hdiag.
  cbv zeta in Htotal, Hdiag.
  revert Hok.
  unfold Validation.calculate_metrics, Metrics.confusion_matrix,
    Metrics.classification_report.
  rewrite !length_map, Nat.eqb_refl. cbn [negb bind].
  set (labels := Metrics.unique_labels (List.map fst pairs) (List.map snd pairs)) in *.
  cbn [length].
  destruct (Nat.eqb_spec (length labels) 4) as [H4 |]; [| discriminate].
  cbn [negb bind]. intros [= <- <-].
  assert (Hsum : TemporalAnalysis.matrix_sum
                   (List.map (fun t => List.map
                                (fun p => Metrics.count_pairs (List.map fst pairs)
                                            (List.map snd pairs) t p) labels) labels)
                 = Z.of_nat (length pairs)) by exact Htotal.
  assert (Htrace : TemporalAnalysis.trace
                     (List.map (fun t => List.map
                                  (fun p => Metrics.count_pairs (List.map fst pairs)
                                              (List.map snd pairs) t p) labels) labels)
                   = Z.of_nat (length (filter (fun tp => Z.eqb (fst tp) (snd tp)) pairs))).
  { rewrite <- Hdiag.
    destruct labels as [| a [| b [| c [| d [| e rest]]]]]; try discriminate.
    unfold TemporalAnalysis.trace, TemporalAnalysis.diag, TemporalAnalysis.entry.
    cbn [length seq List.map nth fold_right]. reflexivity. }
  rewrite Hsum, Htrace. split; [reflexivity |]. split; [reflexivity |].
  cbn [Metrics.accuracy]. unfold Metrics.count_if.
  now rewrite combine_fst_snd.
Qed.

Lemma confusion_matrix_accounts_for_every_pixel_witness :
  exists (cm : list (list Z)) (report : Metrics.report),
    Validation.validate_classification Scenario.predicted_2x3 Scenario.truth_3x2
    = Ok (cm, report)
    /\ TemporalAnalysis.matrix_sum cm = 5%Z
    /\ TemporalAnalysis.trace cm = 4%Z.
Proof.
  destruct (Validation.validate_classification Scenario.predicted_2x3 Scenario.truth_3x2)
    as [(cm, report) |] eqn:Hv; [| vm_compute in Hv; discriminate].
  destruct (confusion_matrix_accounts_for_every_pixel _ _ _ _ Hv) as (Hsum & Htrace & _).
  exists cm, report. split; [reflexivity |]. split; [exact Hsum | exact Htrace].
Defined.

(** ** Properties of [src/preprocessing.py] *)

Section NormalisationFacts.

Import Preprocessing.
Open Scope float_scope.

Lemma SFcompare_refl_finite (s : bool) (m : positive) (e : Z) :
  SFcompare (S754_finite s m e) (S754_finite s m e) = Some Eq.
Proof.
  unfold SFcompare. rewrite Z.compare_refl.
  destruct s; now rewrite ?Pos.compare_cont_refl, ?Pos.compare_refl.
Qed.

Lemma is_nan_inv (x : float) : is_nan x = true -> x = nan.
Proof.
  unfold is_nan. rewrite eqb_spec. intros H. apply Prim2SF_inj.
  rewrite Prim2SF_nan. unfold SFeqb in H.
  destruct (Prim2SF x) as [s | s | | s m e]; try reflexivity.
  - now destruct s.
  - now destruct s.
  - now rewrite SFcompare_refl_finite in H.
Qed.

Lemma leb_nan_r (x : float) : (x <=? nan) = false.
Proof.
  rewrite leb_spec, Prim2SF_nan. unfold SFleb, SFcompare. now destruct (Prim2SF x).
Qed.

Lemma minimum_nan_l (b : float) : minimum nan b = nan.
Proof.
  unfold minimum. change (is_nan nan) with true. now rewrite orb_true_r.
Qed.

Lemma minimum_nan_r (a : float) : minimum a nan = nan.
Proof.
  unfold minimum. rewrite leb_nan_r. cbn [orb].
  destruct (is_nan a) eqn:E; [now apply is_nan_inv | reflexivity].
Qed.

Lemma maximum_nan_l (b : float) : maximum nan b = nan.
Proof.
  unfold maximum. change (is_nan nan) with true. now rewrite orb_true_r.
Qed.

Lemma maximum_nan_r (a : float) : maximum a nan = nan.
Proof.
  unfold maximum.
  assert (H : (nan <=? a) = false).
  { rewrite leb_spec, Prim2SF_nan. reflexivity. }
  rewrite H. cbn [orb].
  destruct (is_nan a) eqn:E; [now apply is_nan_inv | reflexivity].
Qed.

(** A reduction over cells of which one is [nan] is [nan]. *)
Lemma fold_nan (f : float -> float -> float) (rest : list float) (x : float) :
  (forall b, f nan b = nan) -> (forall a, f a nan = nan) ->
  In nan (x :: rest) -> fold_left f rest x = nan.
Proof.
  intros Hl Hr. revert x. induction rest as [| y rest IH]; intros x Hin.
  - destruct Hin as [-> | []]. reflexivity.
  - cbn [fold_left]. apply IH.
    destruct Hin as [-> | [-> | Hin]].
    + left. apply Hl.
    + left. apply Hr.
    + now right.
Qed.

(** A reduction over equal cells is that cell. *)
Lemma fold_constant (f : float -> float -> float) (rest : list float) (c : float) :
  f c c = c -> Forall (fun x => x = c) rest -> fold_left f rest c = c.
Proof.
  intros Hc H. induction H as [| y rest -> _ IH]; [reflexivity |].
  cbn [fold_left]. now rewrite Hc.
Qed.

Lemma cells_map (f : float -> float) (img : image) :
  cells (List.map (Np.map f) img) = List.map f (cells img).
Proof.
  unfold cells. induction img as [| b img IH]; [reflexivity |].
  cbn [List.map concat]. rewrite IH, map_app. reflexivity.
Qed.

(** [normalize_image] on an image with at least one cell: the two
    reductions succeed and every cell goes through the same formula. *)
Lemma normalize_image_cells (img : image) (x : float) (rest : list float) :
  cells img = x :: rest ->
  let lowest := fold_left minimum rest x in
  let highest := fold_left maximum rest x in
  normalize_image img
  = Ok (List.map (Np.map (fun c => (c - lowest) / (highest - lowest))) img).
Proof.
  intros E. cbv zeta. unfold normalize_image, amin, amax. rewrite E. cbn [bind].
  rewrite map_map. f_equal. apply map_ext. intros b.
  unfold Np.map. cbn [nrows ncols flat]. now rewrite map_map.
Qed.

End NormalisationFacts.

(** X20.  [normalize_image] raises [ValueError] on an image without any
    cell (the minimum of nothing) and nothing otherwise: an image with at
    least one cell gives an image of the same band shapes and the same number
    of cells. *)
Theorem normalize_image_needs_a_cell (img : image) :
  (Preprocessing.cells img = [] ->
   Preprocessing.normalize_image img = Raise ValueError)
  /\ (Preprocessing.cells img <> [] ->
      exists out : image,
        Preprocessing.normalize_image img = Ok out
        /\ List.map shape out = List.map shape img
        /\ length (Preprocessing.cells out) = length (Preprocessing.cells img)).
Proof.
  split.
  - intros E. unfold Preprocessing.normalize_image. now rewrite E.
  - intros N. destruct (Preprocessing.cells img) as [| x rest] eqn:E; [congruence |].
    rewrite (normalize_image_cells img x rest E).
    eexists. split; [reflexivity |]. split.
    + rewrite map_map. apply map_ext. intros b. reflexivity.
    + now rewrite cells_map, length_map, E.
Qed.

(** X21.  An image whose cells all hold one value (of any kind: finite,
    infinite or [nan]) is normalised to [nan] everywhere: the extent
    [max - min] is zero and every cell is [0 / 0]. *)
Theorem normalize_constant_image_is_nan (img : image) (c : float) :
  Preprocessing.cells img <> [] ->
  Forall (fun x => x = c) (Preprocessing.cells img) ->
  exists out : image,
    Preprocessing.normalize_image img = Ok out
    /\ List.map shape out = List.map shape img
    /\ Forall (fun x => x = nan) (Preprocessing.cells out).
Proof.
  intros N Hc. destruct (Preprocessing.cells img) as [| x rest] eqn:E; [congruence |].
  rewrite (normalize_image_cells img x rest E).
  apply Forall_cons_iff in Hc. destruct Hc as [-> Hrest].
  rewrite (fold_constant Preprocessing.minimum rest c) by
    (try exact Hrest; unfold Preprocessing.minimum; now destruct (_ || _)).
  rewrite (fold_constant Preprocessing.maximum rest c) by
    (try exact Hrest; unfold Preprocessing.maximum; now destruct (_ || _)).
  eexists. split; [reflexivity |]. split.
  - rewrite map_map. apply map_ext. intros b. reflexivity.
  - rewrite cells_map, E. apply Forall_forall. intros y Hy.
    apply in_map_iff in Hy. destruct Hy as (z & <- & Hz).
    assert (z = c).
    { destruct Hz as [<- | Hz]; [reflexivity |].
      rewrite Forall_forall in Hrest. now apply Hrest. }
    subst z. destruct (sub_diag c) as [-> | ->]; reflexivity.
Qed.

Lemma normalize_constant_image_is_nan_witness :
  exists out : image,
    Preprocessing.normalize_image [mk_ndarray 1 2 [7; 7]%float] = Ok out
    /\ Forall (fun x => x = nan) (Preprocessing.cells out).
Proof.
  destruct (normalize_constant_image_is_nan [mk_ndarray 1 2 [7; 7]%float] 7%float)
    as (out & Hout & _ & Hnan).
  - discriminate.
  - repeat constructor.
  - exists out. split; [exact Hout | exact Hnan].
Defined.

(** X22.  A single [nan] cell spoils the whole image: the minimum is [nan]
    and every cell of the normalised image is [nan]. *)
Theorem normalize_image_spreads_nan (img : image) :
  In nan (Preprocessing.cells img) ->
  exists out : image,
    Preprocessing.normalize_image img = Ok out
    /\ List.map shape out = List.map shape img
    /\ length (Preprocessing.cells out) = length (Preprocessing.cells img)
    /\ Forall (fun x => x = nan) (Preprocessing.cells out).
Proof.
  intros Hin. destruct (Preprocessing.cells img) as [| x rest] eqn:E; [destruct Hin |].
  rewrite (normalize_image_cells img x rest E).
  rewrite (fold_nan Preprocessing.minimum rest x minimum_nan_l minimum_nan_r Hin).
  eexists. split; [reflexivity |]. split; [| split].
  - rewrite map_map. apply map_ext. intros b. reflexivity.
  - now rewrite cells_map, length_map, E.
  - rewrite cells_map. apply Forall_forall. intros y Hy.
    apply in_map_iff in Hy. destruct Hy as (z & <- & _).
    now rewrite sub_nan_r, div_nan_l.
Qed.

Lemma normalize_image_spreads_nan_witness :
  exists out : image,
    Preprocessing.normalize_image [mk_ndarray 1 3 [1; nan; 3]%float] = Ok out
    /\ Preprocessing.cells out = [nan; nan; nan].
Proof.
  destruct (normalize_image_spreads_nan [mk_ndarray 1 3 [1; nan; 3]%float])
    as (out & Hout & _ & _ & _).
  - right. left. reflexivity.
  - exists out. split; [exact Hout |].
    vm_compute in Hout. injection Hout as <-. reflexivity.
Defined.

(** On an image with distinct finite values the darkest cell goes to 0 and
    the brightest to 1. *)
Example normalize_image_example :
  Preprocessing.normalize_image [mk_ndarray 1 3 [2; 4; 10]%float]
  = Ok [mk_ndarray 1 3 [0; 0.25; 1]%float].
Proof. reflexivity. Qed.

Section Quotients.

Open Scope float_scope.





End Quotients.

Section Endpoints.

Import Preprocessing.
Open Scope float_scope.





End Endpoints.



(** ** Properties of [src/simple_classification.py] *)

Section TwoPipelines.

Import Sklearn Classification SimpleClassification.

Lemma zip_with_map_seq {A B C : Type} (d : A) (f : A -> B -> C) (r : list A)
      (g : nat -> B) :
  zip_with f r (List.map g (seq 0 (length r)))
  = List.map (fun p => f (nth p r d) (g p)) (seq 0 (length r)).
Proof.
  revert g. induction r as [| x r IH]; intros g; [reflexivity |].
  cbn [length seq]. rewrite <- seq_shift. cbn [List.map]. rewrite !map_map.
  unfold zip_with in *. cbn [List.map combine fst snd nth]. f_equal.
  apply (IH (fun p => g (S p))).
Qed.

(** Transposing the flattened bands gives the rows read pixel by pixel. *)
Lemma transpose_rows {A : Type} (d : A) (n : nat) (rows : list (list A)) :
  Forall (fun r => length r = n) rows ->
  transpose n rows
  = List.map (fun p => List.map (fun r => nth p r d) rows) (seq 0 n).
Proof.
  induction 1 as [| r rows Hr _ IH]; cbn [transpose].
  - rewrite (map_ext _ (fun _ => @nil A)) by reflexivity.
    induction n as [| n IHn]; [reflexivity |].
    cbn [repeat seq]. rewrite <- seq_shift. cbn [List.map]. rewrite map_map.
    now f_equal.
  - rewrite IH. subst n. rewrite (zip_with_map_seq d). reflexivity.
Qed.

Lemma samples_pixel_rows (sentinel : image) :
  Forall (fun b => length (flat b)
                   = (fst (image_shape sentinel) * snd (image_shape sentinel))%nat)
         sentinel ->
  samples sentinel = pixel_rows sentinel.
Proof.
  intros H. unfold samples, pixel_rows.
  destruct (image_shape sentinel) as [h w]. cbn [fst snd] in H.
  rewrite (transpose_rows nan).
  - apply map_ext. intros p. now rewrite map_map.
  - apply Forall_forall. intros r Hr. apply in_map_iff in Hr.
    destruct Hr as (b & <- & Hb). rewrite Forall_forall in H. now apply H.
Qed.

End TwoPipelines.

(** X23.  The script and the class build the same data.  On a raster with
    at least one band, well-formed bands and a label grid of one shape,
    [prepare_training_data] is [load_and_prepare_data] followed by the 80/20
    split with seed 42 (moving the band axis last and reshaping gives the
    rows that reshaping and transposing gives); and [classify_image] with a
    forest returns what [predict] of a classifier holding that forest
    returns. *)
Theorem script_and_class_pipelines_agree
        (M : Type) (E : Sklearn.Estimator M) (R : Sklearn.RandomState)
        (sentinel : image) (labels : ndarray Z) (s : nat * nat) :
  sentinel <> [] ->
  Forall (fun b => shape b = s /\ well_formed b) sentinel ->
  shape labels = s -> well_formed labels ->
  @Classification.prepare_training_data R sentinel labels
  = (Xy <- SimpleClassification.load_and_prepare_data sentinel [labels] ;;
     @Sklearn.train_test_split _ _ R (fst Xy) (snd Xy) 0.2%float 42%Z)
  /\ forall (clf : M) (self : Classification.LandCoverClassifier M),
       Classification.model self = Some clf ->
       SimpleClassification.classify_image clf sentinel
       = Classification.predict self sentinel.
Proof.
  intros Hne Hs Hl Wl.
  assert (Hrows : SimpleClassification.samples sentinel
                  = Classification.pixel_rows sentinel).
  { apply samples_pixel_rows. destruct sentinel as [| band rest]; [constructor |].
    cbn [Classification.image_shape].
    assert (Hb : shape band = s) by (apply Forall_cons_iff in Hs; tauto).
    eapply Forall_impl; [| exact Hs]. intros b [Hshape Wb].
    unfold well_formed in Wb. rewrite Wb. unfold shape in *.
    rewrite <- Hb in Hshape. injection Hshape as -> ->. reflexivity. }
  split.
  - unfold Classification.prepare_training_data,
      SimpleClassification.load_and_prepare_data, SimpleClassification.reshape_1d.
    rewrite Hrows. unfold flatten. cbn [List.map concat]. rewrite app_nil_r.
    destruct (Classification.image_shape sentinel) as [h w] eqn:Eshape.
    destruct sentinel as [| band rest]; [congruence |].
    assert (Hb : shape band = s) by (apply Forall_cons_iff in Hs; tauto).
    cbn [Classification.image_shape] in Eshape.
    assert (Hn : length (flat labels) = (h * w)%nat).
    { unfold well_formed in Wl. rewrite Wl. unfold shape in *.
      rewrite <- Hb in Hl. rewrite Eshape in Hl. now injection Hl as -> ->. }
    rewrite Hn, Nat.eqb_refl. cbn [bind].
    destruct (getitem_mask (Classification.pixel_rows (band :: rest)) _);
      cbn [bind]; [| reflexivity].
    destruct (getitem_mask (flat labels) _); reflexivity.
  - intros clf self Hm.
    unfold SimpleClassification.classify_image, Classification.predict,
      Classification.fitted_model.
    rewrite Hm, Hrows. destruct (Classification.image_shape sentinel). reflexivity.
Qed.

Lemma script_and_class_pipelines_agree_witness :
  @Classification.prepare_training_data ReferenceForest.identity_shuffle
    Scenario.training_features Scenario.training_labels
  = (Xy <- SimpleClassification.load_and_prepare_data
             Scenario.training_features [Scenario.training_labels] ;;
     @Sklearn.train_test_split _ _ ReferenceForest.identity_shuffle
       (fst Xy) (snd Xy) 0.2%float 42%Z).
Proof.
  refine (proj1 (script_and_class_pipelines_agree
                   ReferenceForest.stump _ ReferenceForest.identity_shuffle
                   Scenario.training_features Scenario.training_labels (1, 5)%nat
                   _ _ eq_refl eq_refl)).
  - discriminate.
  - repeat constructor.
Defined.

Section ScriptPipeline.

Import Sklearn SimpleClassification.

Context {M : Type} `{EstimatorLaws M} {rng : RandomState}.

(** The forest returned by [train_classifier] was fitted on the training
    part of the split. *)
Lemma train_classifier_Ok (X : list row) (y : list Z) (clf : M) :
  train_classifier X y = Ok clf ->
  exists X_train X_test y_train y_test,
    train_test_split X y 0.2%float 42%Z = Ok (X_train, X_test, y_train, y_test)
    /\ fit 100 42%Z X_train y_train = Ok clf.
Proof.
  unfold train_classifier. intros Hs.
  apply bind_Ok in Hs. destruct Hs as ((((X_train, X_test), y_train), y_test) & Es & Hs).
  apply bind_Ok in Hs. destruct Hs as (m & Ef & Hs).
  apply bind_Ok in Hs. destruct Hs as (s1 & _ & Hs).
  apply bind_Ok in Hs. destruct Hs as (s2 & _ & Hs).
  injection Hs as <-. now exists X_train, X_test, y_train, y_test.
Qed.

Lemma load_and_prepare_data_labels (sentinel : image) (landcover : list (ndarray Z))
      (X : list row) (y : list Z) :
  load_and_prepare_data sentinel landcover = Ok (X, y) ->
  forall c, In c y -> c <> 0%Z /\ In c (concat (List.map flat landcover)).
Proof.
  unfold load_and_prepare_data, reshape_1d.
  destruct (Classification.image_shape sentinel) as [h w].
  destruct (Nat.eqb _ (h * w)); cbn [bind]; [| discriminate].
  intros Hs. apply bind_Ok in Hs. destruct Hs as (X' & _ & Hs).
  apply bind_Ok in Hs. destruct Hs as (y' & Ey & Hs).
  injection Hs as <- <-. unfold getitem_mask in Ey.
  rewrite length_map, Nat.eqb_refl in Ey. injection Ey as <-.
  intros c Hc. apply compress_In in Hc. destruct Hc as [Hnz Hin].
  split; [| exact Hin]. intros ->. discriminate.
Qed.

End ScriptPipeline.

(** X24.  The script pipeline never predicts background.  With rows and
    labels from [load_and_prepare_data] and the forest from
    [train_classifier] on them, [classify_image] on a raster of well-formed
    bands of one shape whose rows the forest accepts returns a label grid of
    that shape, and every label is a nonzero label of the training data. *)
Theorem script_predictions_are_training_classes
        (M : Type) (E : Sklearn.Estimator M) (L : Sklearn.EstimatorLaws M)
        (R : Sklearn.RandomState)
        (sentinel : image) (landcover : list (ndarray Z))
        (X : list Sklearn.row) (y : list Z) (clf : M)
        (grid : image) (s : nat * nat) :
  SimpleClassification.load_and_prepare_data sentinel landcover = Ok (X, y) ->
  SimpleClassification.train_classifier X y = Ok clf ->
  grid <> [] ->
  Forall (fun b => shape b = s /\ well_formed b) grid ->
  Sklearn.valid_rows (Sklearn.n_features_in_ clf) (SimpleClassification.samples grid)
    = true ->
  exists predictions : ndarray Z,
    SimpleClassification.classify_image clf grid = Ok predictions
    /\ shape predictions = s
    /\ well_formed predictions
    /\ Forall (fun c => c <> 0%Z /\ In c y) (flat predictions).
Proof.
  intros Hload Htrain Hne Hs V.
  destruct (train_classifier_Ok _ _ _ Htrain)
    as (X_train & X_test & y_train & y_test & Hsplit & Hfit).
  destruct grid as [| band rest]; [congruence |].
  assert (Hb : shape band = s /\ well_formed band) by (apply Forall_cons_iff in Hs; tauto).
  assert (Hrows : SimpleClassification.samples (band :: rest)
                  = Classification.pixel_rows (band :: rest)).
  { apply samples_pixel_rows. cbn [Classification.image_shape].
    eapply Forall_impl; [| exact Hs]. intros b [Hshape Wb].
    unfold well_formed in Wb. rewrite Wb. unfold shape in *.
    destruct Hb as [Hb _]. rewrite <- Hb in Hshape.
    injection Hshape as -> ->. reflexivity. }
  pose proof (Sklearn.predict_accepts _ _ _ _ _ _ Hfit V) as Hok.
  destruct (Sklearn.predict clf (SimpleClassification.samples (band :: rest)))
    as [p |] eqn:P; [| discriminate].
  destruct (Sklearn.predict_classes _ _ _ _ _ _ _ Hfit P) as [Hlen Hin].
  rewrite Hrows, pixel_rows_length in Hlen.
  exists (mk_ndarray (nrows band) (ncols band) p).
  split; [| split; [exact (proj1 Hb) | split; [exact Hlen |]]].
  - unfold SimpleClassification.classify_image. cbn [Classification.image_shape].
    unfold shape. rewrite P. cbn [bind]. now rewrite Hlen, Nat.eqb_refl.
  - cbn [flat]. eapply Forall_impl; [| exact Hin].
    intros c Hc. apply (Sklearn.fit_classes _ _ _ _ _ Hfit) in Hc.
    apply (train_test_split_labels _ _ _ _ _ _ _ _ Hsplit) in Hc.
    split; [| exact Hc].
    exact (proj1 (load_and_prepare_data_labels _ _ _ _ Hload c Hc)).
Qed.

Lemma script_predictions_are_training_classes_witness :
  exists (X : list Sklearn.row) (y : list Z) (clf : ReferenceForest.stump)
         (predictions : ndarray Z),
    SimpleClassification.load_and_prepare_data
      Scenario.training_features [Scenario.training_labels] = Ok (X, y)
    /\ SimpleClassification.train_classifier X y = Ok clf
    /\ SimpleClassification.classify_image clf Scenario.training_features = Ok predictions
    /\ Forall (fun c => c <> 0%Z) (flat predictions).
Proof.
  destruct (SimpleClassification.load_and_prepare_data
              Scenario.training_features [Scenario.training_labels])
    as [(X, y) |] eqn:Hload; [| vm_compute in Hload; discriminate].
  destruct (SimpleClassification.train_classifier X y) as [clf |] eqn:Htrain;
    [| vm_compute in Hload; injection Hload as <- <-;
       vm_compute in Htrain; discriminate].
  assert (V : Sklearn.valid_rows (Sklearn.n_features_in_ clf)
                (SimpleClassification.samples Scenario.training_features) = true).
  { vm_compute in Hload. injection Hload as <- <-.
    vm_compute in Htrain. injection Htrain as <-. vm_compute. reflexivity. }
  destruct (script_predictions_are_training_classes
              ReferenceForest.stump _ stump_laws _
              Scenario.training_features [Scenario.training_labels]
              X y clf Scenario.training_features (1, 5)%nat Hload Htrain)
    as (predictions & Hpred & _ & _ & Hin).
  - discriminate.
  - repeat constructor.
  - exact V.
  - exists X, y, clf, predictions.
    split; [reflexivity |]. split; [exact Htrain |]. split; [exact Hpred |].
    eapply Forall_impl; [| exact Hin]. intros c Hc. exact (proj1 Hc).
Defined.
